(** * SwiggyIt: the invoice and summary extractors

    A shallow embedding of [src/parser/summary_parser.py],
    [src/parser/food_parser.py] and [src/parser/instamart_parser.py],
    with the properties of their specification stated and settled on it,
    and of what the pipeline does around them: the checks of
    [src/validator.py], the loop of [src/downloader.py] and the order key
    of [src/loader.py].

    Python values are modelled as follows.
    - [str]: a list of Unicode code points ([list N]).  The tables of
      [isspace], [isdecimal] and [isdigit_char] are those of Python 3.11
      (Unicode 14.0) on every code point.  [lower_char] is Python's on
      U+0000..U+00FF; above that range only the code points that lower to
      an ASCII letter are lowered.
    - [float]: the decimal number that [float()] reads, kept exact
      ([pyfloat]); the double Python stores is its correctly rounded image,
      a function of that number, so equal decimals give equal doubles.  A
      number beyond the range of the doubles reads as [inf].
    - an exception: the [Raise] case of [result].
    - a [dict] with string keys: [gmap string _].
    - [None]-able cells and arguments: [option]. *)

From Stdlib Require Import ZArith NArith QArith Ascii String List Lia.
From stdpp Require Import base option list strings gmap.
Close Scope Q_scope.
Open Scope N_scope.

(** ** Exceptions *)

Inductive exn : Set :=
| ValueError
| IndexError
| AttributeError
| FileDataError.

Inductive result (A : Type) : Type :=
| Ok (a : A)
| Raise (e : exn).
Arguments Ok {A} a.
Arguments Raise {A} e.

#[global] Instance result_ret : MRet result := fun _ a => Ok a.
#[global] Instance result_bind : MBind result := fun _ _ f m =>
  match m with Ok a => f a | Raise e => Raise e end.

Definition is_ok {A} (r : result A) : bool :=
  match r with Ok _ => true | Raise _ => false end.

(** ** Strings *)

Abbreviation pystr := (list N).

Definition py (s : string) : pystr := map N_of_ascii (list_ascii_of_string s).

(** U+20B9, the rupee sign. *)
Definition RUPEE : N := 8377.
Definition COMMA : N := 44.
Definition PERIOD : N := 46.
Definition NEWLINE : N := 10.
Definition SPACE : N := 32.
Definition UNDERSCORE : N := 95.

Definition between (lo hi c : N) : bool := (lo <=? c) && (c <=? hi).

(** [str.isspace] on one character, also what [str.strip()], [str.split()]
    and the pattern class [\s] use. *)
Definition isspace (c : N) : bool :=
  between 9 13 c || between 28 32 c || (c =? 133) || (c =? 160)
  || (c =? 5760) || between 8192 8202 c || (c =? 8232) || (c =? 8233)
  || (c =? 8239) || (c =? 8287) || (c =? 12288).

(** The digits zero of Unicode 14.0, the tables of Python 3.11: each starts
    a run of ten decimal digits (category Nd), 0 to 9 in order. *)
Definition decimal_zeros : list N :=
  [48; 1632; 1776; 1984; 2406; 2534; 2662; 2790; 2918; 3046; 3174; 3302;
   3430; 3558; 3664; 3792; 3872; 4160; 4240; 6112; 6160; 6470; 6608; 6784;
   6800; 6992; 7088; 7232; 7248; 42528; 43216; 43264; 43472; 43504; 43600;
   44016; 65296; 66720; 68912; 69734; 69872; 69942; 70096; 70384; 70736;
   70864; 71248; 71360; 71472; 71904; 72016; 72784; 73040; 73120; 92768;
   92864; 93008; 120782; 120792; 120802; 120812; 120822; 123200; 123632;
   125264; 130032].

(** The zero of the run of decimal digits that holds [c]. *)
Definition zero_of (c : N) : option N :=
  List.find (fun z => between z (z + 9) c) decimal_zeros.

(** A decimal digit: what [int()], [float()], [str.isdecimal] and the
    pattern class [\d] accept. *)
Definition isdecimal (c : N) : bool :=
  match zero_of c with Some _ => true | None => false end.

(** The digits that are not decimal (superscripts, subscripts, circled and
    parenthesized digits and the like), as ranges of code points. *)
Definition other_digits : list (N * N) :=
  [(178, 179); (185, 185); (4969, 4977); (6618, 6618); (8304, 8304);
   (8308, 8313); (8320, 8329); (9312, 9320); (9332, 9340); (9352, 9360);
   (9450, 9450); (9461, 9469); (9471, 9471); (10102, 10110); (10112, 10120);
   (10122, 10130); (68160, 68163); (69216, 69224); (69714, 69722);
   (127232, 127242)].

(** [str.isdigit] on one character. *)
Definition isdigit_char (c : N) : bool :=
  isdecimal c || existsb (fun r => between r.1 r.2 c) other_digits.

(** The value of a decimal digit. *)
Definition digit_value (c : N) : N :=
  match zero_of c with Some z => c - z | None => 0 end.

(** [str.lower] on one character.  U+0130 lowers to two code points and
    U+212A to the ASCII letter k; other cased letters above U+00FF lower to
    code points above U+00FF and are left in place. *)
Definition lower_char (c : N) : pystr :=
  if between 65 90 c then [c + 32]
  else if between 192 222 c && negb (c =? 215) then [c + 32]
  else if c =? 304 then [105; 775]
  else if c =? 8490 then [107]
  else if c =? 8491 then [229]
  else [c].

Definition lower (s : pystr) : pystr := flat_map lower_char s.

Fixpoint lstrip_by (p : N -> bool) (s : pystr) : pystr :=
  match s with
  | c :: tl => if p c then lstrip_by p tl else s
  | [] => []
  end.

Definition rstrip_by (p : N -> bool) (s : pystr) : pystr :=
  rev (lstrip_by p (rev s)).

(** [s.strip()] *)
Definition strip (s : pystr) : pystr := rstrip_by isspace (lstrip_by isspace s).

(** [s.rstrip(chars)] *)
Definition rstrip (chars : pystr) (s : pystr) : pystr :=
  rstrip_by (fun c => existsb (N.eqb c) chars) s.

(** [s.replace(old, new)] for a one-character [old]. *)
Definition replace (old : N) (new : pystr) (s : pystr) : pystr :=
  flat_map (fun c => if c =? old then new else [c]) s.

(** [s.isdigit()] *)
Definition isdigit (s : pystr) : bool :=
  match s with [] => false | _ => forallb isdigit_char s end.

Definition str_eqb (a b : pystr) : bool := bool_decide (a = b).

Fixpoint startswith (pre s : pystr) : bool :=
  match pre, s with
  | [], _ => true
  | p :: pre', c :: s' => (p =? c) && startswith pre' s'
  | _ :: _, [] => false
  end.

(** [sub in s] *)
Fixpoint contains (sub s : pystr) : bool :=
  startswith sub s ||
  match s with
  | [] => false
  | _ :: tl => contains sub tl
  end.

(** [s.split(sep)] for a one-character separator: never empty. *)
Fixpoint split_on (sep : N) (s : pystr) : list pystr :=
  match s with
  | [] => [[]]
  | c :: tl =>
      if c =? sep then [] :: split_on sep tl
      else match split_on sep tl with
           | w :: ws => (c :: w) :: ws
           | [] => [[c]]
           end
  end.

(** [s.split()]: the maximal runs of non-space characters. *)
Fixpoint split_ws_aux (s : pystr) (cur : pystr) : list pystr :=
  match s with
  | [] => match cur with [] => [] | _ => [rev cur] end
  | c :: tl =>
      if isspace c
      then match cur with [] => split_ws_aux tl [] | _ => rev cur :: split_ws_aux tl [] end
      else split_ws_aux tl (c :: cur)
  end.

Definition split_ws (s : pystr) : list pystr := split_ws_aux s [].

(** [sep.join(parts)] *)
Fixpoint join (sep : pystr) (parts : list pystr) : pystr :=
  match parts with
  | [] => []
  | [w] => w
  | w :: ws => w ++ sep ++ join sep ws
  end.

(** [" ".join(s.split())] *)
Definition squeeze (s : pystr) : pystr := join [SPACE] (split_ws s).

(** Truth value of an optional string: [None] and [""] are false. *)
Definition truthy (v : option pystr) : bool :=
  match v with
  | None | Some [] => false
  | Some _ => true
  end.

(** [v or ""] *)
Definition or_empty (v : option pystr) : pystr :=
  match v with
  | None | Some [] => []
  | Some s => s
  end.

(** ** Numbers *)

(** The number a [float] literal denotes: [Fin neg m e] is (-1)^neg * m * 10^e. *)
Inductive pyfloat : Set :=
| Fin (neg : bool) (m : N) (e : Z)
| Inf (neg : bool)
| NaN.

(** [0.0] *)
Definition zero : pyfloat := Fin false 0 0.

Definition Qpow10 (e : Z) : Q := Qpower (inject_Z 10) e.

Definition Qvalue (neg : bool) (m : N) (e : Z) : Q :=
  ((if neg then (-1)%Z else 1%Z) * Z.of_N m # 1) * Qpow10 e.

(** Python's [==] on floats. *)
Definition float_eqb (x y : pyfloat) : bool :=
  match x, y with
  | Fin n1 m1 e1, Fin n2 m2 e2 => Qeq_bool (Qvalue n1 m1 e1) (Qvalue n2 m2 e2)
  | Inf a, Inf b => eqb a b
  | _, _ => false
  end.

(** The decimal literal with integer part [i], fraction [f] of [k] digits. *)
Definition dec (i f : N) (k : nat) : pyfloat :=
  Fin false (i * 10 ^ N.of_nat k + f) (- Z.of_nat k).

(** Underscores in a numeric string: each one stands between two digits.
    [prev] is the character before [s]. *)
Fixpoint underscores_ok (prev : N) (s : pystr) : bool :=
  match s with
  | [] => negb (prev =? UNDERSCORE)
  | c :: tl =>
      (if c =? UNDERSCORE then isdecimal prev
       else negb (prev =? UNDERSCORE) || isdecimal c)
      && underscores_ok c tl
  end.

(** A maximal run of decimal digits: its value continued from [acc], how many
    digits it has, and what follows. *)
Fixpoint digits (s : pystr) (acc : N) (n : nat) : N * nat * pystr :=
  match s with
  | c :: tl => if isdecimal c then digits tl (acc * 10 + digit_value c) (S n)
               else (acc, n, s)
  | [] => (acc, n, [])
  end.

Definition sign (s : pystr) : bool * pystr :=
  match s with
  | 43 :: tl => (false, tl)
  | 45 :: tl => (true, tl)
  | _ => (false, s)
  end.

(** The exponent part: [e] or [E], an optional sign, at least one digit. *)
Definition exponent (s : pystr) : option Z :=
  match s with
  | [] => Some 0%Z
  | c :: tl =>
      if (c =? 101) || (c =? 69) then
        let '(neg, tl') := sign tl in
        match digits tl' 0 0 with
        | (_, O, _) => None
        | (v, S _, []) => Some (if neg then (- Z.of_N v)%Z else Z.of_N v)
        | (_, S _, _ :: _) => None
        end
      else None
  end.

(** The number [m * 10^e] as [float()] returns it: [inf] from
    2^1024 - 2^970 on, the middle of the greatest double and 2^1024 (a tie
    goes to the even one, which is out of range). *)
Definition in_range (neg : bool) (m : N) (e : Z) : pyfloat :=
  if Qle_bool (inject_Z (2 ^ 1024 - 2 ^ 970)) (Qvalue false m e)
  then Inf neg else Fin neg m e.

(** [float(s)] for a string. *)
Definition float (s : pystr) : result pyfloat :=
  let t := strip s in
  if negb (underscores_ok 0 t) then Raise ValueError else
  let '(neg, body) := sign (replace UNDERSCORE [] t) in
  let word := lower body in
  if str_eqb word (py "inf") || str_eqb word (py "infinity") then Ok (Inf neg)
  else if str_eqb word (py "nan") then Ok NaN
  else
    let '(i, ni, r1) := digits body 0 0 in
    let '(m, nf, r2) :=
      match r1 with
      | c :: tl => if c =? PERIOD then digits tl i 0 else (i, O, r1)
      | [] => (i, O, r1)
      end in
    match (ni + nf)%nat with
    | O => Raise ValueError
    | S _ =>
        match exponent r2 with
        | Some e => Ok (in_range neg m (e - Z.of_nat nf))
        | None => Raise ValueError
        end
    end.

(** [int(s)] for a string; more than 4300 digits are refused
    ([sys.get_int_max_str_digits()], which the program leaves as it is). *)
Definition int (s : pystr) : result Z :=
  let t := strip s in
  if negb (underscores_ok 0 t) then Raise ValueError else
  let '(neg, body) := sign (replace UNDERSCORE [] t) in
  match digits body 0 0 with
  | (_, O, _) => Raise ValueError
  | (v, S n, []) =>
      if 4300 <? N.of_nat (S n) then Raise ValueError
      else Ok (if neg then (- Z.of_N v)%Z else Z.of_N v)
  | (_, S _, _ :: _) => Raise ValueError
  end.

(** ** Regular expressions

    The fragment of Python's [re] that the extractors use, with its
    backtracking order: alternatives left to right, greedy repetition
    longest first, lazy repetition shortest first. *)

Module Re.

Inductive regex : Type :=
| Eps
| Cls (p : N -> bool)              (* one character of a class *)
| Seq (a b : regex)
| Alt (a b : regex)
| Star (a : regex)                 (* a*  *)
| LazyStar (a : regex)             (* a*? *)
| Grp (n : nat) (a : regex)        (* capturing group number n *)
| Bol (multiline : bool)           (* ^ *)
| Eol (multiline : bool)           (* $ *)
| Ahead (a : regex).               (* (?=a) *)

(** Where a match stands: [pos] characters consumed, [rest] to come,
    [prev] the character just before, [groups] the captures so far,
    latest first. *)
Record mstate : Type := MState {
  pos : nat;
  rest : pystr;
  prev : option N;
  groups : list (nat * pystr)
}.

Definition at_bol (multiline : bool) (st : mstate) : bool :=
  match prev st with
  | None => true
  | Some c => multiline && (c =? NEWLINE)
  end.

Definition at_eol (multiline : bool) (st : mstate) : bool :=
  match rest st with
  | [] => true
  | c :: tl => (c =? NEWLINE) && (multiline || match tl with [] => true | _ => false end)
  end.

Definition capture (n : nat) (st st' : mstate) : mstate :=
  MState (pos st') (rest st') (prev st')
         ((n, take (pos st' - pos st) (rest st)) :: groups st').

Fixpoint run (r : regex) (st : mstate) (k : mstate -> option mstate)
  {struct r} : option mstate :=
  match r with
  | Eps => k st
  | Cls p =>
      match rest st with
      | c :: tl => if p c then k (MState (S (pos st)) tl (Some c) (groups st)) else None
      | [] => None
      end
  | Seq a b => run a st (fun st' => run b st' k)
  | Alt a b =>
      match run a st k with
      | Some m => Some m
      | None => run b st k
      end
  | Star a =>
      (fix loop (n : nat) (st : mstate) {struct n} : option mstate :=
         match n with
         | O => k st
         | S n' =>
             match run a st (fun st' => if (pos st <? pos st')%nat then loop n' st' else None) with
             | Some m => Some m
             | None => k st
             end
         end) (length (rest st)) st
  | LazyStar a =>
      (fix loop (n : nat) (st : mstate) {struct n} : option mstate :=
         match n with
         | O => k st
         | S n' =>
             match k st with
             | Some m => Some m
             | None => run a st (fun st' => if (pos st <? pos st')%nat then loop n' st' else None)
             end
         end) (length (rest st)) st
  | Grp n a => run a st (fun st' => k (capture n st st'))
  | Bol ml => if at_bol ml st then k st else None
  | Eol ml => if at_eol ml st then k st else None
  | Ahead a =>
      match run a st Some with
      | Some _ => k st
      | None => None
      end
  end.

(** [pattern.match(s)]: a match that starts at the first character. *)
Definition match_ (r : regex) (s : pystr) : option mstate :=
  run r (MState 0 s None []) Some.

Fixpoint search_from (r : regex) (p : nat) (pv : option N) (s : pystr)
  : option mstate :=
  match run r (MState p s pv []) Some with
  | Some m => Some m
  | None =>
      match s with
      | c :: tl => search_from r (S p) (Some c) tl
      | [] => None
      end
  end.

(** [re.search(pattern, s)]: the leftmost match. *)
Definition search (r : regex) (s : pystr) : option mstate :=
  search_from r 0 None s.

(** [m.group(n)] *)
Definition group (m : mstate) (n : nat) : pystr :=
  match find (fun g => Nat.eqb (fst g) n) (groups m) with
  | Some g => snd g
  | None => []
  end.

(** Pattern syntax. *)
Definition seqs (rs : list regex) : regex := foldr Seq Eps rs.
Definition lit (s : string) : regex := seqs (map (fun c => Cls (N.eqb c)) (py s)).
Definition chr (c : N) : regex := Cls (N.eqb c).
Definition plus (a : regex) : regex := Seq a (Star a).
Definition lazy_plus (a : regex) : regex := Seq a (LazyStar a).
Fixpoint rep (n : nat) (a : regex) : regex :=
  match n with O => Eps | S n' => Seq a (rep n' a) end.
Definition at_least (n : nat) (a : regex) : regex := Seq (rep n a) (Star a).

Definition s_ : regex := Cls isspace.                         (* \s *)
Definition S_ : regex := Cls (fun c => negb (isspace c)).     (* \S *)
Definition d_ : regex := Cls isdecimal.                       (* \d *)
Definition dot : regex := Cls (fun c => negb (c =? NEWLINE)). (* .  *)
Definition any : regex := Cls (fun _ => true).                (* . under DOTALL *)
Definition d_dot : regex :=                                   (* [\d.]  *)
  Cls (fun c => isdecimal c || (c =? PERIOD)).
Definition d_comma_dot : regex :=                             (* [\d,.] *)
  Cls (fun c => isdecimal c || (c =? COMMA) || (c =? PERIOD)).

End Re.

(** ** Indexing and loops *)

(** [l[i]] for [i >= 0] *)
Definition index {A} (l : list A) (i : nat) : result A :=
  match l !! i with
  | Some x => Ok x
  | None => Raise IndexError
  end.

(** [l[-1]] *)
Definition index_last {A} (l : list A) : result A :=
  match last l with
  | Some x => Ok x
  | None => Raise IndexError
  end.

(** A [for] loop over [xs] that threads [acc] and stops at the first
    exception. *)
Fixpoint for_each {A B} (f : B -> A -> result B) (acc : B) (xs : list A)
  : result B :=
  match xs with
  | [] => Ok acc
  | x :: tl =>
      match f acc x with
      | Ok acc' => for_each f acc' tl
      | Raise e => Raise e
      end
  end.

(** [next((r for r in xs if p(r)), None)], where the test itself may raise. *)
Fixpoint first_where {A} (p : A -> result bool) (xs : list A)
  : result (option A) :=
  match xs with
  | [] => Ok None
  | x :: tl =>
      match p x with
      | Ok true => Ok (Some x)
      | Ok false => first_where p tl
      | Raise e => Raise e
      end
  end.

(** What the extractors print. *)
Inductive message : Type :=
| FailedToOpen (file_name : pystr)
| UnexpectedTableStructure (file_name : pystr)
| CountMismatch (urls rows : nat) (file_name : pystr).

(** A value of mixed type, as a [dict] holds. *)
Inductive pyval : Type :=
| VStr (s : pystr)
| VInt (z : Z)
| VFloat (x : pyfloat).

(** [d.get(key, dflt)] *)
Definition get {V} (d : gmap string V) (key : string) (dflt : V) : V :=
  default dflt (d !! key).

(** ** The summary extractor *)

Module Summary.

Import Re.

Record OrderRow : Type := {
  date : pystr;
  order_id : pystr;
  name : pystr;
  amount : pyfloat;
  detail_url : pystr
}.

(** The fields read from the header dict hold whatever the dict holds. *)
Record SummaryData : Type := {
  order_type : pystr;
  customer_name : pyval;
  customer_email : pyval;
  number_of_orders : pyval;
  total_amount : pyval;
  date_range : pyval;
  orders : list OrderRow
}.

(** [_parse_amount]: no handler around [float], and [None.replace] is an
    [AttributeError]. *)
Definition _parse_amount (text : option pystr) : result pyfloat :=
  match text with
  | None => Raise AttributeError
  | Some t =>
      let cleaned := strip (replace COMMA [] (replace RUPEE [] t)) in
      float cleaned
  end.

(** [_detect_order_type], on [file_path.name]. *)
Definition _detect_order_type (file_name : pystr) : result pystr :=
  let name := lower file_name in
  if contains (py "food") name then Ok (py "food")
  else if contains (py "instamart") name then Ok (py "instamart")
  else Raise ValueError.

(** One turn of the loop of [_extract_header], at index [i]. *)
Definition header_step (lines : list pystr) (header : gmap string pyval)
  (i : nat) : result (gmap string pyval) :=
  line ← index lines i;
  if str_eqb (strip line) (py "Customer Name")
     && bool_decide (i + 5 < length lines)%nat then
    l3 ← index lines (i + 3);
    let header := <["customer_name" := VStr (strip l3)]> header in
    l4 ← index lines (i + 4);
    n ← int (strip l4);
    let header := <["number_of_orders" := VInt n]> header in
    l5 ← index lines (i + 5);
    a ← _parse_amount (Some (strip l5));
    Ok (<["total_amount" := VFloat a]> header)
  else if str_eqb (strip line) (py "Email")
          && bool_decide (i + 3 < length lines)%nat then
    l2 ← index lines (i + 2);
    let header := <["customer_email" := VStr (strip l2)]> header in
    l3 ← index lines (i + 3);
    Ok (<["date_range" := VStr (strip l3)]> header)
  else Ok header.

Definition _extract_header (lines : list pystr) : result (gmap string pyval) :=
  for_each (header_step lines) ∅ (seq 0 (length lines)).

(** A page as PyMuPDF gives it: its text, and for each link the target
    under the key ["uri"], if it has one. *)
Record page : Type := {
  get_text : pystr;
  get_links : list (option pystr)
}.

Definition _extract_urls (doc : list page) : list pystr :=
  flat_map (fun p => omap id (get_links p)) doc.

Definition DATE_PATTERN : regex :=
  seqs [Bol false; rep 2 d_; chr 45; rep 2 d_; chr 45; rep 4 d_; Eol false].
Definition ORDER_ID_PATTERN : regex :=
  seqs [Bol false; rep 15 d_; Eol false].
Definition AMOUNT_PATTERN : regex :=
  seqs [Bol false; chr RUPEE; plus d_comma_dot; Eol false].

Definition matches (r : regex) (s : pystr) : bool :=
  match match_ r s with Some _ => true | None => false end.

(** The dict that [_extract_order_rows] appends: always these four keys. *)
Record row : Type := {
  row_date : pystr;
  row_order_id : pystr;
  row_name : pystr;
  row_amount : pyfloat
}.

(** The row scan of one page.  [scan lines] is the outer [while] with [i]
    at the head of [lines]; [collect] is the inner [while], with the date
    and order id in hand and the name fragments so far. *)
Fixpoint scan (lines : list pystr) : result (list row) :=
  match lines with
  | [] => Ok []
  | l :: tl =>
      let line := strip l in
      if matches DATE_PATTERN line then
        match tl with
        | o :: tl' =>
            if matches ORDER_ID_PATTERN (strip o)
            then collect line (strip o) [] tl'
            else scan tl'
        | [] => Ok []
        end
      else scan tl
  end
with collect (date order_id : pystr) (name_parts : list pystr)
       (lines : list pystr) : result (list row) :=
  match lines with
  | [] => Ok []
  | c :: tl =>
      let candidate := strip c in
      if matches AMOUNT_PATTERN candidate then
        match _parse_amount (Some candidate) with
        | Raise e => Raise e
        | Ok amount =>
            let r := Build_row date order_id (join [SPACE] name_parts) amount in
            match
              match tl with
              | v :: tl' => if str_eqb (strip v) (py "View") then scan tl' else scan tl
              | [] => scan tl
              end
            with
            | Ok rs => Ok (r :: rs)
            | Raise e => Raise e
            end
        end
      else collect date order_id (name_parts ++ [candidate]) tl
  end.

Definition page_rows (p : page) : result (list row) :=
  scan (split_on NEWLINE (get_text p)).

Definition _extract_order_rows (doc : list page) : result (list row) :=
  for_each (fun rows p => rs ← page_rows p; Ok (rows ++ rs)) [] doc.

(** The loop of [parse_summary] that builds the [OrderRow]s. *)
Definition build_order (urls : list pystr) (i : nat) (r : row) : OrderRow :=
  let url := if bool_decide (i < length urls)%nat
             then default [] (urls !! i) else [] in
  {| date := row_date r; order_id := row_order_id r; name := row_name r;
     amount := row_amount r; detail_url := url |}.

Definition build_orders (urls : list pystr) (rows : list row) : list OrderRow :=
  imap (build_order urls) rows.

Definition count_warning (file_name : pystr) (urls : list pystr) (rows : list row)
  : list message :=
  if bool_decide (length urls ≠ length rows)
  then [CountMismatch (length urls) (length rows) file_name]
  else [].

(** A summary file: its name, and the document [fitz.open] gives, if it
    opens. *)
Record file : Type := {
  file_name : pystr;
  fitz_open : option (list page)
}.

(** [parse_summary]: what it prints and the record it returns. *)
Definition parse_summary (f : file) : result (list message * SummaryData) :=
  order_type ← _detect_order_type (file_name f);
  match fitz_open f with
  | None => Raise FileDataError
  | Some doc =>
      first ← index doc 0;
      header ← _extract_header (split_on NEWLINE (get_text first));
      let urls := _extract_urls doc in
      rows ← _extract_order_rows doc;
      Ok (count_warning (file_name f) urls rows,
          {| order_type := order_type;
             customer_name := get header "customer_name" (VStr []);
             customer_email := get header "customer_email" (VStr []);
             number_of_orders := get header "number_of_orders" (VInt 0);
             total_amount := get header "total_amount" (VFloat zero);
             date_range := get header "date_range" (VStr []);
             orders := build_orders urls rows |})
  end.

End Summary.

(** ** Tables

    What [page.extract_tables()] of pdfplumber gives: for each table its
    rows, for each row its cells, a cell being a string or [None]. *)

Abbreviation cell := (option (list N)).
Abbreviation table := (list (list (option (list N)))).

(** A detail file: its name, and for each page of the document its tables,
    if [pdfplumber.open] succeeds. *)
Record detail_file : Type := {
  detail_name : pystr;
  pdfplumber_open : option (list (list table))
}.

(** [row[0].strip().rstrip(".")], the text of the serial-number cell. *)
Definition serial_text (c : cell) : pystr := rstrip [PERIOD] (strip (or_empty c)).

(** [row[0] and row[0].strip().rstrip(".").isdigit()] *)
Definition is_serial (c : cell) : bool := truthy c && isdigit (serial_text c).

(** [int(c.strip()) if c else 0] *)
Definition int_or_zero (c : cell) : result Z :=
  if truthy c then int (strip (or_empty c)) else Ok 0%Z.

(** [re.search(pattern, t)] followed by [post(m.group(1)) if m else dflt]. *)
Definition field (r : Re.regex) (post : pystr -> pystr) (dflt : pystr)
  (t : pystr) : pystr :=
  match Re.search r t with
  | Some m => post (Re.group m 1)
  | None => dflt
  end.

(** A dict filled by the assignments [d[key] = value(entry)], one for each
    entry of [fields], in order. *)
Definition assign_all {A V} (value : A -> V) (fields : list (string * A))
  : gmap string V :=
  foldl (fun d kf => <[kf.1 := value kf.2]> d) ∅ fields.

(** [rate label]: the pattern [label\s+([\d.]+)%\s+([\d,.]+)] of the tax
    blocks. *)
Definition rate_pattern (label : string) : Re.regex :=
  Re.seqs [Re.lit label; Re.plus Re.s_; Re.Grp 1 (Re.plus Re.d_dot); Re.chr 37;
           Re.plus Re.s_; Re.Grp 2 (Re.plus Re.d_comma_dot)].

(** The pattern [label\s+([\d,.]+)]. *)
Definition total_pattern (label : string) : Re.regex :=
  Re.seqs [Re.lit label; Re.plus Re.s_; Re.Grp 1 (Re.plus Re.d_comma_dot)].

(** The pattern [label\s*(\S+)]. *)
Definition word_after (label : string) : Re.regex :=
  Re.seqs [Re.lit label; Re.Star Re.s_; Re.Grp 1 (Re.plus Re.S_)].

(** The pattern [label\s*(\d+)]. *)
Definition digits_after (label : string) : Re.regex :=
  Re.seqs [Re.lit label; Re.Star Re.s_; Re.Grp 1 (Re.plus Re.d_)].

(** The pattern [label\s*(.+?)$] under MULTILINE. *)
Definition line_after (label : string) : Re.regex :=
  Re.seqs [Re.lit label; Re.Star Re.s_; Re.Grp 1 (Re.lazy_plus Re.dot); Re.Eol true].

(** The pattern [label\s*(.+?)(?:\s{2,}next)]: up to the run of spaces before
    the label of the other column. *)
Definition column_after (label next : string) : Re.regex :=
  Re.seqs [Re.lit label; Re.Star Re.s_; Re.Grp 1 (Re.lazy_plus Re.dot);
           Re.at_least 2 Re.s_; Re.lit next].

(** The pattern [Date of Invoice:\s*(\d{2}-\d{2}-\d{4})]. *)
Definition date_of_invoice_pattern : Re.regex :=
  Re.seqs [Re.lit "Date of Invoice:"; Re.Star Re.s_;
           Re.Grp 1 (Re.seqs [Re.rep 2 Re.d_; Re.chr 45; Re.rep 2 Re.d_;
                              Re.chr 45; Re.rep 4 Re.d_])].

Definition newline_then (label : string) : Re.regex :=
  Re.Seq (Re.chr NEWLINE) (Re.lit label).

(** ** The food detail extractor *)

Module Food.

Import Re.

Record FoodItem : Type := {
  sr_no : Z;
  description : pystr;
  unit_of_measure : pystr;
  quantity : Z;
  unit_price : pyfloat;
  amount : pyfloat;
  discount : pyfloat;
  net_assessable_value : pyfloat
}.

Record FoodInvoice : Type := {
  order_id : pystr;
  invoice_no : pystr;
  date_of_invoice : pystr;
  document_type : pystr;
  hsn_code : pystr;
  service_description : pystr;
  category : pystr;
  reverse_charges : bool;
  customer_name : pystr;
  customer_gstin : pystr;
  customer_address : pystr;
  restaurant_name : pystr;
  restaurant_gstin : pystr;
  restaurant_fssai : pystr;
  restaurant_address : pystr;
  restaurant_state : pystr;
  place_of_supply : pystr;
  subtotal : pyfloat;
  igst_rate : pyfloat;
  igst_amount : pyfloat;
  cgst_rate : pyfloat;
  cgst_amount : pyfloat;
  sgst_rate : pyfloat;
  sgst_amount : pyfloat;
  total_taxes : pyfloat;
  invoice_total : pyfloat;
  eco_name : pystr;
  eco_gstin : pystr;
  eco_fssai : pystr;
  eco_address : pystr;
  items : list FoodItem
}.

(** [_parse_float] *)
Definition _parse_float (val : option pystr) : result pyfloat :=
  match val with
  | None | Some [] => Ok zero
  | Some v =>
      let cleaned := strip (replace RUPEE [] (replace COMMA [] v)) in
      match float cleaned with
      | Ok x => Ok x
      | Raise ValueError => Ok zero
      | Raise e => Raise e
      end
  end.

(** The header table: for each key of the dict that [_parse_header]
    returns, its pattern, what is done to group 1, and the default. *)
Definition restaurant_address_pattern : regex :=
  seqs [lit "Restaurant FSSAI License:"; LazyStar any; chr NEWLINE;
        lit "Address:"; Star s_; Grp 1 (lazy_plus any);
        Ahead (newline_then "State:")].

Definition header_fields : list (string * (regex * (pystr -> pystr) * pystr)) :=
  [ ("customer_name", (column_after "Invoice To:" "Invoice issued", strip, []));
    ("customer_gstin", (Seq (Bol true) (word_after "GSTIN:"), strip, []));
    ("customer_address",
      (column_after "Customer Address:" "Restaurant GSTIN", strip, []));
    ("order_id", (digits_after "Order ID:", strip, []));
    ("document_type", (word_after "Document:", strip, py "INV"));
    ("invoice_no", (word_after "Invoice No:", strip, []));
    ("date_of_invoice", (date_of_invoice_pattern, strip, []));
    ("hsn_code", (digits_after "HSN Code:", strip, []));
    ("restaurant_name", (line_after "Restaurant Name:", strip, []));
    ("restaurant_gstin", (word_after "Restaurant GSTIN:", strip, []));
    ("restaurant_fssai", (word_after "Restaurant FSSAI License:", strip, []));
    ("restaurant_address", (restaurant_address_pattern, squeeze, []));
    ("restaurant_state", (Seq (Bol true) (line_after "State:"), strip, []));
    ("place_of_supply", (line_after "Place of Supply:", strip, []));
    ("service_description", (line_after "Service Description:", strip, []));
    ("category", (word_after "Category:", strip, []));
    ("reverse_charges", (word_after "Reverse Charges Applicable:", strip, py "No")) ].

(** [_parse_header]: the assignments [data[key] = ...] in order. *)
Definition _parse_header (header_text : pystr) : gmap string (list N) :=
  assign_all (fun e => field e.1.1 e.1.2 e.2 header_text) header_fields.

(** One [if m:] block of [_parse_tax_block] with a rate and an amount. *)
Definition rate_and_amount (label : string) (rate_key amount_key : string)
  (parse_amount : option pystr -> result pyfloat)
  (tax_text : pystr) (taxes : gmap string pyfloat)
  : result (gmap string pyfloat) :=
  match search (rate_pattern label) tax_text with
  | Some m =>
      r ← float (group m 1);
      a ← parse_amount (Some (group m 2));
      Ok (<[amount_key := a]> (<[rate_key := r]> taxes))
  | None => Ok taxes
  end.

Definition amount_only (label : string) (key : string)
  (parse_amount : option pystr -> result pyfloat)
  (tax_text : pystr) (taxes : gmap string pyfloat)
  : result (gmap string pyfloat) :=
  match search (total_pattern label) tax_text with
  | Some m =>
      a ← parse_amount (Some (group m 1));
      Ok (<[key := a]> taxes)
  | None => Ok taxes
  end.

Definition zero_taxes : gmap string pyfloat :=
  list_to_map (map (fun k => (k, zero))
    ["igst_rate"; "igst_amount"; "cgst_rate"; "cgst_amount";
     "sgst_rate"; "sgst_amount"; "total_taxes"; "invoice_total"]).

(** [_parse_tax_block] *)
Definition _parse_tax_block (tax_text : pystr) : result (gmap string pyfloat) :=
  taxes ← rate_and_amount "IGST" "igst_rate" "igst_amount" _parse_float tax_text zero_taxes;
  taxes ← rate_and_amount "CGST" "cgst_rate" "cgst_amount" _parse_float tax_text taxes;
  taxes ← rate_and_amount "SGST/UTGST" "sgst_rate" "sgst_amount" _parse_float tax_text taxes;
  taxes ← amount_only "Total taxes" "total_taxes" _parse_float tax_text taxes;
  amount_only "Invoice Total" "invoice_total" _parse_float tax_text taxes.

(** The pattern [label\s*(.+?)(?:\n|$)]. *)
Definition to_line_end (label : string) : regex :=
  seqs [lit label; Star s_; Grp 1 (lazy_plus dot); Alt (chr NEWLINE) (Eol false)].

(** [_parse_eco_block] *)
Definition _parse_eco_block (eco_text : pystr) : gmap string (list N) :=
  <["eco_fssai" := field (word_after "Swiggy FSSAI:") strip [] eco_text]>
  (<["eco_gstin" := field (word_after "GSTIN:") strip [] eco_text]>
  (<["eco_address" := field (to_line_end "Address:") strip [] eco_text]>
  (<["eco_name" := field (to_line_end "Name:") strip [] eco_text]> ∅))).

(** Which cells hold the price, the amount, the discount and the net
    value: by the number of cells of the row. *)
Definition money_columns (row : list cell) : nat * nat * nat * nat :=
  if bool_decide (9 <= length row)%nat then (5, 6, 7, 8)%nat else (4, 5, 6, 7)%nat.

(** The body of the [isdigit] branch: the item of one row. *)
Definition item_of_row (row : list cell) : result FoodItem :=
  let '(ip, ia, id, inv) := money_columns row in
  uom ← index row 2;
  qty ← index row 3;
  price ← index row ip;
  amt ← index row ia;
  disc ← index row id;
  nav ← index row inv;
  c0 ← index row 0;
  sr ← int (serial_text c0);
  c1 ← index row 1;
  q ← int_or_zero qty;
  p ← _parse_float price;
  a ← _parse_float amt;
  d ← _parse_float disc;
  n ← _parse_float nav;
  Ok {| sr_no := sr;
        description := if truthy c1 then strip (or_empty c1) else [];
        unit_of_measure := if truthy uom then strip (or_empty uom) else [];
        quantity := q;
        unit_price := p; amount := a; discount := d;
        net_assessable_value := n |}.

(** The loop [for row in table[4:]], with the items so far; at its end
    the items and the subtotal. *)
Fixpoint scan_items (rows : list (list cell)) (items : list FoodItem)
  : result (list FoodItem * pyfloat) :=
  match rows with
  | [] => Ok (items, zero)
  | row :: tl =>
      c1 ← index row 1;
      if truthy c1 && str_eqb (strip (or_empty c1)) (py "Subtotal") then
        v ← index_last row;
        s ← _parse_float v;
        Ok (items, s)
      else
        c0 ← index row 0;
        if truthy c0 && contains (py "Subtotal") (or_empty c0) then
          v ← index_last row;
          s ← _parse_float v;
          Ok (items, s)
        else if is_serial c0 then
          it ← item_of_row row;
          scan_items tl (items ++ [it])
        else scan_items tl items
  end.

(** [r[0] and "Taxes" in r[0] and "CGST" in r[0]] *)
Definition is_tax_row (r : list cell) : result bool :=
  c ← index r 0;
  Ok (truthy c && contains (py "Taxes") (or_empty c)
      && contains (py "CGST") (or_empty c)).

(** [r[0] and "ECO under GST" in r[0]] *)
Definition is_eco_row (r : list cell) : result bool :=
  c ← index r 0;
  Ok (truthy c && contains (py "ECO under GST") (or_empty c)).

Definition first_cell (r : list cell) : result pystr :=
  c ← index r 0; Ok (or_empty c).

(** The part of [parse_food_detail] after the shape check. *)
Definition extract (t : table) : result FoodInvoice :=
  r2 ← index t 2;
  c ← index r2 0;
  let header := _parse_header (or_empty c) in
  '(items, subtotal) ← scan_items (drop 4 t) [];
  tax_row ← first_where is_tax_row t;
  taxes ← match tax_row with
          | Some r => txt ← first_cell r; _parse_tax_block txt
          | None => Ok ∅
          end;
  eco_row ← first_where is_eco_row t;
  eco ← match eco_row with
        | Some r => txt ← first_cell r; Ok (_parse_eco_block txt)
        | None => Ok ∅
        end;
  Ok {| order_id := get header "order_id" [];
        invoice_no := get header "invoice_no" [];
        date_of_invoice := get header "date_of_invoice" [];
        document_type := get header "document_type" (py "INV");
        hsn_code := get header "hsn_code" [];
        service_description := get header "service_description" [];
        category := get header "category" [];
        reverse_charges :=
          str_eqb (lower (get header "reverse_charges" [])) (py "yes");
        customer_name := get header "customer_name" [];
        customer_gstin := get header "customer_gstin" [];
        customer_address := get header "customer_address" [];
        restaurant_name := get header "restaurant_name" [];
        restaurant_gstin := get header "restaurant_gstin" [];
        restaurant_fssai := get header "restaurant_fssai" [];
        restaurant_address := get header "restaurant_address" [];
        restaurant_state := get header "restaurant_state" [];
        place_of_supply := get header "place_of_supply" [];
        subtotal := subtotal;
        igst_rate := get taxes "igst_rate" zero;
        igst_amount := get taxes "igst_amount" zero;
        cgst_rate := get taxes "cgst_rate" zero;
        cgst_amount := get taxes "cgst_amount" zero;
        sgst_rate := get taxes "sgst_rate" zero;
        sgst_amount := get taxes "sgst_amount" zero;
        total_taxes := get taxes "total_taxes" zero;
        invoice_total := get taxes "invoice_total" zero;
        eco_name := get eco "eco_name" [];
        eco_gstin := get eco "eco_gstin" [];
        eco_fssai := get eco "eco_fssai" [];
        eco_address := get eco "eco_address" [];
        items := items |}.

(** [parse_food_detail]: what it prints, and the invoice or [None]. *)
Definition parse_food_detail (f : detail_file)
  : result (list message * option FoodInvoice) :=
  match pdfplumber_open f with
  | None => Ok ([FailedToOpen (detail_name f)], None)
  | Some pages =>
      tables ← index pages 0;
      match tables with
      | [] => Ok ([UnexpectedTableStructure (detail_name f)], None)
      | t :: _ =>
          if bool_decide (length t < 8)%nat
          then Ok ([UnexpectedTableStructure (detail_name f)], None)
          else inv ← extract t; Ok ([], Some inv)
      end
  end.

End Food.

(** ** The instamart detail extractor *)

Module Instamart.

Import Re.

Record InstamartItem : Type := {
  sr_no : Z;
  description : pystr;
  quantity : Z;
  uqc : pystr;
  hsn_sac_code : pystr;
  taxable_value : pyfloat;
  discount : pyfloat;
  net_taxable_value : pyfloat;
  cgst_rate : pyfloat;
  cgst_amount : pyfloat;
  sgst_rate : pyfloat;
  sgst_amount : pyfloat;
  cess_rate : pyfloat;
  cess_amount : pyfloat;
  additional_cess : pyfloat;
  total_amount : pyfloat
}.

(** The fields read from the tax dict hold whatever the dict holds. *)
Record HandlingFee : Type := {
  h_invoice_no : pystr;
  h_date_of_invoice : pystr;
  h_hsn_code : pyval;
  h_hsn_description : pyval;
  h_category : pystr;
  h_transaction_type : pystr;
  h_invoice_type : pystr;
  h_reverse_charges : bool;
  h_swiggy_pan : pystr;
  h_swiggy_gstin : pystr;
  h_swiggy_address : pystr;
  h_swiggy_pincode : pystr;
  h_swiggy_state_code : pystr;
  h_description : pystr;
  h_unit_price : pyfloat;
  h_discount : pyfloat;
  h_net_assessable_value : pyfloat;
  h_cgst_rate : pyval;
  h_cgst_amount : pyval;
  h_sgst_rate : pyval;
  h_sgst_amount : pyval;
  h_state_cess_rate : pyval;
  h_state_cess_amount : pyval;
  h_total_taxes : pyval;
  h_invoice_total : pyval
}.

Record InstamartInvoice : Type := {
  order_id : pystr;
  invoice_no : pystr;
  date_of_invoice : pystr;
  document_type : pystr;
  category : pystr;
  customer_name : pystr;
  customer_gstin : pystr;
  customer_address : pystr;
  seller_name : pystr;
  seller_gstin : pystr;
  seller_fssai : pystr;
  seller_address : pystr;
  seller_city : pystr;
  seller_state : pystr;
  place_of_supply : pystr;
  invoice_value : pyfloat;
  items : list InstamartItem;
  handling_fee : option HandlingFee
}.

(** [_pf] *)
Definition _pf (val : option pystr) : result pyfloat :=
  match val with
  | None | Some [] => Ok zero
  | Some v =>
      let cleaned := strip (replace RUPEE [] (replace COMMA [] v)) in
      match float cleaned with
      | Ok x => Ok x
      | Raise ValueError => Ok zero
      | Raise e => Raise e
      end
  end.

(** The seller address: the pattern anchored at the order id, and when
    that one finds nothing the one that stops at the city or the
    document line. *)
Definition seller_address_pattern : regex :=
  seqs [lit "Order ID:"; LazyStar any; chr NEWLINE; lit "Address:"; Star s_;
        Grp 1 (lazy_plus any); Ahead (newline_then "Document:")].

Definition seller_address_fallback : regex :=
  seqs [lit "Address:"; Star s_; Grp 1 (lazy_plus any);
        Ahead (Alt (newline_then "City:") (newline_then "Document:"))].

Definition seller_address_of (text : pystr) : pystr :=
  match search seller_address_pattern text with
  | Some m => squeeze (group m 1)
  | None => field seller_address_fallback squeeze [] text
  end.

(** [_parse_seller_header]: the assignments [d[key] = ...] in order. *)
Definition seller_fields : list (string * (pystr -> pystr)) :=
  [ ("customer_name", field (column_after "Invoice To:" "Seller Name") strip []);
    ("customer_gstin", field (Seq (Bol true) (word_after "GSTIN:")) strip []);
    ("customer_address", field (column_after "Customer Address:" "FSSAI") strip []);
    ("order_id", field (digits_after "Order ID:") strip []);
    ("document_type", field (word_after "Document:") strip (py "INV"));
    ("invoice_no", field (word_after "Invoice No:") strip []);
    ("date_of_invoice", field date_of_invoice_pattern strip []);
    ("category", field (word_after "Category:") strip []);
    ("seller_name", field (line_after "Seller Name:") strip []);
    ("seller_gstin", field (word_after "Seller GSTIN:") strip []);
    ("seller_fssai", field (word_after "FSSAI:") strip []);
    ("seller_address", seller_address_of);
    ("seller_city", field (line_after "City:") strip []);
    ("seller_state", field (line_after "State:") strip []);
    ("place_of_supply", field (line_after "Place of Supply:") strip []) ].

Definition _parse_seller_header (text : pystr) : gmap string (list N) :=
  assign_all (fun f => f text) seller_fields.

Definition swiggy_address_pattern : regex :=
  seqs [lit "GSTIN:"; LazyStar any; chr NEWLINE; lit "Address:"; Star s_;
        Grp 1 (lazy_plus any); Ahead (newline_then "Pincode:")].

Definition handling_fields : list (string * (pystr -> pystr)) :=
  [ ("swiggy_pan", field (word_after "PAN:") strip []);
    ("swiggy_gstin", field (Seq (Bol true) (word_after "GSTIN:")) strip []);
    ("swiggy_address", field swiggy_address_pattern squeeze []);
    ("swiggy_pincode", field (word_after "Pincode:") strip []);
    ("swiggy_state_code", field (word_after "State Code:") strip []);
    ("invoice_no", field (word_after "Invoice No:") strip []);
    ("date_of_invoice", field date_of_invoice_pattern strip []);
    ("category", field (word_after "Category:") strip []);
    ("transaction_type", field (word_after "Transaction Type:") strip []);
    ("invoice_type", field (word_after "Invoice Type:") strip []);
    ("reverse_charges", field (word_after "Whether Reverse Charges") strip (py "No")) ].

(** [_parse_handling_header] *)
Definition _parse_handling_header (text : pystr) : gmap string (list N) :=
  assign_all (fun f => f text) handling_fields.

(** One [if m:] block of [_parse_handling_tax] with a rate and an amount. *)
Definition rate_and_amount (label : string) (rate_key amount_key : string)
  (tax_text : pystr) (taxes : gmap string pyval) : result (gmap string pyval) :=
  match search (rate_pattern label) tax_text with
  | Some m =>
      r ← float (group m 1);
      let taxes := <[rate_key := VFloat r]> taxes in
      a ← _pf (Some (group m 2));
      Ok (<[amount_key := VFloat a]> taxes)
  | None => Ok taxes
  end.

(** [taxes[key] = _pf(m.group(1)) if m else 0.0] *)
Definition amount_or_zero (label : string) (key : string)
  (tax_text : pystr) (taxes : gmap string pyval) : result (gmap string pyval) :=
  match search (total_pattern label) tax_text with
  | Some m => a ← _pf (Some (group m 1)); Ok (<[key := VFloat a]> taxes)
  | None => Ok (<[key := VFloat zero]> taxes)
  end.

(** The pattern [(\d{6})\s+(.+?)(?:\n|Total taxes)]. *)
Definition hsn_pattern : regex :=
  seqs [Grp 1 (rep 6 d_); plus s_; Grp 2 (lazy_plus dot);
        Alt (chr NEWLINE) (lit "Total taxes")].

(** [_parse_handling_tax] *)
Definition _parse_handling_tax (tax_text : pystr) : result (gmap string pyval) :=
  taxes ← rate_and_amount "CGST" "cgst_rate" "cgst_amount" tax_text ∅;
  taxes ← rate_and_amount "SGST/UTGST" "sgst_rate" "sgst_amount" tax_text taxes;
  taxes ← rate_and_amount "State CESS" "state_cess_rate" "state_cess_amount"
            tax_text taxes;
  taxes ← amount_or_zero "Total taxes" "total_taxes" tax_text taxes;
  taxes ← amount_or_zero "Invoice Total" "invoice_total" tax_text taxes;
  match search hsn_pattern tax_text with
  | Some m =>
      Ok (<["hsn_description" := VStr (strip (group m 2))]>
          (<["hsn_code" := VStr (strip (group m 1))]> taxes))
  | None => Ok taxes
  end.

(** The item of a page-1 row: the arguments of [InstamartItem(...)] in the
    order Python evaluates them. *)
Definition item_of_row (row : list cell) : result InstamartItem :=
  c0 ← index row 0;
  sr ← int (serial_text c0);
  c1 ← index row 1;
  c2 ← index row 2;
  q ← int_or_zero c2;
  c3 ← index row 3;
  c4 ← index row 4;
  c5 ← index row 5; v5 ← _pf c5;
  c6 ← index row 6; v6 ← _pf c6;
  c7 ← index row 7; v7 ← _pf c7;
  c8 ← index row 8; v8 ← _pf c8;
  c9 ← index row 9; v9 ← _pf c9;
  c10 ← index row 10; v10 ← _pf c10;
  c11 ← index row 11; v11 ← _pf c11;
  c12 ← index row 12; v12 ← _pf c12;
  c13 ← index row 13; v13 ← _pf c13;
  c14 ← index row 14; v14 ← _pf c14;
  c15 ← index row 15; v15 ← _pf c15;
  Ok {| sr_no := sr;
        description := squeeze (or_empty c1);
        quantity := q;
        uqc := strip (or_empty c3);
        hsn_sac_code := strip (or_empty c4);
        taxable_value := v5; discount := v6; net_taxable_value := v7;
        cgst_rate := v8; cgst_amount := v9;
        sgst_rate := v10; sgst_amount := v11;
        cess_rate := v12; cess_amount := v13;
        additional_cess := v14; total_amount := v15 |}.

(** One turn of [for row in table1[3:]], on the items and the invoice
    value so far. *)
Definition page1_step (acc : list InstamartItem * pyfloat) (row : list cell)
  : result (list InstamartItem * pyfloat) :=
  let '(items, invoice_value) := acc in
  c0 ← index row 0;
  if truthy c0 && contains (py "Invoice Value") (or_empty c0) then
    v ← index_last row;
    x ← _pf v;
    Ok (items, x)
  else if truthy c0 && contains (py "Amount in words") (or_empty c0) then
    Ok acc
  else if is_serial c0 then
    it ← item_of_row row;
    Ok (items ++ [it], invoice_value)
  else Ok acc.

Definition page1_rows (rows : list (list cell))
  : result (list InstamartItem * pyfloat) :=
  for_each page1_step ([], zero) rows.

(** [r[0] and "Taxes" in r[0] and "CGST" in r[0]] *)
Definition is_tax_row (r : list cell) : result bool :=
  c ← index r 0;
  Ok (truthy c && contains (py "Taxes") (or_empty c)
      && contains (py "CGST") (or_empty c)).

(** [row[0] and row[0].strip().rstrip(".").isdigit()] *)
Definition first_cell_is_serial (r : list cell) : result bool :=
  c ← index r 0; Ok (is_serial c).

(** The description and the three amounts of the fee: from the item row,
    or those of a zero-fee invoice. *)
Definition fee_line (h_item_row : option (list cell)) (inv_order_id : pystr)
  : result (pystr * pyfloat * pyfloat * pyfloat) :=
  match h_item_row with
  | Some (c :: cs) =>
      let r := c :: cs in
      c1 ← index r 1;
      let h_desc := squeeze (or_empty c1) in
      if bool_decide (10 <= length r)%nat then
        c5 ← index r 5; p ← _pf c5;
        c8 ← index r 8; d ← _pf c8;
        c9 ← index r 9; n ← _pf c9;
        Ok (h_desc, p, d, n)
      else
        c5 ← index r 5; p ← _pf c5;
        c7 ← index r 7; d ← _pf c7;
        c8 ← index r 8; n ← _pf c8;
        Ok (h_desc, p, d, n)
  | Some [] | None =>
      Ok (py "Handling Fees for Order " ++ inv_order_id, zero, zero, zero)
  end.

(** The tax dict of page 2: from the first row with both markers, if any. *)
Definition handling_taxes (table2 : table) : result (gmap string pyval) :=
  h_tax_row ← first_where is_tax_row table2;
  match h_tax_row with
  | Some r => c ← index r 0; _parse_handling_tax (or_empty c)
  | None => Ok ∅
  end.

(** The body of [if len(pdf.pages) >= 2:], on the tables of page 2. *)
Definition handling_of (tables2 : list table) (inv_order_id : pystr)
  : result HandlingFee :=
  table2 ← index tables2 0;
  r2 ← index table2 2;
  c ← index r2 0;
  let h_header := _parse_handling_header (or_empty c) in
  h_item_row ← first_where first_cell_is_serial (drop 3 table2);
  h_taxes ← handling_taxes table2;
  '(h_desc, h_unit_price, h_discount, h_nav) ← fee_line h_item_row inv_order_id;
  Ok {| h_invoice_no := get h_header "invoice_no" [];
        h_date_of_invoice := get h_header "date_of_invoice" [];
        h_hsn_code := get h_taxes "hsn_code" (VStr []);
        h_hsn_description := get h_taxes "hsn_description" (VStr []);
        h_category := get h_header "category" [];
        h_transaction_type := get h_header "transaction_type" [];
        h_invoice_type := get h_header "invoice_type" [];
        h_reverse_charges :=
          str_eqb (lower (get h_header "reverse_charges" (py "No"))) (py "yes");
        h_swiggy_pan := get h_header "swiggy_pan" [];
        h_swiggy_gstin := get h_header "swiggy_gstin" [];
        h_swiggy_address := get h_header "swiggy_address" [];
        h_swiggy_pincode := get h_header "swiggy_pincode" [];
        h_swiggy_state_code := get h_header "swiggy_state_code" [];
        h_description := h_desc;
        h_unit_price := h_unit_price;
        h_discount := h_discount;
        h_net_assessable_value := h_nav;
        h_cgst_rate := get h_taxes "cgst_rate" (VFloat zero);
        h_cgst_amount := get h_taxes "cgst_amount" (VFloat zero);
        h_sgst_rate := get h_taxes "sgst_rate" (VFloat zero);
        h_sgst_amount := get h_taxes "sgst_amount" (VFloat zero);
        h_state_cess_rate := get h_taxes "state_cess_rate" (VFloat zero);
        h_state_cess_amount := get h_taxes "state_cess_amount" (VFloat zero);
        h_total_taxes := get h_taxes "total_taxes" (VFloat zero);
        h_invoice_total := get h_taxes "invoice_total" (VFloat zero) |}.

(** The part of [parse_instamart_detail] inside [try]. *)
Definition extract (pages : list (list table)) : result InstamartInvoice :=
  tables1 ← index pages 0;
  table1 ← index tables1 0;
  r1 ← index table1 1;
  c ← index r1 0;
  let header := _parse_seller_header (or_empty c) in
  '(items, invoice_value) ← page1_rows (drop 3 table1);
  let inv_order_id := get header "order_id" [] in
  handling ←
    (if bool_decide (2 <= length pages)%nat then
       tables2 ← index pages 1;
       h ← handling_of tables2 inv_order_id;
       Ok (Some h)
     else Ok None);
  Ok {| order_id := get header "order_id" [];
        invoice_no := get header "invoice_no" [];
        date_of_invoice := get header "date_of_invoice" [];
        document_type := get header "document_type" (py "INV");
        category := get header "category" [];
        customer_name := get header "customer_name" [];
        customer_gstin := get header "customer_gstin" [];
        customer_address := get header "customer_address" [];
        seller_name := get header "seller_name" [];
        seller_gstin := get header "seller_gstin" [];
        seller_fssai := get header "seller_fssai" [];
        seller_address := get header "seller_address" [];
        seller_city := get header "seller_city" [];
        seller_state := get header "seller_state" [];
        place_of_supply := get header "place_of_supply" [];
        invoice_value := invoice_value;
        items := items;
        handling_fee := handling |}.

(** [parse_instamart_detail]: what it prints, and the invoice or [None]. *)
Definition parse_instamart_detail (f : detail_file)
  : result (list message * option InstamartInvoice) :=
  match pdfplumber_open f with
  | None => Ok ([FailedToOpen (detail_name f)], None)
  | Some pages => inv ← extract pages; Ok ([], Some inv)
  end.

End Instamart.

(** ** The validators

    [src/validator.py].  A validator that raises [ValidationError] is a
    function into [checked]; one that prints warnings returns the lines it
    prints beside its value. *)

Module Validator.

Import Re.

(** The value returned, or [ValidationError(message)]. *)
Inductive checked (A : Type) : Type :=
| Valid (a : A)
| ValidationError (message : pystr).
Arguments Valid {A} a.
Arguments ValidationError {A} message.

(** [f"{' in ' + context if context else ''}"] *)
Definition in_context (context : pystr) : pystr :=
  match context with
  | [] => []
  | _ => py " in " ++ context
  end.

(** A file on disk as [validate_pdf_file] sees it: the path as it prints,
    its last component, and the bytes of the file when it exists (a
    regular file). *)
Record disk_file : Type := {
  path_str : pystr;
  path_name : pystr;
  read_bytes : option (list N)
}.

(** [validate_pdf_file] *)
Definition validate_pdf_file (path : disk_file) : checked unit :=
  match read_bytes path with
  | None => ValidationError (py "File not found: " ++ path_str path)
  | Some [] => ValidationError (py "Empty file: " ++ path_str path)
  | Some bytes =>
      let magic := take 5 bytes in
      if bool_decide (magic <> py "%PDF-")
      then ValidationError
             (py "Not a valid PDF (bad magic bytes): " ++ path_name path)
      else Valid tt
  end.

(** [validate_summary_folder] *)
Definition validate_summary_folder (folder_name detected_type : pystr)
  : checked unit :=
  let folder_lower := lower folder_name in
  if str_eqb detected_type (py "food") && contains (py "instamart") folder_lower
  then ValidationError
         (py "Folder mismatch: file detected as 'food' but in '"
          ++ folder_name ++ py "/' folder")
  else if str_eqb detected_type (py "instamart")
          && contains (py "food") folder_lower
  then ValidationError
         (py "Folder mismatch: file detected as 'instamart' but in '"
          ++ folder_name ++ py "/' folder")
  else Valid tt.

(** The pattern [^\d{15}$]. *)
Definition ORDER_ID_RE : regex := seqs [Bol false; rep 15 d_; Eol false].

(** [validate_order_id] *)
Definition validate_order_id (order_id context : pystr) : checked unit :=
  match order_id with
  | [] => ValidationError (py "Empty order_id" ++ in_context context)
  | _ =>
      if negb (Summary.matches ORDER_ID_RE order_id)
      then ValidationError
             (py "Invalid order_id '" ++ order_id
              ++ py "' (expected 15 digits)" ++ in_context context)
      else Valid tt
  end.

(** The class [[^@\s]]. *)
Definition not_at_space : regex :=
  Cls (fun c => negb ((c =? 64) || isspace c)).

(** [_EMAIL_RE]: the pattern [^[^@\s]+@[^@\s]+\.[^@\s]+$]. *)
Definition _EMAIL_RE : regex :=
  seqs [Bol false; plus not_at_space; chr 64; plus not_at_space; chr PERIOD;
        plus not_at_space; Eol false].

(** [validate_email]: the lines printed and the value. *)
Definition validate_email (email : pystr) : list pystr * bool :=
  match email with
  | [] => ([py "  Warning: Empty customer email"], false)
  | _ =>
      if negb (Summary.matches _EMAIL_RE email)
      then ([py "  Warning: Suspicious email format: " ++ email], false)
      else ([], true)
  end.

(** [x <= 0] on a float: the double of a number above zero is zero when the
    number is at most 2^-1075, half the least double above zero (a tie goes
    to the even one, which is zero). *)
Definition le_zero (x : pyfloat) : bool :=
  match x with
  | Fin neg m e =>
      neg || Qle_bool (Qvalue false m e) (Qpower (inject_Z 2) (-1075))
  | Inf neg => neg
  | NaN => false
  end.

(** The object [validate_invoice_fields] is given: an invoice of either
    extractor.  An attribute the object lacks is an [AttributeError]. *)
Inductive invoice : Type :=
| OfFood (inv : Food.FoodInvoice)
| OfInstamart (inv : Instamart.InstamartInvoice).

Definition inv_order_id (inv : invoice) : pystr :=
  match inv with
  | OfFood i => Food.order_id i
  | OfInstamart i => Instamart.order_id i
  end.

Definition inv_date_of_invoice (inv : invoice) : pystr :=
  match inv with
  | OfFood i => Food.date_of_invoice i
  | OfInstamart i => Instamart.date_of_invoice i
  end.

Definition inv_invoice_no (inv : invoice) : pystr :=
  match inv with
  | OfFood i => Food.invoice_no i
  | OfInstamart i => Instamart.invoice_no i
  end.

(** One [if cond: print(line); ok = False] of [validate_invoice_fields], on
    the lines printed and the flag so far. *)
Definition warn_if (cond : bool) (line : pystr) (acc : list pystr * bool)
  : list pystr * bool :=
  if cond then (acc.1 ++ [line], false) else acc.

Definition is_empty (s : pystr) : bool :=
  match s with [] => true | _ => false end.

(** [validate_invoice_fields] *)
Definition validate_invoice_fields (inv : invoice) (order_type : pystr)
  : result (list pystr * bool) :=
  let tag := py "  Warning: [" ++ order_type ++ py "] " in
  let for_order := py " for order " ++ inv_order_id inv in
  let acc := ([], true) in
  let acc := warn_if (is_empty (inv_order_id inv))
               (tag ++ py "Missing order_id") acc in
  let acc := warn_if (is_empty (inv_date_of_invoice inv))
               (tag ++ py "Missing date_of_invoice" ++ for_order) acc in
  let acc := warn_if (is_empty (inv_invoice_no inv))
               (tag ++ py "Missing invoice_no" ++ for_order) acc in
  if str_eqb order_type (py "food") then
    match inv with
    | OfFood i =>
        let acc := warn_if (is_empty (Food.restaurant_name i))
                     (py "  Warning: [food] Missing restaurant_name" ++ for_order)
                     acc in
        let acc := warn_if (le_zero (Food.invoice_total i))
                     (py "  Warning: [food] Zero/negative invoice_total" ++ for_order)
                     acc in
        let acc := warn_if (match Food.items i with [] => true | _ => false end)
                     (py "  Warning: [food] No items parsed" ++ for_order) acc in
        Ok acc
    | OfInstamart _ => Raise AttributeError
    end
  else if str_eqb order_type (py "instamart") then
    match inv with
    | OfInstamart i =>
        let acc := warn_if (is_empty (Instamart.seller_name i))
                     (py "  Warning: [instamart] Missing seller_name" ++ for_order)
                     acc in
        let acc := warn_if (le_zero (Instamart.invoice_value i))
                     (py "  Warning: [instamart] Zero/negative invoice_value"
                      ++ for_order) acc in
        let acc := warn_if (match Instamart.items i with [] => true | _ => false end)
                     (py "  Warning: [instamart] No items parsed" ++ for_order)
                     acc in
        Ok acc
    | OfFood _ => Raise AttributeError
    end
  else Ok acc.

(** [actual != expected] for the length of a list and a value of the
    header dict. *)
Definition count_differs (actual : nat) (expected : pyval) : bool :=
  match expected with
  | VInt n => negb (Z.of_nat actual =? n)%Z
  | VFloat x => negb (float_eqb (Fin false (N.of_nat actual) 0) x)
  | VStr _ => true
  end.

(** [validate_summary_counts]: whether it prints its warning, and the
    value. *)
Definition validate_summary_counts (summary : Summary.SummaryData)
  : bool * bool :=
  let actual := length (Summary.orders summary) in
  let expected := Summary.number_of_orders summary in
  if count_differs actual expected then (true, false) else (false, true).

End Validator.

(** ** The loader

    [src/loader.py]: what [upsert_food_order] and [upsert_instamart_order]
    do before they reach the database. *)

Module Loader.

(** [validate_order_id(inv.order_id, context)] then [int(inv.order_id)]. *)
Definition order_key (order_id context : pystr)
  : Validator.checked (result Z) :=
  match Validator.validate_order_id order_id context with
  | Validator.ValidationError m => Validator.ValidationError m
  | Validator.Valid _ => Validator.Valid (int order_id)
  end.

End Loader.

(** ** The downloader

    [src/downloader.py]: the loop of [download_detail_pdfs] on the files of
    the output directory, the network being what each [client.get] gives. *)

Module Downloader.

(** What [client.get(url)] followed by [raise_for_status()] comes to: the
    body, an [httpx.HTTPError], which the loop catches, or an exception
    that is no [httpx.HTTPError] ([httpx.InvalidURL] for a link that is no
    URL), which leaves the function. *)
Inductive response : Type :=
| Content (bytes : list N)
| HTTPError
| OtherError.

(** The files of the output directory by name (a file that does not exist
    has no entry), the dict built so far and the three counters.  The
    path [out_dir / name] is kept as [name]: two names are the same file
    only when they are equal, as for the digit strings the summary gives;
    [write_bytes] is taken to succeed. *)
Record state : Type := {
  files : gmap (list N) (list N);
  results : gmap (list N) (list N);
  skipped : nat;
  downloaded : nat;
  failed : nat
}.

(** How a call ends: it returns, or an exception leaves it; either way
    with the files as the loop left them. *)
Inductive outcome : Type :=
| Returns (st : state)
| Escapes (st : state).

(** [f"{order.order_id}.pdf"], the name of the file in the output
    directory. *)
Definition file_name_of (order : Summary.OrderRow) : pystr :=
  Summary.order_id order ++ py ".pdf".

(** One turn of the loop over the orders; [get] is the network at this
    turn. *)
Definition step (get : pystr -> response) (st : state)
  (order : Summary.OrderRow) : outcome :=
  let file_path := file_name_of order in
  let cached := match files st !! file_path with
                | Some (_ :: _) => true
                | _ => false
                end in
  if cached then
    Returns
      {| files := files st;
         results := <[Summary.order_id order := file_path]> (results st);
         skipped := S (skipped st); downloaded := downloaded st;
         failed := failed st |}
  else
    match Summary.detail_url order with
    | [] =>
        Returns
          {| files := files st; results := results st; skipped := skipped st;
             downloaded := downloaded st; failed := S (failed st) |}
    | url =>
        match get url with
        | Content bytes =>
            Returns
              {| files := <[file_path := bytes]> (files st);
                 results := <[Summary.order_id order := file_path]> (results st);
                 skipped := skipped st; downloaded := S (downloaded st);
                 failed := failed st |}
        | HTTPError =>
            Returns
              {| files := files st; results := results st;
                 skipped := skipped st; downloaded := downloaded st;
                 failed := S (failed st) |}
        | OtherError => Escapes st
        end
    end.

(** The loop: the [i]-th order meets the network as [net i]. *)
Fixpoint loop (net : nat -> pystr -> response) (i : nat) (st : state)
  (orders : list Summary.OrderRow) : outcome :=
  match orders with
  | [] => Returns st
  | order :: tl =>
      match step (net i) st order with
      | Returns st' => loop net (S i) st' tl
      | Escapes st' => Escapes st'
      end
  end.

(** [download_detail_pdfs], on the files of the output directory. *)
Definition download_detail_pdfs (net : nat -> pystr -> response)
  (orders : list Summary.OrderRow) (dir : gmap (list N) (list N)) : outcome :=
  loop net 0 {| files := dir; results := ∅; skipped := 0; downloaded := 0;
                failed := 0 |} orders.

End Downloader.

(** ** Statements *)

(** What the specification asks of a normalizer [f]: it never raises, reads
    the three well-formed tokens, and gives [0.0] on the three others. *)
Definition normalizer_spec (f : option pystr -> result pyfloat) : Prop :=
  (forall v, exists x, f v = Ok x) /\
  f (Some (RUPEE :: py "1,774.50")) = Ok (dec 1774 50 2) /\
  f (Some (py "1774.50")) = Ok (dec 1774 50 2) /\
  f (Some (py "  500.50  ")) = Ok (dec 500 50 2) /\
  f (Some (py "")) = Ok zero /\
  f None = Ok zero /\
  f (Some (py "N/A")) = Ok zero.

(** The test that ends the item loop of the food extractor: the second cell
    is ["Subtotal"] once stripped, or the first cell holds ["Subtotal"]. *)
Definition is_subtotal_row (row : list cell) : bool :=
  match row !! 1%nat with
  | Some c1 => truthy c1 && str_eqb (strip (or_empty c1)) (py "Subtotal")
  | None => false
  end
  || match row !! 0%nat with
     | Some c0 => truthy c0 && contains (py "Subtotal") (or_empty c0)
     | None => false
     end.

(** The serial-number test on the first cell of a row. *)
Definition is_item_row (row : list cell) : bool :=
  match row !! 0%nat with
  | Some c0 => is_serial c0
  | None => false
  end.

(** [row[i]] as [_parse_float] and [_pf] take it: the cell, [None] included. *)
Definition cell_at (row : list cell) (i : nat) : cell := default None (row !! i).

(** ** Example documents *)

(** A page with one full row, then a date, an order id and two name lines
    with no amount. *)
Definition page_with_open_candidate : list pystr :=
  [py "09-08-2025"; py "123456789012345"; py "Test Kitchen";
   RUPEE :: py "1,774.50"; py "View";
   py "10-08-2025"; py "223456789012345"; py "Second"; py "Shop"].

(** A date line followed by a second date line and then a full row. *)
Definition two_dates_then_row : list pystr :=
  [py "09-08-2025"; py "10-08-2025"; py "123456789012345"; py "Test Kitchen";
   RUPEE :: py "1,774.50"; py "View"].

(** A summary of one page with two rows and a single hyperlink. *)
Definition summary_two_rows_one_link : Summary.file :=
  {| Summary.file_name := py "order_summary_food_1.pdf";
     Summary.fitz_open := Some
       [ {| Summary.get_text :=
              join [NEWLINE]
                [py "09-08-2025"; py "123456789012345"; py "Test Kitchen";
                 RUPEE :: py "1,774.50"; py "View";
                 py "10-08-2025"; py "223456789012345"; py "Second"; py "Shop";
                 RUPEE :: py "500"; py "View"];
            Summary.get_links := [Some (py "https://example.com/1"); None] |} ] |}.

(** The rows of a food table after the column-header row: an item row of
    nine cells, a row that is no item, an item row of eight cells, the
    subtotal row, and an item row after it; and the items of the first three. *)
Definition food_rows : list (list cell) :=
  [ [Some (py "1."); Some (py "Paneer"); Some (py "NOS"); Some (py "2"); None;
     Some (py "100.00"); Some (py "200.00"); Some (py "0.00"); Some (py "200.00")];
    [None; Some (py "note")];
    [Some (py "2"); Some (py "Roti"); Some (py "NOS"); Some (py "1");
     Some (py "10"); Some (py "10"); Some (py "0"); Some (py "10")];
    [None; Some (py "Subtotal"); None; Some (py "210.00")];
    [Some (py "3"); Some (py "late")] ].

Definition food_rows_items : list Food.FoodItem :=
  [ {| Food.sr_no := 1; Food.description := py "Paneer";
       Food.unit_of_measure := py "NOS"; Food.quantity := 2;
       Food.unit_price := dec 100 0 2; Food.amount := dec 200 0 2;
       Food.discount := dec 0 0 2; Food.net_assessable_value := dec 200 0 2 |};
    {| Food.sr_no := 2; Food.description := py "Roti";
       Food.unit_of_measure := py "NOS"; Food.quantity := 1;
       Food.unit_price := Fin false 10 0; Food.amount := Fin false 10 0;
       Food.discount := Fin false 0 0;
       Food.net_assessable_value := Fin false 10 0 |} ].

(** A page-1 row of three cells whose quantity is no integer, and a detail
    document with that row. *)
Definition row_with_bad_quantity : list cell :=
  [Some (py "1"); Some (py "Milk"); Some (py "two")].

Definition detail_with_bad_quantity : detail_file :=
  {| detail_name := py "detail.pdf";
     pdfplumber_open := Some
       [[ [ [Some (py "Tax Invoice")];
            [Some (py "Order ID: 220939704984728")];
            [Some (py "Sr No")];
            row_with_bad_quantity ] ]] |}.

(** A page-1 row of three cells with an integer quantity. *)
Definition row_of_three_cells : list cell :=
  [Some (py "1"); Some (py "Milk"); Some (py "2")].

(** An instamart detail of two pages whose second page has no item row, and
    the same document cut to its first page. *)
Definition seller_page : list table :=
  [[ [Some (py "Tax Invoice")];
     [Some (py "Order ID: 220939704984728")];
     [Some (py "Sr No")];
     [Some (py "Invoice Value"); None; Some (py "52.50")] ]].




(** A food table whose first row after the column header has a single cell,
    an instamart document whose first page has no table, and a summary whose
    declared order count is no integer. *)
Definition food_detail_with_short_row : detail_file :=
  {| detail_name := py "food.pdf";
     pdfplumber_open := Some
       [[ [ [Some (py "Tax Invoice")]; [None]; [Some (py "Order ID: 1")];
            [Some (py "Sr No")]; [Some (py "1")]; [None]; [None]; [None] ] ]] |}.

Definition instamart_detail_without_table : detail_file :=
  {| detail_name := py "instamart.pdf"; pdfplumber_open := Some [[]] |}.

Definition summary_with_bad_count : Summary.file :=
  {| Summary.file_name := py "order_summary_food_1.pdf";
     Summary.fitz_open := Some
       [ {| Summary.get_text :=
              join [NEWLINE]
                [py "Customer Name"; py "Number of Orders"; py "Total Amount";
                 py "John Doe"; py "thirty-six"; RUPEE :: py "44633.43"];
            Summary.get_links := [] |} ] |}.

(** Rows after the column-header row of a food table that the item loop
    cannot read: a row of a single cell before the subtotal row, and an
    item row whose serial is the circled digit one (U+2460), a digit that
    [int()] does not read. *)
Definition food_rows_with_short_row : list (list cell) :=
  [ [Some (py "note")];
    [None; Some (py "Subtotal"); None; Some (py "210.00")] ].

Definition food_rows_with_circled_serial : list (list cell) :=
  [ [Some [9312]; Some (py "Paneer"); Some (py "NOS"); Some (py "2"); None;
     Some (py "100.00"); Some (py "200.00"); Some (py "0.00"); Some (py "200.00")];
    [None; Some (py "Subtotal"); None; Some (py "200.00")] ].

(** ** Matcher states *)

Section MatcherStates.

Import Re.

(** The state after the next [n] characters are consumed. *)
Fixpoint advance (n : nat) (st : mstate) : mstate :=
  match n with
  | O => st
  | S n' =>
      match rest st with
      | c :: tl => advance n' (MState (S (pos st)) tl (Some c) (groups st))
      | [] => st
      end
  end.

(** What a step of a match leaves: [st'] is [st] after the characters
    [pre] are consumed. *)
Definition consumed (st : mstate) (pre : pystr) (st' : mstate) : Prop :=
  rest st = pre ++ rest st' /\
  pos st' = (pos st + length pre)%nat /\
  groups st' = groups st.

End MatcherStates.

Section StarLoop.

Import Re.

Variable ra : mstate -> (mstate -> option mstate) -> option mstate.
Variable k : mstate -> option mstate.

(** The greedy loop of [run] on [a*], by itself: [fuel] turns are left. *)
Fixpoint star_loop (fuel : nat) (st : mstate) : option mstate :=
  match fuel with
  | O => k st
  | S fuel' =>
      match ra st (fun st' => if (pos st <? pos st')%nat
                              then star_loop fuel' st' else None) with
      | Some m => Some m
      | None => k st
      end
  end.

End StarLoop.

(** ** Further statements *)

(** The decimal digits, one by one. *)
Definition all_decimals : list N :=
  flat_map (fun z => map (N.add z) [0; 1; 2; 3; 4; 5; 6; 7; 8; 9])
           decimal_zeros.

(** What the readers of numbers need of a decimal digit: it is no blank, no
    underscore and no sign, and its value is at most 9. *)
Definition plain_digit (c : N) : bool :=
  negb (isspace c) && negb (c =? UNDERSCORE) && negb (c =? 43)
  && negb (c =? 45) && (digit_value c <=? 9).

(** A character that is neither [@] nor a blank. *)
Definition plain (c : N) : bool := negb ((c =? 64) || isspace c).

(** The strings [_EMAIL_RE] matches: three runs of plain characters, not
    empty, with an [@] after the first and a period after the second, and
    possibly one newline at the end. *)
Definition email_shape (s : pystr) : Prop :=
  exists a b c,
    a <> [] /\ b <> [] /\ c <> [] /\
    forallb plain a = true /\ forallb plain b = true /\ forallb plain c = true /\
    (s = a ++ 64 :: b ++ 46 :: c \/ s = a ++ 64 :: b ++ 46 :: c ++ [NEWLINE]).

(** The lines the scan goes on with after an amount line: past the line
    after it when that line is ["View"]. *)
Definition after_view (lines : list pystr) : list pystr :=
  match lines with
  | v :: tl => if str_eqb (strip v) (py "View") then tl else lines
  | [] => []
  end.

Definition well_formed_row (r : Summary.row) : Prop :=
  Summary.matches Summary.DATE_PATTERN (Summary.row_date r) = true /\
  Summary.matches Summary.ORDER_ID_PATTERN (Summary.row_order_id r) = true /\
  exists line, Summary.row_order_id r = strip line.

(** A label line of the summary header that the loop acts on: the line at
    [i] is the label and enough lines follow it. *)
Definition label_at (lines : list pystr) (label : string) (width : nat)
  (i : nat) : Prop :=
  exists l, lines !! i = Some l /\ strip l = py label /\
            (i + width < length lines)%nat.

(** Where each value of the header dict comes from, and its type. *)
Definition header_sound (lines : list pystr) (h : gmap string pyval) : Prop :=
  (forall v, h !! "customer_name" = Some v ->
     exists i l, label_at lines "Customer Name" 5 i /\
       lines !! (i + 3)%nat = Some l /\ v = VStr (strip l)) /\
  (forall v, h !! "number_of_orders" = Some v ->
     exists i l n, label_at lines "Customer Name" 5 i /\
       lines !! (i + 4)%nat = Some l /\ int (strip l) = Ok n /\ v = VInt n) /\
  (forall v, h !! "total_amount" = Some v ->
     exists i l a, label_at lines "Customer Name" 5 i /\
       lines !! (i + 5)%nat = Some l /\
       Summary._parse_amount (Some (strip l)) = Ok a /\ v = VFloat a) /\
  (forall v, h !! "customer_email" = Some v ->
     exists i l, label_at lines "Email" 3 i /\
       lines !! (i + 2)%nat = Some l /\ v = VStr (strip l)) /\
  (forall v, h !! "date_range" = Some v ->
     exists i l, label_at lines "Email" 3 i /\
       lines !! (i + 3)%nat = Some l /\ v = VStr (strip l)).

(** What one block of [_parse_tax_block] does to the dict. *)
Definition updates_only (keys : list string) (taxes taxes' : gmap string pyfloat)
  : Prop :=
  dom taxes' = dom taxes /\
  forall k, k ∉ keys -> taxes' !! k = taxes !! k.

(** [row[0] and "Invoice Value" in row[0]] *)
Definition is_invoice_value_row (row : list cell) : bool :=
  match row !! 0%nat with
  | Some c0 => truthy c0 && contains (py "Invoice Value") (or_empty c0)
  | None => false
  end.

(** The keys of the handling-fee tax dict that hold a float, and those that
    hold a string. *)
Definition handling_float_keys : list string :=
  ["cgst_rate"; "cgst_amount"; "sgst_rate"; "sgst_amount";
   "state_cess_rate"; "state_cess_amount"; "total_taxes"; "invoice_total"].

Definition handling_str_keys : list string := ["hsn_code"; "hsn_description"].

(** Every entry of the dict has one of the known keys and a value of the
    type of that key. *)
Definition handling_typed (taxes : gmap string pyval) : Prop :=
  forall k v, taxes !! k = Some v ->
    (k ∈ handling_float_keys /\ exists x, v = VFloat x) \/
    (k ∈ handling_str_keys /\ exists s, v = VStr s).

Definition download_inv (orders : list Summary.OrderRow)
  (dir : gmap (list N) (list N)) (n : nat) (st : Downloader.state) : Prop :=
  (Downloader.skipped st + Downloader.downloaded st + Downloader.failed st
   = n)%nat /\
  (forall name content, dir !! name = Some content -> content <> [] ->
     Downloader.files st !! name = Some content) /\
  (forall oid path, Downloader.results st !! oid = Some path ->
     path = oid ++ py ".pdf" /\ is_Some (Downloader.files st !! path) /\
     exists order, order ∈ orders /\ Summary.order_id order = oid).

(** The state of the downloader when a call ends. *)
Definition final_state (out : Downloader.outcome) : Downloader.state :=
  match out with
  | Downloader.Returns st | Downloader.Escapes st => st
  end.

(** ** Further example documents *)

(** An order id of fifteen Arabic-Indic digits (U+0660 to U+0669). *)
Definition arabic_indic_order_id : pystr :=
  [1633; 1634; 1635; 1636; 1637; 1638; 1639; 1640; 1641; 1632;
   1633; 1634; 1635; 1636; 1637].

(** The pages of a summary with two rows on its only page, the order id of
    the second in Arabic-Indic digits. *)
Definition two_row_pages : list Summary.page :=
  [ {| Summary.get_text :=
         join [NEWLINE]
           [py "09-08-2025"; py "123456789012345"; py "Test Kitchen";
            RUPEE :: py "1,774.50"; py "View";
            py "10-08-2025"; arabic_indic_order_id; py "Second"; py "Shop";
            RUPEE :: py "500"; py "View"];
       Summary.get_links := [] |} ].

(** The lines of a summary header, and lines whose label comes too close to
    the end for the loop to act on it. *)
Definition header_lines : list pystr :=
  [py "Customer Name"; py "Number of Orders"; py "Total Amount";
   py "John Doe"; py "36"; RUPEE :: py "44633.43"].

Definition header_lines_cut_short : list pystr :=
  [py "09-08-2025"; py "Customer Name"].

(** A summary whose header declares the one order it lists. *)
Definition summary_with_header : Summary.file :=
  {| Summary.file_name := py "order_summary_food_1.pdf";
     Summary.fitz_open := Some
       [ {| Summary.get_text :=
              join [NEWLINE]
                [py "Customer Name"; py "Number of Orders"; py "Total Amount";
                 py "John Doe"; py "1"; RUPEE :: py "1,774.50";
                 py "09-08-2025"; py "123456789012345"; py "Test Kitchen";
                 RUPEE :: py "1,774.50"; py "View"];
            Summary.get_links := [Some (py "https://example.com/1")] |} ] |}.

(** A food table with one item and its subtotal, and no tax row. *)
Definition food_table_without_taxes : table :=
  [ [Some (py "Tax Invoice")]; [None];
    [Some (py "Order ID: 123456789012345")];
    [Some (py "Sr No"); Some (py "Description")];
    [Some (py "1."); Some (py "Paneer"); Some (py "NOS"); Some (py "2"); None;
     Some (py "100.00"); Some (py "200.00"); Some (py "0.00"); Some (py "200.00")];
    [None; Some (py "Subtotal"); None; Some (py "200.00")];
    [None]; [None] ].

(** * Properties *)

(** ** Numbers *)

Lemma float_ok_or_value_error (s : pystr) :
  (exists x, float s = Ok x) \/ float s = Raise ValueError.
Proof.
  unfold float.
  repeat (case_match; eauto).
Qed.

Lemma int_ok_or_value_error (s : pystr) :
  (exists z, int s = Ok z) \/ int s = Raise ValueError.
Proof.
  unfold int.
  repeat (case_match; eauto).
Qed.

Lemma parse_float_total (val : option pystr) :
  exists x, Food._parse_float val = Ok x.
Proof.
  destruct val as [[|c v]|]; [by eexists | | by eexists].
  unfold Food._parse_float.
  destruct (float_ok_or_value_error
              (strip (replace RUPEE [] (replace COMMA [] (c :: v)))))
    as [[x Hx] | Hx]; rewrite Hx; eauto.
Qed.

Lemma pf_total (val : option pystr) : exists x, Instamart._pf val = Ok x.
Proof.
  destruct val as [[|c v]|]; [by eexists | | by eexists].
  unfold Instamart._pf.
  destruct (float_ok_or_value_error
              (strip (replace RUPEE [] (replace COMMA [] (c :: v)))))
    as [[x Hx] | Hx]; rewrite Hx; eauto.
Qed.

(** The two decimals 1774.50 and 1774.5 are one number. *)
(** The readers of numbers beyond ASCII: [int()] and [float()] read the
    decimal digits of any script (the Arabic-Indic digits one, two, three
    read as 123, the fullwidth digits as 1.5), such a digit passes the
    serial test, the circled digit one (U+2460) is a digit for
    [str.isdigit] that [int()] refuses, the pattern [\d{15}] takes fifteen Arabic-Indic digits,
    and [float("1e400")] is [inf]. *)
Lemma numbers_beyond_ascii :
  int [1633; 1634; 1635] = Ok 123%Z /\
  float [65297; 46; 65301] = Ok (dec 1 5 1) /\
  isdigit [1633] = true /\
  is_serial (Some [1633; PERIOD]) = true /\
  isdigit [9312] = true /\
  int [9312] = Raise ValueError /\
  Summary.matches Summary.ORDER_ID_PATTERN (replicate 15 1633) = true /\
  float (py "1e400") = Ok (Inf false).
Proof. repeat split; vm_compute; reflexivity. Qed.

Lemma trailing_zero_same_number :
  float_eqb (dec 1774 50 2) (dec 1774 5 1) = true.
Proof. vm_compute. reflexivity. Qed.

(** C1, as stated, fails on the summary extractor's normalizer: on the
    empty string and on ["N/A"] [Summary._parse_amount] raises [ValueError],
    and on [None] it raises [AttributeError]. *)
Lemma parse_amount_raises_on_garbage :
  Summary._parse_amount (Some (py "")) = Raise ValueError /\
  Summary._parse_amount None = Raise AttributeError /\
  Summary._parse_amount (Some (py "N/A")) = Raise ValueError.
Proof. repeat split; vm_compute; reflexivity. Qed.

(** C1, amended: the normalizers of the food and instamart extractors
    ([_parse_float], [_pf]) never raise, give 1774.50, 1774.50 and 500.50 on
    the three well-formed tokens and [0.0] on the empty string, on [None]
    and on ["N/A"]; the summary extractor's [_parse_amount] gives the same
    values on the three well-formed tokens and raises on the other three. *)
Theorem normalizers_total_parse_amount_strict :
  normalizer_spec Food._parse_float /\
  normalizer_spec Instamart._pf /\
  Summary._parse_amount (Some (RUPEE :: py "1,774.50")) = Ok (dec 1774 50 2) /\
  Summary._parse_amount (Some (py "1774.50")) = Ok (dec 1774 50 2) /\
  Summary._parse_amount (Some (py "  500.50  ")) = Ok (dec 500 50 2) /\
  Summary._parse_amount (Some (py "")) = Raise ValueError /\
  Summary._parse_amount None = Raise AttributeError /\
  Summary._parse_amount (Some (py "N/A")) = Raise ValueError.
Proof.
  split; [|split].
  - split; [exact parse_float_total | repeat split; vm_compute; reflexivity].
  - split; [exact pf_total | repeat split; vm_compute; reflexivity].
  - repeat split; vm_compute; reflexivity.
Qed.

(** ** The summary extractor *)

Section SummaryScan.

Import Summary.

(** The equations of the two loops. *)
Lemma scan_cons (l : pystr) (tl : list pystr) :
  scan (l :: tl) =
  if matches DATE_PATTERN (strip l) then
    match tl with
    | o :: tl' =>
        if matches ORDER_ID_PATTERN (strip o)
        then collect (strip l) (strip o) [] tl'
        else scan tl'
    | [] => Ok []
    end
  else scan tl.
Proof. reflexivity. Qed.

Lemma collect_cons (d o : pystr) (parts : list pystr) (c : pystr)
  (tl : list pystr) :
  matches AMOUNT_PATTERN (strip c) = false ->
  collect d o parts (c :: tl) = collect d o (parts ++ [strip c]) tl.
Proof.
  intros H. change (collect d o parts (c :: tl)) with
    (if matches AMOUNT_PATTERN (strip c) then
       match _parse_amount (Some (strip c)) with
       | Raise e => Raise e
       | Ok amount =>
           match
             match tl with
             | v :: tl' => if str_eqb (strip v) (py "View") then scan tl' else scan tl
             | [] => scan tl
             end
           with
           | Ok rs => Ok (Build_row d o (join [SPACE] parts) amount :: rs)
           | Raise e => Raise e
           end
       end
     else collect d o (parts ++ [strip c]) tl).
  by rewrite H.
Qed.

(** Without an amount line the inner loop runs to the end of the page and
    appends nothing. *)
Lemma collect_without_amount (d o : pystr) (rest : list pystr) :
  Forall (fun l => matches AMOUNT_PATTERN (strip l) = false) rest ->
  forall parts, collect d o parts rest = Ok [].
Proof.
  induction 1 as [|c tl Hc _ IH]; intros parts.
  - reflexivity.
  - rewrite collect_cons by exact Hc. apply IH.
Qed.

Lemma extract_order_rows_cons (p : page) (ps : list page) :
  page_rows p = Ok [] ->
  _extract_order_rows (p :: ps) = _extract_order_rows ps.
Proof.
  intros H. unfold _extract_order_rows. simpl. by rewrite H.
Qed.

End SummaryScan.

(** C10: a candidate whose date line and order-id line both match, and after
    which no line up to the end of the page matches the amount pattern,
    gives no row: the scan of the page from the date line returns the empty
    list, whatever name fragments were gathered, and a page that is such a
    candidate adds nothing to the rows of the document. *)
Theorem candidate_without_amount_is_dropped (d o : pystr) (rest : list pystr) :
  Summary.matches Summary.DATE_PATTERN (strip d) = true ->
  Summary.matches Summary.ORDER_ID_PATTERN (strip o) = true ->
  Forall (fun l => Summary.matches Summary.AMOUNT_PATTERN (strip l) = false) rest ->
  Summary.scan (d :: o :: rest) = Ok [] /\
  (forall parts, Summary.collect (strip d) (strip o) parts rest = Ok []) /\
  (forall p ps, split_on NEWLINE (Summary.get_text p) = d :: o :: rest ->
     Summary._extract_order_rows (p :: ps) = Summary._extract_order_rows ps).
Proof.
  intros Hd Ho Hrest.
  assert (Hscan : Summary.scan (d :: o :: rest) = Ok []).
  { rewrite scan_cons, Hd, Ho. by apply collect_without_amount. }
  split; [exact Hscan | split].
  - by apply collect_without_amount.
  - intros p ps Hp. apply extract_order_rows_cons.
    unfold Summary.page_rows. by rewrite Hp.
Qed.

(** On [page_with_open_candidate] only the full row comes out. *)
Lemma candidate_without_amount_is_dropped_witness :
  Summary.scan (drop 5 page_with_open_candidate) = Ok [] /\
  Summary.scan page_with_open_candidate =
    Ok [Summary.Build_row (py "09-08-2025") (py "123456789012345")
          (py "Test Kitchen") (dec 1774 50 2)].
Proof.
  split.
  - apply (candidate_without_amount_is_dropped
             (py "10-08-2025") (py "223456789012345") [py "Second"; py "Shop"]).
    + vm_compute; reflexivity.
    + vm_compute; reflexivity.
    + repeat constructor.
  - vm_compute; reflexivity.
Defined.

(** C5: the code at the lines of [two_dates_then_row], where the first date
    line is followed by a second date line, which is followed by a full row.
    The second date line should start a row; the scan returns none (from the
    second date line on its own it returns the row): after the date line the
    index is advanced once, and once more when the next line is no order
    id, so that line is consumed without being tried as a date. *)
Lemma date_after_abandoned_date_is_skipped :
  Summary.matches Summary.DATE_PATTERN (py "09-08-2025") = true /\
  Summary.matches Summary.ORDER_ID_PATTERN (py "10-08-2025") = false /\
  Summary.matches Summary.DATE_PATTERN (py "10-08-2025") = true /\
  Summary.scan (drop 1 two_dates_then_row) =
    Ok [Summary.Build_row (py "10-08-2025") (py "123456789012345")
          (py "Test Kitchen") (dec 1774 50 2)] /\
  Summary.scan two_dates_then_row = Ok [].
Proof. repeat split; vm_compute; reflexivity. Qed.

(** What the scan does there, for any lines: when a line matches the date
    pattern and the line after it does not match the 15-digit pattern, the
    scan goes on two lines further. *)
Lemma abandoned_candidate_resumes_after_successor (d x : pystr)
  (rest : list pystr) :
  Summary.matches Summary.DATE_PATTERN (strip d) = true ->
  Summary.matches Summary.ORDER_ID_PATTERN (strip x) = false ->
  Summary.scan (d :: x :: rest) = Summary.scan rest.
Proof.
  intros Hd Hx. by rewrite scan_cons, Hd, Hx.
Qed.

Lemma abandoned_candidate_resumes_after_successor_witness :
  Summary.scan two_dates_then_row = Summary.scan (drop 2 two_dates_then_row).
Proof.
  apply (abandoned_candidate_resumes_after_successor
           (py "09-08-2025") (py "10-08-2025")).
  - vm_compute; reflexivity.
  - vm_compute; reflexivity.
Defined.

(** The orders built from the rows and the hyperlinks, entry by entry. *)
Lemma build_orders_lookup (urls : list pystr) (rows : list Summary.row)
  (i : nat) (r : Summary.row) :
  rows !! i = Some r ->
  exists o, Summary.build_orders urls rows !! i = Some o /\
    Summary.date o = Summary.row_date r /\
    Summary.order_id o = Summary.row_order_id r /\
    Summary.name o = Summary.row_name r /\
    Summary.amount o = Summary.row_amount r /\
    (forall u, urls !! i = Some u -> Summary.detail_url o = u) /\
    ((length urls <= i)%nat -> Summary.detail_url o = []).
Proof.
  intros Hr. exists (Summary.build_order urls i r). split.
  - unfold Summary.build_orders. by rewrite list_lookup_imap, Hr.
  - repeat split; simpl.
    + intros u Hu. apply lookup_lt_Some in Hu as Hlt.
      rewrite bool_decide_eq_true_2 by exact Hlt. by rewrite Hu.
    + intros Hge. rewrite bool_decide_eq_false_2 by lia. reflexivity.
Qed.

(** C4: with [n] rows extracted from the text and [m] hyperlinks,
    [parse_summary] returns a record with exactly [n] orders, in row order;
    the [i]-th order carries the fields of the [i]-th row, the [i]-th
    hyperlink when [i < m] and the empty string when [i >= m].  When [n] and
    [m] differ it prints one warning and still returns the record. *)
Theorem orders_follow_rows_and_links (f : Summary.file) (t : pystr)
  (doc : list Summary.page) (first : Summary.page)
  (header : gmap string pyval) (rows : list Summary.row) :
  Summary._detect_order_type (Summary.file_name f) = Ok t ->
  Summary.fitz_open f = Some doc ->
  doc !! 0%nat = Some first ->
  Summary._extract_header (split_on NEWLINE (Summary.get_text first)) = Ok header ->
  Summary._extract_order_rows doc = Ok rows ->
  let urls := Summary._extract_urls doc in
  exists warnings sd,
    Summary.parse_summary f = Ok (warnings, sd) /\
    length (Summary.orders sd) = length rows /\
    (forall i r, rows !! i = Some r ->
       exists o, Summary.orders sd !! i = Some o /\
         Summary.date o = Summary.row_date r /\
         Summary.order_id o = Summary.row_order_id r /\
         Summary.name o = Summary.row_name r /\
         Summary.amount o = Summary.row_amount r /\
         (forall u, urls !! i = Some u -> Summary.detail_url o = u) /\
         ((length urls <= i)%nat -> Summary.detail_url o = [])) /\
    (length urls = length rows -> warnings = []) /\
    (length urls <> length rows ->
       warnings = [CountMismatch (length urls) (length rows) (Summary.file_name f)]).
Proof.
  intros Ht Hopen Hfirst Hheader Hrows urls.
  eexists _, _. split; [|split; [|split; [|split]]].
  - unfold Summary.parse_summary. rewrite Ht. simpl. rewrite Hopen.
    unfold index. rewrite Hfirst. simpl. rewrite Hheader. simpl.
    rewrite Hrows. simpl. reflexivity.
  - simpl. unfold Summary.build_orders. apply length_imap.
  - simpl. intros i r Hr. by apply build_orders_lookup.
  - intros Heq. unfold Summary.count_warning.
    by rewrite bool_decide_eq_false_2 by (fold urls; intros H; apply H; exact Heq).
  - intros Hne. unfold Summary.count_warning.
    by rewrite bool_decide_eq_true_2 by exact Hne.
Qed.

(** Two rows and one hyperlink: two orders, the second with an empty
    locator, and one warning. *)
Lemma orders_follow_rows_and_links_witness :
  exists warnings sd,
    Summary.parse_summary summary_two_rows_one_link = Ok (warnings, sd) /\
    length (Summary.orders sd) = 2%nat /\
    Summary.detail_url <$> Summary.orders sd = [py "https://example.com/1"; []] /\
    warnings = [CountMismatch 1 2 (py "order_summary_food_1.pdf")].
Proof.
  destruct (orders_follow_rows_and_links summary_two_rows_one_link (py "food")
              _ _ ∅
              [Summary.Build_row (py "09-08-2025") (py "123456789012345")
                 (py "Test Kitchen") (dec 1774 50 2);
               Summary.Build_row (py "10-08-2025") (py "223456789012345")
                 (py "Second Shop") (Fin false 500 0)]
              ltac:(vm_compute; reflexivity) eq_refl eq_refl
              ltac:(vm_compute; reflexivity) ltac:(vm_compute; reflexivity))
    as (warnings & sd & Hparse & Hlen & _ & _ & Hwarn).
  exists warnings, sd. split; [exact Hparse | split; [exact Hlen | split]].
  - assert (Hsd : Summary.parse_summary summary_two_rows_one_link
                  = Ok (warnings, sd)) by exact Hparse.
    vm_compute in Hsd. injection Hsd as _ <-. vm_compute. reflexivity.
  - apply Hwarn. vm_compute. discriminate.
Defined.

(** C7, as stated, fails: a file name that holds both words is given the
    type ["food"], although it does not hold the word of exactly one type. *)
Lemma name_with_both_words_is_food :
  contains (py "food") (lower (py "Food_Instamart_1.pdf")) = true /\
  contains (py "instamart") (lower (py "Food_Instamart_1.pdf")) = true /\
  Summary._detect_order_type (py "Food_Instamart_1.pdf") = Ok (py "food").
Proof. repeat split; vm_compute; reflexivity. Qed.

(** C7, amended: the order type depends only on which of the two words the
    lower-cased file name holds, ["food"] being tried first: the type is
    ["food"] exactly when the name holds ["food"] (whether or not it also
    holds ["instamart"]), ["instamart"] exactly when it holds ["instamart"]
    and not ["food"], and detection raises [ValueError] exactly when it holds
    neither; in that case [parse_summary] returns no record and raises the
    same error. *)
Theorem order_type_by_substring_food_first (file_name : pystr) :
  let name := lower file_name in
  (Summary._detect_order_type file_name = Ok (py "food")
     <-> contains (py "food") name = true) /\
  (Summary._detect_order_type file_name = Ok (py "instamart")
     <-> contains (py "food") name = false /\ contains (py "instamart") name = true) /\
  (Summary._detect_order_type file_name = Raise ValueError
     <-> contains (py "food") name = false /\ contains (py "instamart") name = false) /\
  (forall f, Summary.file_name f = file_name ->
     contains (py "food") name = false -> contains (py "instamart") name = false ->
     Summary.parse_summary f = Raise ValueError).
Proof.
  intros name. unfold Summary._detect_order_type. fold name.
  assert (Hne : py "food" <> py "instamart") by (vm_compute; discriminate).
  destruct (contains (py "food") name) eqn:Hf;
    destruct (contains (py "instamart") name) eqn:Hi;
    repeat split; try done; try (intros [? ?]; done); try congruence.
  intros f Hname _ _. unfold Summary.parse_summary, Summary._detect_order_type.
  rewrite Hname. fold name. by rewrite Hf, Hi.
Qed.

(** ** Dicts filled key by key *)

Section Assign.

Context {A V : Type} (value : A -> V).

Lemma foldl_assign_other (fields : list (string * A)) (d : gmap string V)
  (k : string) :
  k ∉ fields.*1 ->
  foldl (fun d kf => <[kf.1 := value kf.2]> d) d fields !! k = d !! k.
Proof.
  revert d. induction fields as [|[k' a] tl IH]; intros d Hk; [done|].
  simpl in *. apply not_elem_of_cons in Hk as [Hne Hk].
  rewrite IH by exact Hk. by apply lookup_insert_ne.
Qed.

Lemma foldl_assign_lookup (fields : list (string * A)) (d : gmap string V)
  (k : string) (a : A) :
  NoDup fields.*1 -> (k, a) ∈ fields ->
  foldl (fun d kf => <[kf.1 := value kf.2]> d) d fields !! k = Some (value a).
Proof.
  revert d. induction fields as [|[k' a'] tl IH]; intros d Hnd Hin.
  - by apply elem_of_nil in Hin.
  - simpl in *. apply NoDup_cons in Hnd as [Hk' Hnd].
    apply elem_of_cons in Hin as [Heq | Hin].
    + simplify_eq.
      rewrite foldl_assign_other by exact Hk'. apply lookup_insert_eq.
    + by apply IH.
Qed.

(** Each key of the table holds the value of its own entry. *)
Lemma assign_all_lookup (fields : list (string * A)) (k : string) (a : A) :
  NoDup fields.*1 -> (k, a) ∈ fields ->
  assign_all value fields !! k = Some (value a).
Proof. apply foldl_assign_lookup. Qed.

End Assign.

(** ** The food header *)

Lemma header_keys_distinct : NoDup Food.header_fields.*1.
Proof. compute_done. Qed.

(** C6, as stated, fails: on the empty string the document type is ["INV"]
    and the reverse-charge field is ["No"], not the empty string. *)
Lemma empty_header_document_type_is_INV :
  Food._parse_header (py "") !! "document_type" = Some (py "INV") /\
  Food._parse_header (py "") !! "reverse_charges" = Some (py "No").
Proof. split; vm_compute; reflexivity. Qed.

(** C6, amended: header extraction is a total function of the text.  Each
    field of the header table is read by its own pattern alone: it is the
    group found by that pattern (stripped, or with its blanks squeezed for
    the address), and when the pattern is not found the field takes its own
    default, whatever the other patterns find.  On the empty string every
    field takes its default: the empty string, except the document type,
    whose default is ["INV"], and the reverse-charge field, whose default is
    ["No"]. *)
Theorem header_fields_default_independently :
  (forall (t : pystr) key r post dflt,
     (key, (r, post, dflt)) ∈ Food.header_fields ->
     Food._parse_header t !! key = Some (field r post dflt t) /\
     (Re.search r t = None -> Food._parse_header t !! key = Some dflt)) /\
  (forall key r post dflt,
     (key, (r, post, dflt)) ∈ Food.header_fields ->
     Food._parse_header (py "") !! key = Some dflt /\
     (key <> "document_type" -> key <> "reverse_charges" -> dflt = py "")) /\
  Food._parse_header (py "") !! "document_type" = Some (py "INV") /\
  Food._parse_header (py "") !! "reverse_charges" = Some (py "No").
Proof.
  assert (Hlookup : forall (t : pystr) key r post dflt,
            (key, (r, post, dflt)) ∈ Food.header_fields ->
            Food._parse_header t !! key = Some (field r post dflt t)).
  { intros t key r post dflt Hin. unfold Food._parse_header.
    rewrite (assign_all_lookup _ _ key (r, post, dflt)
               header_keys_distinct Hin).
    reflexivity. }
  split; [|split; [|split]].
  - intros t key r post dflt Hin. split; [by apply Hlookup|].
    intros Hnone. rewrite (Hlookup _ _ _ _ _ Hin). unfold field.
    by rewrite Hnone.
  - intros key r post dflt Hin. rewrite (Hlookup _ _ _ _ _ Hin).
    unfold Food.header_fields in Hin.
    repeat (apply elem_of_cons in Hin as [Heq | Hin];
            [simplify_eq;
             split; [vm_compute; reflexivity | intros; done] |]).
    by apply elem_of_nil in Hin.
  - vm_compute; reflexivity.
  - vm_compute; reflexivity.
Qed.

(** ** The food item rows *)

Lemma bind_ok {A B} (a : A) (f : A -> result B) : (Ok a ≫= f) = f a.
Proof. reflexivity. Qed.

Lemma bind_inv {A B} (m : result A) (f : A -> result B) (b : B) :
  (m ≫= f) = Ok b -> exists a, m = Ok a /\ f a = Ok b.
Proof. destruct m as [a|e]; [eauto | discriminate]. Qed.

Lemma index_inv {A} (l : list A) (i : nat) (x : A) :
  index l i = Ok x -> l !! i = Some x.
Proof. unfold index. by destruct (l !! i); intros [=->]. Qed.

Lemma index_lookup {A} (l : list A) (i : nat) (x : A) :
  l !! i = Some x -> index l i = Ok x.
Proof. unfold index. by intros ->. Qed.

Lemma index_short {A} (l : list A) (i : nat) :
  (length l <= i)%nat -> index l i = Raise IndexError.
Proof. intros H. unfold index. by rewrite lookup_ge_None_2. Qed.

(** Inversion of a chain of binds that ends in [Ok]. *)
Ltac bind_inv H :=
  repeat (let a := fresh "a" in
          let Ha := fresh "H" a in
          apply bind_inv in H as (a & Ha & H)).

Lemma food_scan_items_cons (c0 c1 : cell) (cs : list cell)
  (tl : list (list cell)) (items : list Food.FoodItem) :
  Food.scan_items ((c0 :: c1 :: cs) :: tl) items =
  if is_subtotal_row (c0 :: c1 :: cs) then
    v ← index_last (c0 :: c1 :: cs); s ← Food._parse_float v; Ok (items, s)
  else if is_item_row (c0 :: c1 :: cs) then
    it ← Food.item_of_row (c0 :: c1 :: cs); Food.scan_items tl (items ++ [it])
  else Food.scan_items tl items.
Proof.
  unfold is_subtotal_row, is_item_row.
  change ((c0 :: c1 :: cs) !! 1%nat) with (Some c1).
  change ((c0 :: c1 :: cs) !! 0%nat) with (Some c0).
  change (Food.scan_items ((c0 :: c1 :: cs) :: tl) items) with
    (if truthy c1 && str_eqb (strip (or_empty c1)) (py "Subtotal") then
       v ← index_last (c0 :: c1 :: cs); s ← Food._parse_float v; Ok (items, s)
     else if truthy c0 && contains (py "Subtotal") (or_empty c0) then
       v ← index_last (c0 :: c1 :: cs); s ← Food._parse_float v; Ok (items, s)
     else if is_serial c0 then
       it ← Food.item_of_row (c0 :: c1 :: cs); Food.scan_items tl (items ++ [it])
     else Food.scan_items tl items).
  by destruct (truthy c1 && str_eqb (strip (or_empty c1)) (py "Subtotal")).
Qed.

(** The rows before the first subtotal row give their items in order, the
    others are passed over; the subtotal row ends the loop. *)
Lemma food_scan_items_until_subtotal (pre : list (list cell))
  (sub : list cell) (post : list (list cell)) (its : list Food.FoodItem)
  (v : pyfloat) :
  Forall (fun row => (2 <= length row)%nat /\ is_subtotal_row row = false) pre ->
  Forall2 (fun row it => Food.item_of_row row = Ok it)
          (List.filter is_item_row pre) its ->
  (2 <= length sub)%nat -> is_subtotal_row sub = true ->
  Food._parse_float (default None (last sub)) = Ok v ->
  forall items,
    Food.scan_items (pre ++ sub :: post) items = Ok (items ++ its, v).
Proof.
  intros Hpre. revert its.
  induction Hpre as [|row pre' [Hlen Hns] _ IH]; intros its Hits Hsub Hs Hv items.
  - apply Forall2_nil_inv_l in Hits as ->.
    destruct sub as [|c0 [|c1 cs]]; simpl in Hsub; try lia.
    rewrite app_nil_l, food_scan_items_cons, Hs. unfold index_last.
    destruct (last (c0 :: c1 :: cs)) as [x|] eqn:Hlast;
      [|by apply last_None in Hlast].
    rewrite bind_ok. simpl in Hv. rewrite Hv, bind_ok.
    by rewrite app_nil_r.
  - destruct row as [|c0 [|c1 cs]]; simpl in Hlen; try lia.
    rewrite <- app_comm_cons, food_scan_items_cons, Hns.
    simpl in Hits.
    destruct (is_item_row (c0 :: c1 :: cs)) eqn:Hitem.
    + apply Forall2_cons_inv_l in Hits as (it & its' & Hit & Hits & ->).
      rewrite Hit, bind_ok, (IH its' Hits Hsub Hs Hv).
      by rewrite <- app_assoc.
    + by apply IH.
Qed.

(** Without a subtotal row the loop runs to the end of the table. *)
Lemma food_scan_items_no_subtotal (rows : list (list cell))
  (its : list Food.FoodItem) :
  Forall (fun row => (2 <= length row)%nat /\ is_subtotal_row row = false) rows ->
  Forall2 (fun row it => Food.item_of_row row = Ok it)
          (List.filter is_item_row rows) its ->
  forall items, Food.scan_items rows items = Ok (items ++ its, zero).
Proof.
  intros Hrows. revert its.
  induction Hrows as [|row rows' [Hlen Hns] _ IH]; intros its Hits items.
  - apply Forall2_nil_inv_l in Hits as ->. by rewrite app_nil_r.
  - destruct row as [|c0 [|c1 cs]]; simpl in Hlen; try lia.
    rewrite food_scan_items_cons, Hns. simpl in Hits.
    destruct (is_item_row (c0 :: c1 :: cs)) eqn:Hitem.
    + apply Forall2_cons_inv_l in Hits as (it & its' & Hit & Hits & ->).
      rewrite Hit, bind_ok, (IH its' Hits). by rewrite <- app_assoc.
    + by apply IH.
Qed.

(** The cells an item is read from. *)
Lemma food_item_columns (row : list cell) (it : Food.FoodItem) :
  Food.item_of_row row = Ok it ->
  let k := if bool_decide (9 <= length row)%nat then 1%nat else 0%nat in
  (8 <= length row)%nat /\
  int (serial_text (cell_at row 0)) = Ok (Food.sr_no it) /\
  Food.unit_of_measure it = strip (or_empty (cell_at row 2)) /\
  int_or_zero (cell_at row 3) = Ok (Food.quantity it) /\
  Food._parse_float (cell_at row (4 + k)) = Ok (Food.unit_price it) /\
  Food._parse_float (cell_at row (5 + k)) = Ok (Food.amount it) /\
  Food._parse_float (cell_at row (6 + k)) = Ok (Food.discount it) /\
  Food._parse_float (cell_at row (7 + k)) = Ok (Food.net_assessable_value it).
Proof.
  unfold Food.item_of_row, Food.money_columns, cell_at.
  case_bool_decide as Hlen; intros H; bind_inv H;
    repeat match goal with
           | Hi : index _ _ = Ok _ |- _ => apply index_inv in Hi
           end;
    injection H as <-; simpl;
    repeat match goal with
           | Hi : row !! _ = Some _ |- _ => rewrite Hi
           end; simpl.
  - repeat split; try done; try lia.
    by destruct a as [[|]|].
  - assert (7 < length row)%nat by (by eapply lookup_lt_Some).
    repeat split; try done; try lia.
    by destruct a as [[|]|].
Qed.

Lemma food_extract_items (t : table) (inv : Food.FoodInvoice) :
  Food.extract t = Ok inv ->
  Food.scan_items (drop 4 t) [] = Ok (Food.items inv, Food.subtotal inv).
Proof.
  unfold Food.extract. intros H.
  apply bind_inv in H as (r2 & _ & H).
  apply bind_inv in H as (c & _ & H).
  apply bind_inv in H as ([its sub] & Hscan & H).
  bind_inv H. injection H as <-. exact Hscan.
Qed.

Lemma is_item_row_spec (row : list cell) :
  is_item_row row = true <->
  exists s, row !! 0%nat = Some (Some s) /\ s <> [] /\
            isdigit (rstrip [PERIOD] (strip s)) = true.
Proof.
  unfold is_item_row, is_serial, serial_text. split.
  - destruct (row !! 0%nat) as [[[|c s]|]|]; simpl; try done.
    intros H. by exists (c :: s).
  - intros (s & -> & Hs & Hd). by destruct s.
Qed.

(** The rows before [tl] are read, and the loop goes on at [tl]. *)
Lemma food_scan_items_prefix (pre : list (list cell))
  (its : list Food.FoodItem) :
  Forall (fun row => (2 <= length row)%nat /\ is_subtotal_row row = false) pre ->
  Forall2 (fun row it => Food.item_of_row row = Ok it)
          (List.filter is_item_row pre) its ->
  forall tl items,
    Food.scan_items (pre ++ tl) items = Food.scan_items tl (items ++ its).
Proof.
  intros Hpre. revert its.
  induction Hpre as [|row pre' [Hlen Hns] _ IH]; intros its Hits tl items.
  - apply Forall2_nil_inv_l in Hits as ->. by rewrite app_nil_r.
  - destruct row as [|c0 [|c1 cs]]; simpl in Hlen; try lia.
    rewrite <- app_comm_cons, food_scan_items_cons, Hns. simpl in Hits.
    destruct (is_item_row (c0 :: c1 :: cs)) eqn:Hitem.
    + apply Forall2_cons_inv_l in Hits as (it & its' & Hit & Hits & ->).
      rewrite Hit, bind_ok, (IH its' Hits). by rewrite <- app_assoc.
    + by apply IH.
Qed.

Lemma int_or_zero_ok_or_value_error (c : cell) :
  (exists z, int_or_zero c = Ok z) \/ int_or_zero c = Raise ValueError.
Proof.
  unfold int_or_zero. destruct (truthy c); [apply int_ok_or_value_error | eauto].
Qed.

Lemma index_error {A} (l : list A) (i : nat) (e : exn) :
  index l i = Raise e -> e = IndexError.
Proof. unfold index. destruct (l !! i); [done | by intros [= <-]]. Qed.

(** An item that does not read raises [IndexError] or [ValueError]. *)
Lemma food_item_of_row_error (row : list cell) (e : exn) :
  Food.item_of_row row = Raise e -> e = IndexError \/ e = ValueError.
Proof.
  unfold Food.item_of_row.
  destruct (Food.money_columns row) as [[[ip ia] id] inv].
  destruct (index row 2) as [uom|?] eqn:E2;
    [rewrite bind_ok | intros [= <-]; left; exact (index_error _ _ _ E2)].
  destruct (index row 3) as [qty|?] eqn:E3;
    [rewrite bind_ok | intros [= <-]; left; exact (index_error _ _ _ E3)].
  destruct (index row ip) as [price|?] eqn:Ep;
    [rewrite bind_ok | intros [= <-]; left; exact (index_error _ _ _ Ep)].
  destruct (index row ia) as [amt|?] eqn:Ea;
    [rewrite bind_ok | intros [= <-]; left; exact (index_error _ _ _ Ea)].
  destruct (index row id) as [disc|?] eqn:Ed;
    [rewrite bind_ok | intros [= <-]; left; exact (index_error _ _ _ Ed)].
  destruct (index row inv) as [nav|?] eqn:En;
    [rewrite bind_ok | intros [= <-]; left; exact (index_error _ _ _ En)].
  destruct (index row 0) as [c0|?] eqn:E0;
    [rewrite bind_ok | intros [= <-]; left; exact (index_error _ _ _ E0)].
  destruct (int_ok_or_value_error (serial_text c0)) as [[sr ->] | ->];
    [rewrite bind_ok | intros [= <-]; by right].
  destruct (index row 1) as [c1|?] eqn:E1;
    [rewrite bind_ok | intros [= <-]; left; exact (index_error _ _ _ E1)].
  destruct (int_or_zero_ok_or_value_error qty) as [[q ->] | ->];
    [rewrite bind_ok | intros [= <-]; by right].
  destruct (parse_float_total price) as [p ->]. rewrite bind_ok.
  destruct (parse_float_total amt) as [am ->]. rewrite bind_ok.
  destruct (parse_float_total disc) as [d ->]. rewrite bind_ok.
  destruct (parse_float_total nav) as [n ->]. rewrite bind_ok.
  done.
Qed.

(** C8, as stated, fails: the loop reads the second cell of every row it
    meets, and the cells of an item row, without a test of their presence.
    On [food_rows_with_short_row] a row of a single cell stands before the
    subtotal row: the loop raises [IndexError] and never reaches that row.
    On [food_rows_with_circled_serial] the first cell of the item row is a
    digit that [int()] does not read: the row passes the serial test and
    the loop raises [ValueError]. *)
Lemma food_rows_the_loop_cannot_read :
  Food.scan_items food_rows_with_short_row [] = Raise IndexError /\
  Forall (fun row => is_item_row row = true)
         (take 1 food_rows_with_circled_serial) /\
  Food.scan_items food_rows_with_circled_serial [] = Raise ValueError.
Proof.
  split; [vm_compute; reflexivity|].
  split; [repeat constructor | vm_compute; reflexivity].
Qed.

(** C8, amended: the items and the subtotal of a food invoice are those of
    the item loop run on the rows after the column-header row (from index 4
    on).  A row is an item row exactly when its first cell is a non-empty
    string that, stripped of blanks and of its trailing periods, is all
    digits.  When the rows met have two cells or more and the item rows
    read: up to the first row whose second cell is ["Subtotal"] or whose
    first cell holds ["Subtotal"], the loop gives the items of the item
    rows, in order, and passes over the other rows; at that row it stops
    and reads the subtotal from the row's last cell; without such a row it
    runs to the end and the subtotal is [0.0].  An item takes its unit of
    measure and quantity from cells 2 and 3, and price, amount, discount and
    net value from cells 5 to 8 when the row has nine cells or more, from
    cells 4 to 7 otherwise.  A row of fewer than two cells met before the
    subtotal row raises [IndexError], and an item row met there that does
    not read raises its error, [IndexError] or [ValueError]. *)
Theorem food_items_until_subtotal :
  (forall t inv,
     Food.extract t = Ok inv ->
     Food.scan_items (drop 4 t) [] = Ok (Food.items inv, Food.subtotal inv)) /\
  (forall row,
     is_item_row row = true <->
     exists s, row !! 0%nat = Some (Some s) /\ s <> [] /\
               isdigit (rstrip [PERIOD] (strip s)) = true) /\
  (forall pre sub post its v,
     Forall (fun row => (2 <= length row)%nat /\ is_subtotal_row row = false) pre ->
     Forall2 (fun row it => Food.item_of_row row = Ok it)
             (List.filter is_item_row pre) its ->
     (2 <= length sub)%nat -> is_subtotal_row sub = true ->
     Food._parse_float (default None (last sub)) = Ok v ->
     Food.scan_items (pre ++ sub :: post) [] = Ok (its, v)) /\
  (forall rows its,
     Forall (fun row => (2 <= length row)%nat /\ is_subtotal_row row = false) rows ->
     Forall2 (fun row it => Food.item_of_row row = Ok it)
             (List.filter is_item_row rows) its ->
     Food.scan_items rows [] = Ok (its, zero)) /\
  (forall row it,
     Food.item_of_row row = Ok it ->
     let k := if bool_decide (9 <= length row)%nat then 1%nat else 0%nat in
     (8 <= length row)%nat /\
     int (serial_text (cell_at row 0)) = Ok (Food.sr_no it) /\
     Food.unit_of_measure it = strip (or_empty (cell_at row 2)) /\
     int_or_zero (cell_at row 3) = Ok (Food.quantity it) /\
     Food._parse_float (cell_at row (4 + k)) = Ok (Food.unit_price it) /\
     Food._parse_float (cell_at row (5 + k)) = Ok (Food.amount it) /\
     Food._parse_float (cell_at row (6 + k)) = Ok (Food.discount it) /\
     Food._parse_float (cell_at row (7 + k)) = Ok (Food.net_assessable_value it)) /\
  (forall pre row post its,
     Forall (fun row => (2 <= length row)%nat /\ is_subtotal_row row = false) pre ->
     Forall2 (fun row it => Food.item_of_row row = Ok it)
             (List.filter is_item_row pre) its ->
     (length row < 2)%nat ->
     Food.scan_items (pre ++ row :: post) [] = Raise IndexError) /\
  (forall pre row post its e,
     Forall (fun row => (2 <= length row)%nat /\ is_subtotal_row row = false) pre ->
     Forall2 (fun row it => Food.item_of_row row = Ok it)
             (List.filter is_item_row pre) its ->
     (2 <= length row)%nat -> is_subtotal_row row = false ->
     is_item_row row = true -> Food.item_of_row row = Raise e ->
     Food.scan_items (pre ++ row :: post) [] = Raise e /\
     (e = IndexError \/ e = ValueError)).
Proof.
  split; [exact food_extract_items|].
  split; [exact is_item_row_spec|].
  split; [|split; [|split; [|split]]].
  - intros pre sub post its v Hpre Hits Hlen Hsub Hv.
    by apply (food_scan_items_until_subtotal pre sub post its v).
  - intros rows its Hrows Hits.
    by apply (food_scan_items_no_subtotal rows its).
  - exact food_item_columns.
  - intros pre row post its Hpre Hits Hlen.
    rewrite (food_scan_items_prefix pre its Hpre Hits).
    destruct row as [|c0 [|c1 cs]]; [reflexivity | reflexivity |].
    simpl in Hlen. lia.
  - intros pre row post its e Hpre Hits Hlen Hns Hitem He.
    split; [|by apply (food_item_of_row_error row)].
    rewrite (food_scan_items_prefix pre its Hpre Hits).
    destruct row as [|c0 [|c1 cs]]; simpl in Hlen; try lia.
    by rewrite food_scan_items_cons, Hns, Hitem, He.
Qed.

(** On [food_rows] the two item rows before the subtotal row give the
    items; the row after it is not read. *)
Lemma food_items_until_subtotal_witness :
  Food.scan_items food_rows [] = Ok (food_rows_items, dec 210 0 2).
Proof.
  destruct food_items_until_subtotal as (_ & _ & H & _).
  apply (H (take 3 food_rows) [None; Some (py "Subtotal"); None; Some (py "210.00")]
           (drop 4 food_rows)).
  - repeat constructor.
  - repeat constructor.
  - simpl. lia.
  - vm_compute; reflexivity.
  - vm_compute; reflexivity.
Defined.

(** ** Serial cells hold no marker *)

Lemma lstrip_by_keeps (p : N -> bool) (s : pystr) (c : N) :
  c ∈ s -> p c = true \/ c ∈ lstrip_by p s.
Proof.
  induction s as [|x s IH]; intros Hin; [by apply elem_of_nil in Hin|].
  simpl. destruct (p x) eqn:Hx; [|by right].
  apply elem_of_cons in Hin as [-> | Hin]; [by left | by apply IH].
Qed.

Lemma rstrip_by_keeps (p : N -> bool) (s : pystr) (c : N) :
  c ∈ s -> p c = true \/ c ∈ rstrip_by p s.
Proof.
  intros Hin. unfold rstrip_by.
  destruct (lstrip_by_keeps p (rev s) c) as [H | H]; [| by left |].
  - apply list_elem_of_In. apply (proj1 (in_rev s c)).
    by apply list_elem_of_In.
  - right. apply list_elem_of_In. apply (proj1 (in_rev _ c)).
    by apply list_elem_of_In.
Qed.

Lemma startswith_head (x : N) (w s : pystr) :
  startswith (x :: w) s = true -> x ∈ s.
Proof.
  destruct s as [|c s]; simpl; [done|].
  intros H. apply andb_prop in H as [H _]. apply N.eqb_eq in H as ->.
  apply list_elem_of_here.
Qed.

Lemma contains_head (x : N) (w s : pystr) :
  contains (x :: w) s = true -> x ∈ s.
Proof.
  induction s as [|c s IH].
  - simpl. done.
  - intros H. change (contains (x :: w) (c :: s))
      with (startswith (x :: w) (c :: s) || contains (x :: w) s) in H.
    apply orb_prop in H as [H | H]; [by eapply startswith_head|].
    apply list_elem_of_further. by apply IH.
Qed.

(** A cell that passes the serial test is made of blanks, digits and
    periods: it holds no word that starts with a letter. *)
Lemma serial_cell_chars (c0 : cell) (x : N) :
  is_serial c0 = true -> x ∈ or_empty c0 ->
  isspace x = true \/ x = PERIOD \/ isdigit_char x = true.
Proof.
  unfold is_serial, serial_text, rstrip, strip.
  intros H Hin. apply andb_prop in H as [_ Hd].
  set (s := or_empty c0) in *.
  destruct (lstrip_by_keeps isspace s x Hin) as [Hsp | Hin1]; [by left|].
  destruct (rstrip_by_keeps isspace _ x Hin1) as [Hsp | Hin2]; [by left|].
  destruct (rstrip_by_keeps (fun c => existsb (N.eqb c) [PERIOD]) _ x Hin2)
    as [Hp | Hin3].
  - right; left. simpl in Hp. rewrite orb_false_r in Hp. by apply N.eqb_eq in Hp.
  - right; right. unfold isdigit in Hd.
    destruct (rstrip_by _ _) as [|y ys] eqn:E in Hd; [done|].
    rewrite E in Hin3. rewrite forallb_forall in Hd.
    apply Hd. by apply list_elem_of_In.
Qed.

Lemma serial_cell_no_marker (c0 : cell) (x : N) (w : pystr) :
  is_serial c0 = true ->
  isspace x = false -> x <> PERIOD -> isdigit_char x = false ->
  contains (x :: w) (or_empty c0) = false.
Proof.
  intros Hs H1 H2 H3.
  destruct (contains (x :: w) (or_empty c0)) eqn:Hc; [|done].
  apply contains_head in Hc.
  destruct (serial_cell_chars c0 x Hs Hc) as [? | [? | ?]]; congruence.
Qed.

(** ** The instamart item rows *)

Lemma bind_raise {A B} (e : exn) (f : A -> result B) : (Raise e ≫= f) = Raise e.
Proof. reflexivity. Qed.

Lemma for_each_app {A B} (f : B -> A -> result B) (acc : B) (xs ys : list A) :
  for_each f acc (xs ++ ys) = acc' ← for_each f acc xs; for_each f acc' ys.
Proof.
  revert acc. induction xs as [|x xs IH]; intros acc; [done|].
  simpl. destruct (f acc x); [apply IH | done].
Qed.

(** One cell access of a chain: in range it gives the cell, out of range the
    chain stops with [IndexError]. *)
Ltac index_step row i :=
  let Hlt := fresh "Hlt" in
  let Hl := fresh "Hl" in
  destruct (decide (i < length row)%nat) as [Hlt | Hlt];
  [ destruct (lookup_lt_is_Some_2 row i Hlt) as [? Hl];
    rewrite (index_lookup row i _ Hl), bind_ok
  | rewrite (index_short row i), bind_raise by lia ].

Ltac pf_step :=
  match goal with
  | |- context [Instamart._pf ?c ≫= _] =>
      let Hp := fresh "Hp" in
      destruct (pf_total c) as [? Hp]; rewrite Hp, bind_ok; clear Hp
  end.

(** A numeric-first-cell row of fewer than 16 cells gives no item. *)
Lemma instamart_short_row (row : list cell) :
  is_item_row row = true -> (length row < 16)%nat ->
  (Instamart.item_of_row row = Raise IndexError /\
     is_ok (int (serial_text (cell_at row 0))) = true /\
     ((length row <= 2)%nat \/ is_ok (int_or_zero (cell_at row 2)) = true)) \/
  (Instamart.item_of_row row = Raise ValueError /\
     (is_ok (int (serial_text (cell_at row 0))) = false \/
      (2 < length row)%nat /\ is_ok (int_or_zero (cell_at row 2)) = false)).
Proof.
  intros Hitem Hlen. unfold Instamart.item_of_row, cell_at.
  index_step row 0%nat;
    [|exfalso; destruct row; [discriminate Hitem | simpl in *; lia]].
  rewrite Hl. simpl default.
  destruct (int_ok_or_value_error (serial_text x)) as [[z Hz] | Hz]; rewrite Hz;
    [rewrite bind_ok | right; split; [done | by left]].
  index_step row 1%nat; [|left; split; [done | split; [done | left; lia]]].
  index_step row 2%nat; [|left; split; [done | split; [done | left; lia]]].
  rewrite Hl1. simpl default.
  destruct (int_or_zero_ok_or_value_error x1) as [[q Hq] | Hq]; rewrite Hq;
    [rewrite bind_ok | right; split; [done | right; split; [lia | done]]].
  left. split; [|split; [done | by right]].
  index_step row 3%nat; [|done].
  index_step row 4%nat; [|done].
  index_step row 5%nat; [pf_step|done].
  index_step row 6%nat; [pf_step|done].
  index_step row 7%nat; [pf_step|done].
  index_step row 8%nat; [pf_step|done].
  index_step row 9%nat; [pf_step|done].
  index_step row 10%nat; [pf_step|done].
  index_step row 11%nat; [pf_step|done].
  index_step row 12%nat; [pf_step|done].
  index_step row 13%nat; [pf_step|done].
  index_step row 14%nat; [pf_step|done].
  index_step row 15%nat; [lia|done].
Qed.

(** On a numeric-first-cell row the loop of page 1 takes the item branch. *)
Lemma instamart_page1_step_item (acc : list Instamart.InstamartItem * pyfloat)
  (row : list cell) :
  is_item_row row = true ->
  Instamart.page1_step acc row =
    it ← Instamart.item_of_row row; Ok (acc.1 ++ [it], acc.2).
Proof.
  intros Hitem. destruct acc as [items v].
  destruct row as [|c0 row]; [done|].
  unfold is_item_row in Hitem. simpl in Hitem.
  unfold Instamart.page1_step.
  change (index (c0 :: row) 0) with (Ok c0). rewrite bind_ok.
  change (py "Invoice Value") with (73 :: py "nvoice Value").
  change (py "Amount in words") with (65 :: py "mount in words").
  rewrite (serial_cell_no_marker c0 73 _ Hitem) by done.
  rewrite (serial_cell_no_marker c0 65 _ Hitem) by done.
  rewrite !andb_false_r. by rewrite Hitem.
Qed.

(** An item comes only from a row of 16 cells or more. *)
Lemma instamart_item_needs_16_cells (row : list cell)
  (it : Instamart.InstamartItem) :
  Instamart.item_of_row row = Ok it -> (16 <= length row)%nat.
Proof.
  unfold Instamart.item_of_row. intros H. bind_inv H.
  match goal with
  | Hi : index row 15 = Ok _ |- _ =>
      apply index_inv, lookup_lt_Some in Hi; lia
  end.
Qed.

(** C9, as stated, fails on the kind of error: [row_with_bad_quantity] has
    a numeric first cell and three cells, and its quantity cell is no
    integer; the item raises [ValueError] from [int], before any cell out of
    range is read, and so does the extractor on a document with that row. *)
Lemma short_row_with_bad_quantity_raises_value_error :
  is_item_row row_with_bad_quantity = true /\
  length row_with_bad_quantity = 3%nat /\
  Instamart.item_of_row row_with_bad_quantity = Raise ValueError /\
  Instamart.parse_instamart_detail detail_with_bad_quantity = Raise ValueError.
Proof. repeat split; vm_compute; reflexivity. Qed.

(** C9, amended: page-1 items are read at the fixed cell positions 0 to 15,
    so an item comes only from a row of at least 16 cells.  On a row whose
    first cell passes the serial test and which has fewer than 16 cells, the
    item, the loop over the rows and hence the extractor raise instead of
    defaulting the missing fields: an out-of-range error ([IndexError]),
    unless the serial or a quantity cell that is present is no integer, in
    which case [int] raises [ValueError] first. *)
Theorem short_item_row_raises (row : list cell) :
  is_item_row row = true -> (length row < 16)%nat ->
  (forall r it, Instamart.item_of_row r = Ok it -> (16 <= length r)%nat) /\
  exists e,
    Instamart.item_of_row row = Raise e /\
    (forall acc, Instamart.page1_step acc row = Raise e) /\
    (forall before after acc,
       Instamart.page1_rows before = Ok acc ->
       Instamart.page1_rows (before ++ row :: after) = Raise e) /\
    (e = IndexError /\
       is_ok (int (serial_text (cell_at row 0))) = true /\
       ((length row <= 2)%nat \/ is_ok (int_or_zero (cell_at row 2)) = true)
     \/
     e = ValueError /\
       (is_ok (int (serial_text (cell_at row 0))) = false \/
        (2 < length row)%nat /\ is_ok (int_or_zero (cell_at row 2)) = false)).
Proof.
  intros Hitem Hlen. split; [exact instamart_item_needs_16_cells|].
  assert (Hstep : forall e, Instamart.item_of_row row = Raise e ->
                    forall acc, Instamart.page1_step acc row = Raise e).
  { intros e He acc. by rewrite instamart_page1_step_item, He. }
  assert (Hrows : forall e, Instamart.item_of_row row = Raise e ->
            forall before after acc,
              Instamart.page1_rows before = Ok acc ->
              Instamart.page1_rows (before ++ row :: after) = Raise e).
  { intros e He before after acc Hacc. unfold Instamart.page1_rows in *.
    rewrite for_each_app, Hacc, bind_ok. simpl.
    by rewrite (Hstep e He acc). }
  destruct (instamart_short_row row Hitem Hlen) as [(He & H1 & H2) | (He & H)].
  - exists IndexError. repeat split; eauto.
  - exists ValueError. repeat split; eauto.
Qed.

Lemma short_item_row_raises_witness :
  Instamart.item_of_row row_of_three_cells = Raise IndexError /\
  Instamart.page1_rows [[Some (py "Sr"); None]; row_of_three_cells] = Raise IndexError.
Proof.
  destruct (short_item_row_raises row_of_three_cells
              ltac:(vm_compute; reflexivity) ltac:(simpl; lia))
    as (_ & e & He & _ & Hrows & [(-> & _) | (-> & [H | [_ H]])]).
  - split; [exact He|].
    apply (Hrows [[Some (py "Sr"); None]] [] ([], zero)).
    vm_compute; reflexivity.
  - vm_compute in H. discriminate H.
  - vm_compute in H. discriminate H.
Defined.

(** ** The handling fee *)









(** ** What reaches the caller *)

(** C2, as stated, fails for each of the three extractors: a food table
    whose first row after the column header has a single cell, an instamart
    document whose first page has no table, and a summary whose declared
    order count is no integer each make the extractor raise. *)
Lemma exceptions_escape_the_extractors :
  Food.parse_food_detail food_detail_with_short_row = Raise IndexError /\
  Instamart.parse_instamart_detail instamart_detail_without_table
    = Raise IndexError /\
  Summary.parse_summary summary_with_bad_count = Raise ValueError.
Proof. repeat split; vm_compute; reflexivity. Qed.

(** C2, amended: [parse_food_detail] returns the null result exactly when
    the document cannot be opened, its first page has no table, or its first
    table has fewer than 8 rows; [parse_instamart_detail] returns it exactly
    when the document cannot be opened.  No extractor has a handler for what
    is raised once the document is open: an exception of the extraction
    proper (of the header of a summary, of the rows of a detail table) is
    the outcome of the call and reaches the caller. *)
Theorem null_result_only_for_open_and_shape :
  (forall f,
     (exists msgs, Food.parse_food_detail f = Ok (msgs, None)) <->
     pdfplumber_open f = None \/
     exists pages tables,
       pdfplumber_open f = Some pages /\ pages !! 0%nat = Some tables /\
       (tables = [] \/ exists t rest, tables = t :: rest /\ (length t < 8)%nat)) /\
  (forall f,
     (exists msgs, Instamart.parse_instamart_detail f = Ok (msgs, None)) <->
     pdfplumber_open f = None) /\
  (forall f pages t rest e,
     pdfplumber_open f = Some pages -> pages !! 0%nat = Some (t :: rest) ->
     (8 <= length t)%nat -> Food.extract t = Raise e ->
     Food.parse_food_detail f = Raise e) /\
  (forall f pages e,
     pdfplumber_open f = Some pages -> Instamart.extract pages = Raise e ->
     Instamart.parse_instamart_detail f = Raise e) /\
  (forall f t doc first e,
     Summary._detect_order_type (Summary.file_name f) = Ok t ->
     Summary.fitz_open f = Some doc -> doc !! 0%nat = Some first ->
     Summary._extract_header (split_on NEWLINE (Summary.get_text first)) = Raise e ->
     Summary.parse_summary f = Raise e) /\
  (forall f t doc first header e,
     Summary._detect_order_type (Summary.file_name f) = Ok t ->
     Summary.fitz_open f = Some doc -> doc !! 0%nat = Some first ->
     Summary._extract_header (split_on NEWLINE (Summary.get_text first)) = Ok header ->
     Summary._extract_order_rows doc = Raise e ->
     Summary.parse_summary f = Raise e).
Proof.
  repeat apply conj.
  - intros f. unfold Food.parse_food_detail.
    destruct (pdfplumber_open f) as [pages|]; [|split; eauto].
    unfold index. destruct (pages !! 0%nat) as [tables|] eqn:Hp0; simpl.
    + destruct tables as [|t rest].
      * split; [intros _; right; eauto 10 | eauto].
      * case_bool_decide as Hlen.
        -- split; [intros _; right; eauto 10 | eauto].
        -- split.
           ++ intros [msgs H]. by destruct (Food.extract t).
           ++ intros [? | (pages' & tables' & Ho & Hp & Hshape)]; [done|].
              injection Ho as <-. rewrite Hp0 in Hp. injection Hp as <-.
              destruct Hshape as [? | (t' & rest' & [= <- <-] & ?)]; [done | lia].
    + split; [intros [msgs ?]; done|].
      intros [? | (pages' & tables' & Ho & Hp & _)]; [done|].
      injection Ho as <-. by rewrite Hp0 in Hp.
  - intros f. unfold Instamart.parse_instamart_detail.
    destruct (pdfplumber_open f) as [pages|]; [|split; eauto].
    split; [|done]. intros [msgs H]. by destruct (Instamart.extract pages).
  - intros f pages t rest e Hopen Hp0 Hlen He.
    unfold Food.parse_food_detail. rewrite Hopen, (index_lookup _ _ _ Hp0), bind_ok.
    rewrite bool_decide_eq_false_2 by lia. by rewrite He.
  - intros f pages e Hopen He.
    unfold Instamart.parse_instamart_detail. by rewrite Hopen, He.
  - intros f t doc first e Ht Hopen Hfirst He.
    unfold Summary.parse_summary.
    by rewrite Ht, bind_ok, Hopen, (index_lookup _ _ _ Hfirst), bind_ok, He.
  - intros f t doc first header e Ht Hopen Hfirst Hh He.
    unfold Summary.parse_summary.
    by rewrite Ht, bind_ok, Hopen, (index_lookup _ _ _ Hfirst), bind_ok, Hh,
         bind_ok, He.
Qed.

(** * The rest of the pipeline *)

Import Re.

(** ** The matcher on runs of one class *)

Lemma advance_rest (n : nat) (st : mstate) :
  (n <= length (rest st))%nat ->
  rest (advance n st) = drop n (rest st) /\
  pos (advance n st) = (pos st + n)%nat /\
  groups (advance n st) = groups st.
Proof.
  revert st. induction n as [|n IH]; intros st Hn; simpl.
  - by rewrite Nat.add_0_r.
  - destruct (rest st) as [|c tl] eqn:E; simpl in Hn; [lia|].
    destruct (IH (MState (S (pos st)) tl (Some c) (groups st))) as (H1 & H2 & H3);
      [simpl; lia|].
    simpl in *. rewrite H1, H2, H3. repeat split; lia.
Qed.

Lemma advance_add (n k : nat) (st : mstate) :
  (n <= length (rest st))%nat ->
  advance k (advance n st) = advance (n + k) st.
Proof.
  revert st. induction n as [|n IH]; intros st Hn; [done|].
  simpl. destruct (rest st) as [|c tl] eqn:E; simpl in Hn; [lia|].
  apply IH. simpl. lia.
Qed.

(** [p{n}]: the next [n] characters are of the class. *)
Lemma run_rep_cls (p : N -> bool) (n : nat) (st : mstate)
  (k : mstate -> option mstate) :
  run (rep n (Cls p)) st k =
  if bool_decide (n <= length (rest st))%nat && forallb p (take n (rest st))
  then k (advance n st) else None.
Proof.
  revert st. induction n as [|n IH]; intros st; [done|].
  change (run (rep (S n) (Cls p)) st k) with
    (match rest st with
     | c :: tl =>
         if p c then run (rep n (Cls p)) (MState (S (pos st)) tl (Some c) (groups st)) k
         else None
     | [] => None
     end).
  change (advance (S n) st) with
    (match rest st with
     | c :: tl => advance n (MState (S (pos st)) tl (Some c) (groups st))
     | [] => st
     end).
  destruct (rest st) as [|c tl] eqn:E.
  - by rewrite bool_decide_eq_false_2 by (simpl; lia).
  - rewrite IH. change (take (S n) (c :: tl)) with (c :: take n tl).
    change (forallb p (c :: take n tl)) with (p c && forallb p (take n tl)).
    change (rest (MState (S (pos st)) tl (Some c) (groups st))) with tl.
    destruct (p c); [|by rewrite andb_false_r].
    destruct (decide (n <= length tl)%nat).
    + by rewrite !bool_decide_eq_true_2 by (simpl; lia).
    + by rewrite !bool_decide_eq_false_2 by (simpl; lia).
Qed.

(** A literal: the next characters are those of the word. *)
Lemma run_chars (w : pystr) (st : mstate) (k : mstate -> option mstate) :
  run (seqs (map (fun c => Cls (N.eqb c)) w)) st k =
  if startswith w (rest st) then k (advance (length w) st) else None.
Proof.
  revert st. induction w as [|x w IH]; intros st; [done|].
  simpl. destruct (rest st) as [|c tl] eqn:E; [done|].
  simpl. destruct (x =? c) eqn:Hx; [|done]. simpl.
  rewrite IH. reflexivity.
Qed.

(** [p*], greedy or lazy: some run of characters of the class is consumed
    before the rest of the pattern matches. *)
Lemma run_star_cls (p : N -> bool) (st : mstate)
  (k : mstate -> option mstate) (m : mstate) :
  run (Star (Cls p)) st k = Some m ->
  exists n, (n <= length (rest st))%nat /\
            forallb p (take n (rest st)) = true /\ k (advance n st) = Some m.
Proof.
  simpl. generalize (length (rest st)) at 1. intros fuel. revert st.
  induction fuel as [|fuel IH]; intros st H.
  - exists 0%nat. rewrite take_0. split; [lia | done].
  - destruct (rest st) as [|c tl] eqn:E.
    + exists 0%nat. by rewrite take_0.
    + destruct (p c) eqn:Hc.
      * simpl in H. rewrite Nat.ltb_irrefl in H || idtac.
        match type of H with
        | match ?x with _ => _ end = _ => destruct x as [m'|] eqn:Hx
        end.
        -- rewrite (proj2 (Nat.ltb_lt _ _)) in Hx by lia.
           injection H as ->.
           destruct (IH _ Hx) as (n & Hn & Hp & Hk). simpl in *.
           exists (S n). simpl. rewrite E. simpl. rewrite Hc, Hp.
           split; [lia | done].
        -- exists 0%nat. rewrite take_0. split; [lia | done].
      * exists 0%nat. rewrite take_0. split; [lia | done].
Qed.

Lemma startswith_app (w l : pystr) :
  startswith w l = true -> l = w ++ drop (length w) l.
Proof.
  revert l. induction w as [|x w IH]; intros l H; [done|].
  destruct l as [|c l]; [done|]. simpl in H.
  apply andb_prop in H as [Hx H]. apply N.eqb_eq in Hx as ->.
  simpl. f_equal. by apply IH.
Qed.

Lemma consumed_advance (n : nat) (st : mstate) :
  (n <= length (rest st))%nat ->
  consumed st (take n (rest st)) (advance n st).
Proof.
  intros Hn. destruct (advance_rest n st Hn) as (H1 & H2 & H3).
  repeat split; [| |done].
  - by rewrite H1, take_drop.
  - rewrite H2, length_take. lia.
Qed.

Lemma run_cls_inv (p : N -> bool) (st : mstate)
  (k : mstate -> option mstate) (m : mstate) :
  run (Cls p) st k = Some m ->
  exists c st', consumed st [c] st' /\ p c = true /\ k st' = Some m.
Proof.
  simpl. destruct (rest st) as [|c tl] eqn:E; [done|].
  destruct (p c) eqn:Hc; [|done]. intros H.
  exists c, (MState (S (pos st)) tl (Some c) (groups st)).
  repeat split; try done. simpl. lia.
Qed.

Lemma run_star_cls_inv (p : N -> bool) (st : mstate)
  (k : mstate -> option mstate) (m : mstate) :
  run (Star (Cls p)) st k = Some m ->
  exists pre st', consumed st pre st' /\ forallb p pre = true /\ k st' = Some m.
Proof.
  intros H. apply run_star_cls in H as (n & Hn & Hp & Hk).
  exists (take n (rest st)), (advance n st).
  split; [by apply consumed_advance | done].
Qed.

Lemma consumed_trans (st1 st2 st3 : mstate) (a b : pystr) :
  consumed st1 a st2 -> consumed st2 b st3 -> consumed st1 (a ++ b) st3.
Proof.
  intros (H1 & H2 & H3) (H4 & H5 & H6). repeat split.
  - by rewrite H1, H4, app_assoc.
  - rewrite H5, H2, length_app. lia.
  - by rewrite H6.
Qed.

Lemma run_plus_cls_inv (p : N -> bool) (st : mstate)
  (k : mstate -> option mstate) (m : mstate) :
  run (plus (Cls p)) st k = Some m ->
  exists pre st', consumed st pre st' /\ pre <> [] /\
                  forallb p pre = true /\ k st' = Some m.
Proof.
  unfold plus. intros H.
  change (run (Seq (Cls p) (Star (Cls p))) st k)
    with (run (Cls p) st (fun st' => run (Star (Cls p)) st' k)) in H.
  apply run_cls_inv in H as (c & st1 & Hc1 & Hpc & H).
  apply run_star_cls_inv in H as (pre & st2 & Hc2 & Hp & Hk).
  exists (c :: pre), st2. split; [apply (consumed_trans _ _ _ [c] pre Hc1 Hc2)|].
  split; [done|]. split; [|done]. simpl. by rewrite Hpc, Hp.
Qed.

Lemma run_lit_inv (w : string) (st : mstate)
  (k : mstate -> option mstate) (m : mstate) :
  run (lit w) st k = Some m ->
  exists st', consumed st (py w) st' /\ k st' = Some m.
Proof.
  unfold lit. rewrite run_chars.
  destruct (startswith (py w) (rest st)) eqn:Hw; [|done]. intros H.
  exists (advance (length (py w)) st). split; [|done].
  apply startswith_app in Hw.
  assert (Hlen : (length (py w) <= length (rest st))%nat).
  { rewrite Hw, length_app. lia. }
  pose proof (consumed_advance _ st Hlen) as Hc.
  rewrite Hw in Hc at 1. by rewrite take_app_length in Hc.
Qed.

Lemma search_from_inv (r : regex) (p : nat) (pv : option N) (s : pystr)
  (m : mstate) :
  search_from r p pv s = Some m -> exists st, run r st Some = Some m.
Proof.
  revert p pv. induction s as [|c s IH]; intros p pv; simpl.
  - destruct (run r (MState p [] pv []) Some) eqn:E; [|done].
    intros [= <-]. eauto.
  - destruct (run r (MState p (c :: s) pv []) Some) eqn:E.
    + intros [= <-]. eauto.
    + apply IH.
Qed.

Lemma run_seq (a b : regex) (st : mstate) (k : mstate -> option mstate) :
  run (Seq a b) st k = run a st (fun st' => run b st' k).
Proof. reflexivity. Qed.

Lemma run_grp (n : nat) (a : regex) (st : mstate) (k : mstate -> option mstate) :
  run (Grp n a) st k = run a st (fun st' => k (capture n st st')).
Proof. reflexivity. Qed.

(** The group captured between two states of a match. *)
Lemma capture_consumed (n : nat) (st st' : mstate) (pre : pystr) :
  consumed st pre st' -> Re.group (capture n st st') n = pre.
Proof.
  intros (H1 & H2 & _). unfold Re.group, capture. simpl.
  rewrite Nat.eqb_refl. simpl. rewrite H1, H2.
  replace (pos st + length pre - pos st)%nat with (length pre) by lia.
  by rewrite take_app_length.
Qed.

(** [label\s*(\d+)]: what is found is a run of decimal digits, not empty. *)
Lemma digits_after_group (label : string) (t : pystr) (m : mstate) :
  search (digits_after label) t = Some m ->
  Re.group m 1 <> [] /\ forallb isdecimal (Re.group m 1) = true.
Proof.
  unfold search. intros H. apply search_from_inv in H as [st H].
  unfold digits_after, seqs in H. simpl foldr in H.
  rewrite run_seq in H. apply run_lit_inv in H as (st1 & _ & H).
  rewrite run_seq in H. apply run_star_cls_inv in H as (ws & st2 & _ & _ & H).
  rewrite run_seq, run_grp in H.
  apply run_plus_cls_inv in H as (ds & st3 & Hc & Hne & Hd & H).
  simpl in H. injection H as <-.
  by rewrite (capture_consumed 1 st2 st3 ds Hc).
Qed.

Lemma isdecimal_elem (c : N) : isdecimal c = true -> c ∈ all_decimals.
Proof.
  unfold isdecimal, zero_of.
  destruct (List.find _ decimal_zeros) as [z|] eqn:H; [intros _ | done].
  apply find_some in H as [Hin Hb].
  unfold between in Hb. apply andb_prop in Hb as [Hlo Hhi].
  apply N.leb_le in Hlo, Hhi.
  apply list_elem_of_In, in_flat_map. exists z. split; [done|].
  apply in_map_iff. exists (c - z). split; [lia|].
  simpl. lia.
Qed.

Lemma decimals_are_plain : forallb plain_digit all_decimals = true.
Proof. vm_compute. reflexivity. Qed.

Lemma isdecimal_plain (c : N) :
  isdecimal c = true ->
  isspace c = false /\ c <> UNDERSCORE /\ c <> 43 /\ c <> 45 /\
  digit_value c <= 9.
Proof.
  intros H. apply isdecimal_elem, list_elem_of_In in H.
  pose proof (proj1 (forallb_forall _ _) decimals_are_plain c H) as Hp.
  unfold plain_digit in Hp.
  repeat (apply andb_prop in Hp as [Hp ?]).
  repeat match goal with
         | H : negb _ = true |- _ => apply negb_true_iff in H
         | H : (_ =? _) = false |- _ => apply N.eqb_neq in H
         | H : (_ <=? _) = true |- _ => apply N.leb_le in H
         end.
  done.
Qed.

Lemma isdecimal_not_space (c : N) : isdecimal c = true -> isspace c = false.
Proof. intros H. by apply isdecimal_plain in H as (? & _). Qed.

Lemma lstrip_by_head (p : N -> bool) (c : N) (s : pystr) :
  p c = false -> lstrip_by p (c :: s) = c :: s.
Proof. intros H. simpl. by rewrite H. Qed.

(** A string that neither starts nor ends with a blank is its own strip. *)
Lemma strip_no_blank_ends (s : pystr) :
  (forall c, head s = Some c -> isspace c = false) ->
  (forall c, last s = Some c -> isspace c = false) ->
  strip s = s.
Proof.
  intros Hh Hl. unfold strip, rstrip_by.
  destruct s as [|c s]; [done|].
  rewrite lstrip_by_head by (by apply Hh).
  destruct (rev (c :: s)) as [|x r] eqn:E.
  - apply (f_equal (@length N)) in E. rewrite length_rev in E. done.
  - rewrite lstrip_by_head; [by rewrite <- E, rev_involutive|].
    apply Hl. rewrite <- (rev_involutive (c :: s)), E. simpl.
    by rewrite last_snoc.
Qed.

Lemma lstrip_by_head_kept (p : N -> bool) (s : pystr) (c : N) :
  head (lstrip_by p s) = Some c -> p c = false.
Proof.
  induction s as [|x s IH]; [done|]. simpl.
  destruct (p x) eqn:Hx; [done|]. simpl. by intros [= <-].
Qed.

(** What [strip] returns does not end with a blank. *)
Lemma strip_last_not_space (s : pystr) (c : N) :
  last (strip s) = Some c -> isspace c = false.
Proof.
  unfold strip, rstrip_by. intros H.
  apply (lstrip_by_head_kept isspace (rev (lstrip_by isspace s))).
  destruct (lstrip_by isspace (rev (lstrip_by isspace s))) as [|x r]; [done|].
  simpl in H. rewrite last_snoc in H. done.
Qed.

Lemma strip_decimal (s : pystr) :
  forallb isdecimal s = true -> strip s = s.
Proof.
  intros H. rewrite forallb_forall in H.
  apply strip_no_blank_ends; intros c Hc; apply isdecimal_not_space, H.
  - destruct s; [done|]. injection Hc as ->. by left.
  - apply list_elem_of_In. apply last_Some in Hc as [l' ->].
    apply elem_of_app. right. apply list_elem_of_here.
Qed.

Lemma matches_fixed_digits (n : nat) (s : pystr) :
  Summary.matches (seqs [Bol false; rep n d_; Eol false]) s =
  bool_decide (n <= length s)%nat && forallb isdecimal (take n s)
  && match drop n s with
     | [] => true
     | [c] => c =? NEWLINE
     | _ => false
     end.
Proof.
  unfold Summary.matches, match_, seqs. simpl foldr.
  rewrite run_seq. change (run (Bol false) ?st ?k) with (k st).
  cbv beta. rewrite run_seq. unfold d_. rewrite run_rep_cls.
  change (rest (MState 0 s None [])) with s.
  destruct (bool_decide (n <= length s)%nat) eqn:Hn; [|done].
  apply bool_decide_eq_true_1 in Hn.
  destruct (forallb isdecimal (take n s)); [|done]. simpl andb.
  rewrite run_seq.
  change (run (Eol false) ?st ?k) with (if at_eol false st then k st else None).
  unfold at_eol.
  destruct (advance_rest n (MState 0 s None []) Hn) as (-> & _ & _).
  change (rest (MState 0 s None [])) with s.
  destruct (drop n s) as [|c [|c' tl]]; simpl; try done.
  - by destruct (c =? NEWLINE).
  - by rewrite andb_false_r.
Qed.

(** The strings that [^\d{15}$] matches from their start. *)
Lemma order_id_re_matches (s : pystr) :
  Summary.matches Validator.ORDER_ID_RE s = true <->
  exists ds, length ds = 15%nat /\ forallb isdecimal ds = true /\
             (s = ds \/ s = ds ++ [NEWLINE]).
Proof.
  unfold Validator.ORDER_ID_RE. rewrite matches_fixed_digits. split.
  - intros H. apply andb_prop in H as [H Htail]. apply andb_prop in H as [Hn Hd].
    apply bool_decide_eq_true_1 in Hn.
    exists (take 15 s). split; [rewrite length_take; lia|]. split; [done|].
    rewrite <- (take_drop 15 s) at 1 3.
    destruct (drop 15 s) as [|c [|c' tl]]; [left | right | done].
    + by rewrite app_nil_r.
    + by apply N.eqb_eq in Htail as ->.
  - intros (ds & Hlen & Hd & [-> | ->]).
    + rewrite bool_decide_eq_true_2 by lia.
      rewrite <- Hlen at 1 2. by rewrite firstn_all, drop_all, Hd.
    + rewrite bool_decide_eq_true_2 by (rewrite length_app; lia).
      rewrite <- Hlen at 1 2. rewrite take_app_length, drop_app_length, Hd.
      done.
Qed.

Lemma digits_of_decimals (ds : pystr) (acc : N) (n : nat) :
  forallb isdecimal ds = true ->
  exists v, digits ds acc n = (v, (n + length ds)%nat, []) /\
            acc * 10 ^ N.of_nat (length ds) <= v
            < (acc + 1) * 10 ^ N.of_nat (length ds).
Proof.
  revert acc n. induction ds as [|c ds IH]; intros acc n H.
  - exists acc. simpl. rewrite Nat.add_0_r. split; [done | lia].
  - simpl in H. apply andb_prop in H as [Hc H].
    destruct (IH (acc * 10 + digit_value c) (S n) H) as (v & Hv & Hlo & Hhi).
    exists v. simpl digits. rewrite Hc, Hv. split.
    + f_equal. f_equal. simpl. lia.
    + apply isdecimal_plain in Hc as (_ & _ & _ & _ & Hc).
      change (length (c :: ds)) with (S (length ds)).
      rewrite Nat2N.inj_succ, N.pow_succ_r'.
      set (P := 10 ^ N.of_nat (length ds)) in *.
      set (dv := digit_value c) in *. nia.
Qed.

Lemma underscores_ok_decimals (ds : pystr) (prev : N) :
  prev <> UNDERSCORE -> forallb isdecimal ds = true ->
  underscores_ok prev ds = true.
Proof.
  revert prev. induction ds as [|c ds IH]; intros prev Hp H; simpl.
  - by apply negb_true_iff, N.eqb_neq.
  - simpl in H. apply andb_prop in H as [Hc H].
    assert (Hne : c <> UNDERSCORE).
    { by apply isdecimal_plain in Hc as (_ & ? & _). }
    rewrite (proj2 (N.eqb_neq c UNDERSCORE) Hne), Hc, orb_true_r. simpl.
    by apply IH.
Qed.

Lemma replace_absent (old : N) (new s : pystr) :
  old ∉ s -> replace old new s = s.
Proof.
  induction s as [|c s IH]; intros H; [done|].
  apply not_elem_of_cons in H as [Hne H]. unfold replace in *. simpl.
  rewrite (proj2 (N.eqb_neq c old)) by done. simpl. by rewrite IH.
Qed.

Lemma decimals_no_underscore (ds : pystr) :
  forallb isdecimal ds = true -> UNDERSCORE ∉ ds.
Proof.
  rewrite forallb_forall. intros H Hin.
  apply list_elem_of_In, H, isdecimal_plain in Hin as (_ & ? & _). done.
Qed.

Lemma sign_decimal (c : N) (s : pystr) :
  isdecimal c = true -> sign (c :: s) = (false, c :: s).
Proof.
  intros H. apply isdecimal_plain in H as (_ & _ & Hp & Hm & _).
  unfold sign. destruct c as [|p]; [reflexivity|].
  do 6 (destruct p as [p|p|]; try reflexivity); done.
Qed.

Lemma strip_decimals_newline (ds : pystr) :
  ds <> [] -> forallb isdecimal ds = true -> strip (ds ++ [NEWLINE]) = ds.
Proof.
  intros Hne H. unfold strip, rstrip_by.
  destruct ds as [|c ds]; [done|]. simpl in H. apply andb_prop in H as [Hc H].
  rewrite <- app_comm_cons, lstrip_by_head by (by apply isdecimal_not_space).
  rewrite app_comm_cons, rev_app_distr. simpl rev at 1.
  change (lstrip_by isspace ([NEWLINE] ++ rev (c :: ds)))
    with (lstrip_by isspace (rev (c :: ds))).
  pose proof (strip_decimal (c :: ds)) as Hs. unfold strip, rstrip_by in Hs.
  rewrite lstrip_by_head in Hs by (by apply isdecimal_not_space).
  apply Hs. simpl. by rewrite Hc, H.
Qed.

(** [int] reads a run of decimal digits, followed by a newline or not. *)
Lemma int_of_decimals (ds s : pystr) :
  ds <> [] -> (length ds <= 4300)%nat -> forallb isdecimal ds = true ->
  s = ds \/ s = ds ++ [NEWLINE] ->
  exists v, int s = Ok (Z.of_N v) /\ v < 10 ^ N.of_nat (length ds).
Proof.
  intros Hne Hmax Hd Hs.
  assert (Hstrip : strip s = ds).
  { destruct Hs as [-> | ->]; [by apply strip_decimal | by apply strip_decimals_newline]. }
  unfold int. rewrite Hstrip.
  rewrite underscores_ok_decimals by done. simpl negb. cbv iota.
  rewrite replace_absent by (by apply decimals_no_underscore).
  destruct ds as [|c ds]; [done|].
  rewrite sign_decimal by (simpl in Hd; by apply andb_prop in Hd as [? _]).
  destruct (digits_of_decimals (c :: ds) 0 0 Hd) as (v & Hv & _ & Hhi).
  rewrite Hv. exists v.
  change (0 + length (c :: ds))%nat with (S (length ds)). cbv beta iota.
  rewrite (proj2 (N.ltb_ge 4300 (N.of_nat (S (length ds)))))
    by (simpl in Hmax; lia).
  split; [done|].
  change (0 + 1) with 1 in Hhi. by rewrite N.mul_1_l in Hhi.
Qed.

(** ** The rows of a summary *)

Section Scan.
Import Summary.

Lemma collect_names (d o : pystr) (names rest : list pystr) :
  Forall (fun l => matches AMOUNT_PATTERN (strip l) = false) names ->
  forall parts,
    collect d o parts (names ++ rest) = collect d o (parts ++ map strip names) rest.
Proof.
  induction 1 as [|c names Hc _ IH]; intros parts.
  - simpl. by rewrite app_nil_r.
  - change ((c :: names) ++ rest) with (c :: (names ++ rest)).
    rewrite collect_cons by exact Hc. rewrite IH.
    change (map strip (c :: names)) with ([strip c] ++ map strip names).
    by rewrite app_assoc.
Qed.

Lemma collect_amount (d o : pystr) (parts : list pystr) (c : pystr)
  (tl : list pystr) :
  matches AMOUNT_PATTERN (strip c) = true ->
  collect d o parts (c :: tl) =
    amount ← _parse_amount (Some (strip c));
    rs ← scan (after_view tl);
    Ok (Build_row d o (join [SPACE] parts) amount :: rs).
Proof.
  intros H. change (collect d o parts (c :: tl)) with
    (if matches AMOUNT_PATTERN (strip c) then
       match _parse_amount (Some (strip c)) with
       | Raise e => Raise e
       | Ok amount =>
           match
             match tl with
             | v :: tl' => if str_eqb (strip v) (py "View") then scan tl' else scan tl
             | [] => scan tl
             end
           with
           | Ok rs => Ok (Build_row d o (join [SPACE] parts) amount :: rs)
           | Raise e => Raise e
           end
       end
     else collect d o (parts ++ [strip c]) tl).
  rewrite H. destruct (_parse_amount (Some (strip c))); [|done].
  rewrite bind_ok. unfold after_view.
  destruct tl as [|v tl']; [done|].
  by destruct (str_eqb (strip v) (py "View")).
Qed.

End Scan.

(** X1: from a date line followed by an order-id line, name lines (none of
    which is an amount) and an amount line, the scan appends one row: the
    stripped date and order id, the stripped name lines joined by single
    spaces, and the amount read by [_parse_amount]; it goes on after the
    amount line, past the next line when that one is ["View"].  An
    exception of [_parse_amount] or of the rest of the scan is the
    outcome. *)
Theorem scan_reads_a_full_row (d o : pystr) (names : list pystr) (c : pystr)
  (rest : list pystr) :
  Summary.matches Summary.DATE_PATTERN (strip d) = true ->
  Summary.matches Summary.ORDER_ID_PATTERN (strip o) = true ->
  Forall (fun l => Summary.matches Summary.AMOUNT_PATTERN (strip l) = false) names ->
  Summary.matches Summary.AMOUNT_PATTERN (strip c) = true ->
  Summary.scan (d :: o :: names ++ c :: rest) =
    amount ← Summary._parse_amount (Some (strip c));
    rs ← Summary.scan (after_view rest);
    Ok (Summary.Build_row (strip d) (strip o)
          (join [SPACE] (map strip names)) amount :: rs).
Proof.
  intros Hd Ho Hnames Hc.
  rewrite scan_cons, Hd, Ho, collect_names by exact Hnames.
  by rewrite collect_amount.
Qed.

Lemma scan_reads_a_full_row_witness :
  Summary.scan [py "09-08-2025"; arabic_indic_order_id; py "Test"; py "Kitchen";
                RUPEE :: py "1,774.50"; py "View"] =
    Ok [Summary.Build_row (py "09-08-2025") arabic_indic_order_id
          (py "Test Kitchen") (dec 1774 50 2)].
Proof.
  etransitivity.
  - apply (scan_reads_a_full_row (py "09-08-2025") arabic_indic_order_id
             [py "Test"; py "Kitchen"] (RUPEE :: py "1,774.50") [py "View"]).
    + vm_compute; reflexivity.
    + vm_compute; reflexivity.
    + repeat constructor.
    + vm_compute; reflexivity.
  - vm_compute; reflexivity.
Defined.

(** ** What every extracted row satisfies *)

Lemma scan_collect_rows (n : nat) :
  forall lines, (length lines <= n)%nat ->
    (forall rows, Summary.scan lines = Ok rows -> Forall well_formed_row rows) /\
    (forall d o parts rows,
       Summary.matches Summary.DATE_PATTERN d = true ->
       Summary.matches Summary.ORDER_ID_PATTERN o = true ->
       (exists line, o = strip line) ->
       Summary.collect d o parts lines = Ok rows -> Forall well_formed_row rows).
Proof.
  induction n as [|n IH]; intros lines Hlen.
  - destruct lines; [|simpl in Hlen; lia].
    split; [intros rows [= <-]; constructor|].
    intros d o parts rows _ _ _ [= <-]. constructor.
  - destruct lines as [|l tl]; [split; [intros rows [= <-]; constructor|
      intros d o parts rows _ _ _ [= <-]; constructor]|].
    simpl in Hlen.
    assert (Htl : (length tl <= n)%nat) by lia.
    split.
    + intros rows. rewrite scan_cons.
      destruct (Summary.matches Summary.DATE_PATTERN (strip l)) eqn:Hd;
        [|apply (IH tl Htl)].
      destruct tl as [|o tl']; [intros [= <-]; constructor|].
      simpl in Htl.
      destruct (Summary.matches Summary.ORDER_ID_PATTERN (strip o)) eqn:Ho.
      * apply (proj2 (IH tl' ltac:(lia))); [done | done | by eexists].
      * apply (proj1 (IH tl' ltac:(lia))).
    + intros d o parts rows Hd Ho Hline.
      destruct (Summary.matches Summary.AMOUNT_PATTERN (strip l)) eqn:Ha.
      * rewrite collect_amount by exact Ha. intros H.
        apply bind_inv in H as (amount & _ & H).
        apply bind_inv in H as (rs & Hrs & H). injection H as <-.
        constructor; [by repeat split|].
        assert (Hav : (length (after_view tl) <= n)%nat).
        { unfold after_view. destruct tl as [|v tl']; [simpl; lia|].
          destruct (str_eqb (strip v) (py "View")); simpl in *; lia. }
        by apply (proj1 (IH _ Hav)).
      * rewrite collect_cons by exact Ha. by apply (proj2 (IH tl Htl)).
Qed.

Lemma for_each_invariant {A B} (P : B -> Prop) (f : B -> A -> result B)
  (xs : list A) :
  (forall acc x acc', P acc -> x ∈ xs -> f acc x = Ok acc' -> P acc') ->
  forall acc r, P acc -> for_each f acc xs = Ok r -> P r.
Proof.
  induction xs as [|x xs IH]; intros Hstep acc r Hacc; simpl.
  - by intros [= <-].
  - destruct (f acc x) as [acc'|e] eqn:Hf; [|done].
    apply IH; [|by eapply Hstep; [| apply list_elem_of_here |]].
    intros a y a' Ha Hy. apply Hstep; [done | by apply list_elem_of_further].
Qed.

Lemma order_id_pattern_validates (o context : pystr) :
  Summary.matches Summary.ORDER_ID_PATTERN o = true ->
  Validator.validate_order_id o context = Validator.Valid tt.
Proof.
  intros H. unfold Validator.validate_order_id.
  destruct o as [|c o]; [by vm_compute in H|].
  change Validator.ORDER_ID_RE with Summary.ORDER_ID_PATTERN. by rewrite H.
Qed.

Lemma validate_order_id_valid_matches (o context : pystr) :
  Validator.validate_order_id o context = Validator.Valid tt ->
  Summary.matches Validator.ORDER_ID_RE o = true.
Proof.
  unfold Validator.validate_order_id. destruct o as [|c o]; [done|].
  by destruct (Summary.matches Validator.ORDER_ID_RE (c :: o)).
Qed.

(** X3: every row that [_extract_order_rows] returns has a date that
    matches [DATE_PATTERN] and an order id of exactly 15 decimal digits, of
    any script: [validate_order_id] accepts it in any context and [int]
    reads it as a number below 10^15. *)
Theorem extracted_rows_are_well_formed (doc : list Summary.page)
  (rows : list Summary.row) :
  Summary._extract_order_rows doc = Ok rows ->
  Forall (fun r =>
            Summary.matches Summary.DATE_PATTERN (Summary.row_date r) = true /\
            length (Summary.row_order_id r) = 15%nat /\
            forallb isdecimal (Summary.row_order_id r) = true /\
            (forall context,
               Validator.validate_order_id (Summary.row_order_id r) context
               = Validator.Valid tt) /\
            exists v, int (Summary.row_order_id r) = Ok (Z.of_N v) /\
                      v < 10 ^ 15) rows.
Proof.
  intros H.
  assert (Hwf : Forall well_formed_row rows).
  { unfold Summary._extract_order_rows in H.
    eapply (for_each_invariant (Forall well_formed_row)); [| |exact H].
    - intros acc p acc' Hacc _ Hstep.
      apply bind_inv in Hstep as (rs & Hrs & Hstep). injection Hstep as <-.
      apply Forall_app. split; [done|].
      unfold Summary.page_rows in Hrs.
      by apply (proj1 (scan_collect_rows _ _ (Nat.le_refl _))) in Hrs.
    - constructor. }
  eapply Forall_impl; [exact Hwf|]. intros r (Hd & Ho & line & Hline).
  split; [done|].
  pose proof Ho as Hm.
  change Summary.ORDER_ID_PATTERN with Validator.ORDER_ID_RE in Hm.
  apply order_id_re_matches in Hm as (ds & Hlen & Hds & Hs).
  assert (Hid : Summary.row_order_id r = ds).
  { destruct Hs as [Hs | Hs]; [done|]. exfalso.
    assert (Hsp : isspace NEWLINE = false).
    { apply (strip_last_not_space line). rewrite <- Hline, Hs.
      apply last_snoc. }
    done. }
  rewrite Hid.
  split; [done|]. split; [done|].
  split; [intros context; apply order_id_pattern_validates; by rewrite <- Hid|].
  destruct (int_of_decimals ds ds) as (v & Hv & Hlt);
    [by destruct ds | lia | done | by left |].
  exists v. by rewrite Hlen in Hlt.
Qed.

Lemma extracted_rows_are_well_formed_witness :
  exists rows,
    Summary._extract_order_rows two_row_pages = Ok rows /\
    length rows = 2%nat /\
    Forall (fun r => length (Summary.row_order_id r) = 15%nat) rows.
Proof.
  destruct (Summary._extract_order_rows two_row_pages) as [rows|e] eqn:H;
    [|vm_compute in H; discriminate H].
  exists rows. split; [reflexivity|]. split.
  - vm_compute in H. injection H as <-. reflexivity.
  - eapply Forall_impl; [exact (extracted_rows_are_well_formed _ _ H)|].
    intros r (_ & Hlen & _). exact Hlen.
Defined.

(** ** The summary header *)

Lemma str_eqb_true (a b : pystr) : str_eqb a b = true <-> a = b.
Proof. unfold str_eqb. apply bool_decide_eq_true. Qed.

Lemma header_step_idle (lines : list pystr) (h : gmap string pyval) (i : nat) :
  (i < length lines)%nat ->
  ~ label_at lines "Customer Name" 5 i -> ~ label_at lines "Email" 3 i ->
  Summary.header_step lines h i = Ok h.
Proof.
  intros Hi Hc He. unfold Summary.header_step.
  destruct (lookup_lt_is_Some_2 lines i Hi) as [l Hl].
  rewrite (index_lookup _ _ _ Hl), bind_ok.
  destruct (str_eqb (strip l) (py "Customer Name")
            && bool_decide (i + 5 < length lines)%nat) eqn:E1.
  { exfalso. apply Hc. apply andb_prop in E1 as [E1 E2].
    exists l. by rewrite str_eqb_true in E1; apply bool_decide_eq_true_1 in E2. }
  destruct (str_eqb (strip l) (py "Email")
            && bool_decide (i + 3 < length lines)%nat) eqn:E2; [|done].
  exfalso. apply He. apply andb_prop in E2 as [E2 E3].
  exists l. by rewrite str_eqb_true in E2; apply bool_decide_eq_true_1 in E3.
Qed.

Lemma for_each_idle {A B} (f : B -> A -> result B) (acc : B) (xs : list A) :
  (forall x, x ∈ xs -> f acc x = Ok acc) -> for_each f acc xs = Ok acc.
Proof.
  induction xs as [|x xs IH]; intros H; [done|]. simpl.
  rewrite H by apply list_elem_of_here.
  apply IH. intros y Hy. apply H. by apply list_elem_of_further.
Qed.

(** X4: when no line is a ["Customer Name"] label with more than five
    lines from it to the end, nor an ["Email"] label with more than three,
    [_extract_header] returns the empty dict: a label too close to the end
    is passed over, without an error. *)
Theorem header_without_labels_is_empty (lines : list pystr) :
  (forall i, ~ label_at lines "Customer Name" 5 i /\ ~ label_at lines "Email" 3 i) ->
  Summary._extract_header lines = Ok ∅.
Proof.
  intros H. unfold Summary._extract_header. apply for_each_idle.
  intros i Hi. apply elem_of_seq in Hi.
  apply header_step_idle; [lia | apply H | apply H].
Qed.

Lemma header_without_labels_is_empty_witness :
  Summary._extract_header header_lines_cut_short = Ok ∅.
Proof.
  apply header_without_labels_is_empty.
  intros i. split; intros (l & _ & _ & Hlen); simpl in Hlen; lia.
Defined.

Lemma header_step_sound (lines : list pystr) (h h' : gmap string pyval)
  (i : nat) :
  header_sound lines h -> Summary.header_step lines h i = Ok h' ->
  header_sound lines h'.
Proof.
  intros (H1 & H2 & H3 & H4 & H5) Hstep. unfold Summary.header_step in Hstep.
  apply bind_inv in Hstep as (line & Hline & Hstep). apply index_inv in Hline.
  destruct (str_eqb (strip line) (py "Customer Name")
            && bool_decide (i + 5 < length lines)%nat) eqn:E1.
  - apply andb_prop in E1 as [Ea Eb].
    apply str_eqb_true in Ea. apply bool_decide_eq_true_1 in Eb.
    assert (Hlab : label_at lines "Customer Name" 5 i) by (by exists line).
    apply bind_inv in Hstep as (l3 & Hl3 & Hstep). apply index_inv in Hl3.
    apply bind_inv in Hstep as (l4 & Hl4 & Hstep). apply index_inv in Hl4.
    apply bind_inv in Hstep as (n & Hn & Hstep).
    apply bind_inv in Hstep as (l5 & Hl5 & Hstep). apply index_inv in Hl5.
    apply bind_inv in Hstep as (a & Ha & Hstep). injection Hstep as <-.
    repeat split; intros v Hv; simplify_map_eq; eauto 10.
  - destruct (str_eqb (strip line) (py "Email")
              && bool_decide (i + 3 < length lines)%nat) eqn:E2.
    + apply andb_prop in E2 as [Ea Eb].
      apply str_eqb_true in Ea. apply bool_decide_eq_true_1 in Eb.
      assert (Hlab : label_at lines "Email" 3 i) by (by exists line).
      apply bind_inv in Hstep as (l2 & Hl2 & Hstep). apply index_inv in Hl2.
      apply bind_inv in Hstep as (l3 & Hl3 & Hstep). apply index_inv in Hl3.
      injection Hstep as <-.
      repeat split; intros v Hv; simplify_map_eq; eauto 10.
    + injection Hstep as <-. done.
Qed.

(** X5: every value of the dict that [_extract_header] returns comes from
    a label line: the name, the count and the total are the lines 3, 4 and 5
    after a ["Customer Name"] label (stripped, read by [int] and by
    [_parse_amount]), the email and the date range the lines 2 and 3 after
    an ["Email"] label; the count is an [int] and the total a [float]. *)
Theorem header_values_come_from_labels (lines : list pystr)
  (h : gmap string pyval) :
  Summary._extract_header lines = Ok h -> header_sound lines h.
Proof.
  unfold Summary._extract_header.
  apply (for_each_invariant (header_sound lines)).
  - intros acc i acc' Hacc _ Hstep. by eapply header_step_sound.
  - repeat split; intros v Hv; by rewrite lookup_empty in Hv.
Qed.

Lemma header_values_come_from_labels_witness :
  exists h,
    Summary._extract_header header_lines = Ok h /\
    header_sound header_lines h /\
    h !! "number_of_orders" = Some (VInt 36).
Proof.
  destruct (Summary._extract_header header_lines) as [h|e] eqn:H;
    [|vm_compute in H; discriminate H].
  exists h. split; [reflexivity|].
  split; [exact (header_values_come_from_labels _ _ H)|].
  vm_compute in H. injection H as <-. vm_compute; reflexivity.
Defined.

(** ** The email pattern *)

Lemma run_star (a : regex) (st : mstate) (k : mstate -> option mstate) :
  run (Star a) st k = star_loop (run a) k (length (rest st)) st.
Proof. reflexivity. Qed.

Lemma run_cls_at (p : N -> bool) (st : mstate) (k : mstate -> option mstate)
  (c : N) (tl : pystr) :
  rest st = c :: tl -> p c = true -> run (Cls p) st k = k (advance 1 st).
Proof. intros E Hc. simpl. by rewrite E, Hc. Qed.

Lemma star_loop_cls_some (p : N -> bool) (k : mstate -> option mstate)
  (fuel n : nat) (st : mstate) :
  (n <= fuel)%nat -> (n <= length (rest st))%nat ->
  forallb p (take n (rest st)) = true ->
  is_Some (k (advance n st)) ->
  is_Some (star_loop (run (Cls p)) k fuel st).
Proof.
  revert n st. induction fuel as [|fuel IH]; intros n st Hf Hn Hp Hk.
  - by replace n with 0%nat in Hk by lia.
  - change (star_loop (run (Cls p)) k (S fuel) st) with
      (match run (Cls p) st (fun st' => if (pos st <? pos st')%nat
                                then star_loop (run (Cls p)) k fuel st' else None) with
       | Some m => Some m
       | None => k st
       end).
    destruct n as [|n].
    + simpl in Hk. by destruct (run (Cls p) st _).
    + destruct (rest st) as [|c tl] eqn:E; [simpl in Hn; lia|].
      simpl in Hp. apply andb_prop in Hp as [Hc Hp].
      rewrite (run_cls_at p st _ c tl E Hc).
      change (advance 1 st) with
        (match rest st with
         | c :: tl => MState (S (pos st)) tl (Some c) (groups st)
         | [] => st
         end).
      rewrite E. simpl pos. rewrite (proj2 (Nat.ltb_lt _ _)) by lia.
      simpl in Hk. rewrite E in Hk.
      destruct (IH n (MState (S (pos st)) tl (Some c) (groups st))
                  ltac:(lia) ltac:(simpl in *; lia) Hp Hk) as [m Hm].
      by rewrite Hm.
Qed.

Lemma run_star_cls_some (p : N -> bool) (k : mstate -> option mstate)
  (n : nat) (st : mstate) :
  (n <= length (rest st))%nat ->
  forallb p (take n (rest st)) = true ->
  is_Some (k (advance n st)) ->
  is_Some (run (Star (Cls p)) st k).
Proof. intros Hn. rewrite run_star. by apply star_loop_cls_some. Qed.

Lemma run_plus_cls_some (p : N -> bool) (k : mstate -> option mstate)
  (n : nat) (st : mstate) :
  (1 <= n <= length (rest st))%nat ->
  forallb p (take n (rest st)) = true ->
  is_Some (k (advance n st)) ->
  is_Some (run (plus (Cls p)) st k).
Proof.
  intros [H1 Hn] Hp Hk. unfold plus. rewrite run_seq.
  destruct n as [|n]; [lia|].
  destruct (rest st) as [|c tl] eqn:E; [simpl in Hn; lia|].
  simpl in Hp. apply andb_prop in Hp as [Hc Hp].
  rewrite (run_cls_at p st _ c tl E Hc).
  assert (H1' : (1 <= length (rest st))%nat) by (rewrite E; simpl; lia).
  destruct (advance_rest 1 st H1') as (Hr & _ & _).
  rewrite E in Hr. change (drop 1 (c :: tl)) with tl in Hr.
  apply (run_star_cls_some p k n).
  - rewrite Hr. simpl in Hn. lia.
  - by rewrite Hr.
  - rewrite advance_add by done. done.
Qed.

Lemma advance_app (st : mstate) (pre tl : pystr) :
  rest st = pre ++ tl -> rest (advance (length pre) st) = tl.
Proof.
  intros E.
  destruct (advance_rest (length pre) st) as (H & _ & _).
  - rewrite E, length_app. lia.
  - by rewrite H, E, drop_app_length.
Qed.

Lemma run_bol_start (s : pystr) (k : mstate -> option mstate) :
  run (Bol false) (MState 0 s None []) k = k (MState 0 s None []).
Proof. reflexivity. Qed.

Lemma run_eol (ml : bool) (st : mstate) (k : mstate -> option mstate) :
  run (Eol ml) st k = if at_eol ml st then k st else None.
Proof. reflexivity. Qed.

Lemma email_re_sound (s : pystr) :
  Summary.matches Validator._EMAIL_RE s = true -> email_shape s.
Proof.
  unfold Summary.matches, match_, Validator._EMAIL_RE, seqs. simpl foldr.
  destruct (run _ _ Some) as [m|] eqn:H; [intros _ | done].
  rewrite run_seq, run_bol_start in H.
  rewrite run_seq in H.
  apply run_plus_cls_inv in H as (a & st1 & (Ha & _) & Hane & Hpa & H).
  rewrite run_seq in H.
  apply run_cls_inv in H as (x & st2 & (Hx & _) & Hxe & H).
  apply N.eqb_eq in Hxe as <-.
  rewrite run_seq in H.
  apply run_plus_cls_inv in H as (b & st3 & (Hb & _) & Hbne & Hpb & H).
  rewrite run_seq in H.
  apply run_cls_inv in H as (y & st4 & (Hy & _) & Hye & H).
  apply N.eqb_eq in Hye as <-.
  rewrite run_seq in H.
  apply run_plus_cls_inv in H as (c & st5 & (Hc & _) & Hcne & Hpc & H).
  rewrite run_seq, run_eol in H. unfold at_eol in H.
  exists a, b, c. repeat split; try done.
  simpl in Ha. rewrite Ha, Hx, Hb, Hy, Hc. simpl.
  destruct (rest st5) as [|z [|z' tl]]; simpl in H.
  - left. by rewrite app_nil_r.
  - right. destruct (z =? NEWLINE) eqn:Hz; [|done].
    by apply N.eqb_eq in Hz as ->.
  - by rewrite andb_false_r in H.
Qed.

Lemma email_re_complete (s : pystr) :
  email_shape s -> Summary.matches Validator._EMAIL_RE s = true.
Proof.
  intros (a & b & c & Hane & Hbne & Hcne & Hpa & Hpb & Hpc & Hs).
  assert (exists tail, s = a ++ 64 :: b ++ 46 :: c ++ tail /\
                       (tail = [] \/ tail = [NEWLINE])) as (tail & -> & Htail).
  { destruct Hs as [-> | ->]; [exists [] | exists [NEWLINE]]; split; auto.
    by rewrite app_nil_r. }
  unfold Summary.matches, match_, Validator._EMAIL_RE, seqs, chr. simpl foldr.
  match goal with
  | |- match ?r with _ => _ end = true => assert (Hsome : is_Some r)
  end; [|by destruct Hsome as [m ->]].
  rewrite run_seq, run_bol_start.
  set (st0 := MState 0 (a ++ 64 :: b ++ 46 :: c ++ tail) None []).
  rewrite run_seq.
  assert (H0 : rest st0 = a ++ 64 :: b ++ 46 :: c ++ tail) by done.
  assert (Hlen : forall (l : pystr), l <> [] -> (1 <= length l)%nat).
  { intros [|? l] ?; [done | simpl; lia]. }
  apply (run_plus_cls_some _ _ (length a)).
  { rewrite H0, length_app. split; [by apply Hlen | lia]. }
  { by rewrite H0, take_app_length. }
  pose proof (advance_app st0 a _ H0) as H1.
  set (st1 := advance (length a) st0) in *.
  cbv beta. rewrite run_seq. rewrite (run_cls_at _ st1 _ 64 _ H1) by done.
  pose proof (advance_app st1 [64] _ H1) as H2. simpl length in H2.
  set (st2 := advance 1 st1) in *.
  rewrite run_seq.
  apply (run_plus_cls_some _ _ (length b)).
  { rewrite H2, length_app. split; [by apply Hlen | lia]. }
  { by rewrite H2, take_app_length. }
  pose proof (advance_app st2 b _ H2) as H3.
  set (st3 := advance (length b) st2) in *.
  cbv beta. rewrite run_seq. rewrite (run_cls_at _ st3 _ 46 _ H3) by done.
  pose proof (advance_app st3 [46] _ H3) as H4. simpl length in H4.
  set (st4 := advance 1 st3) in *.
  rewrite run_seq.
  apply (run_plus_cls_some _ _ (length c)).
  { rewrite H4, length_app. split; [by apply Hlen | lia]. }
  { by rewrite H4, take_app_length. }
  pose proof (advance_app st4 c _ H4) as H5.
  set (st5 := advance (length c) st4) in *.
  cbv beta. rewrite run_seq, run_eol. unfold at_eol. rewrite H5.
  by destruct Htail as [-> | ->].
Qed.

(** X6: [validate_email] returns [True], printing nothing, exactly on the
    strings made of three non-empty runs of characters that are neither [@]
    nor blank, with an [@] after the first run and a period after the
    second, possibly followed by one newline; on every other string it
    prints one warning and returns [False]. *)
Theorem validate_email_accepts (email : pystr) :
  (Validator.validate_email email = ([], true) <-> email_shape email) /\
  ((Validator.validate_email email).2 = true <-> email_shape email) /\
  (~ email_shape email ->
   exists line, Validator.validate_email email = ([line], false)).
Proof.
  assert (Hshape : email_shape email -> email <> []).
  { intros (a & b & c & Ha & _ & _ & _ & _ & _ & [-> | ->]); by destruct a. }
  unfold Validator.validate_email.
  destruct (Summary.matches Validator._EMAIL_RE email) eqn:Hm.
  - pose proof (email_re_sound _ Hm) as Hs.
    destruct email as [|x email]; [by destruct (Hshape Hs)|]. simpl.
    repeat split; try done.
  - assert (Hn : ~ email_shape email).
    { intros Hs. apply email_re_complete in Hs. congruence. }
    destruct email as [|x email]; simpl; repeat split; try done; eauto.
Qed.

(** ** Order ids and folders *)

(** X7: [validate_order_id] accepts exactly the strings of 15 decimal
    digits, of any script, possibly followed by one newline (which [$] lets
    through). *)
Theorem validate_order_id_accepts (order_id context : pystr) :
  Validator.validate_order_id order_id context = Validator.Valid tt <->
  exists ds, length ds = 15%nat /\ forallb isdecimal ds = true /\
             (order_id = ds \/ order_id = ds ++ [NEWLINE]).
Proof.
  rewrite <- order_id_re_matches. unfold Validator.validate_order_id.
  destruct order_id as [|c s]; [by split|].
  by destruct (Summary.matches Validator.ORDER_ID_RE (c :: s)).
Qed.

(** X8: in [upsert_food_order] and [upsert_instamart_order], either
    [validate_order_id] raises [ValidationError], or [int(inv.order_id)]
    returns a number from 0 to 10^15 - 1: once the check has passed, [int]
    does not raise. *)
Theorem order_key_is_an_integer (order_id context : pystr) :
  (exists message,
     Loader.order_key order_id context = Validator.ValidationError message) \/
  (exists v,
     Loader.order_key order_id context = Validator.Valid (Ok (Z.of_N v)) /\
     v < 10 ^ 15).
Proof.
  unfold Loader.order_key.
  destruct (Validator.validate_order_id order_id context) as [[]|m] eqn:H;
    [right | left; eauto].
  apply validate_order_id_valid_matches, order_id_re_matches in H
    as (ds & Hlen & Hd & Hs).
  destruct (int_of_decimals ds order_id) as (v & Hv & Hlt);
    [by destruct ds | lia | done | done |].
  exists v. rewrite Hv. by rewrite Hlen in Hlt.
Qed.

(** X9: for an order type that [_detect_order_type] returns,
    [validate_summary_folder] passes exactly when the lower-cased folder
    name does not hold the name of the other type; a folder whose name
    holds both ["food"] and ["instamart"] is refused for every file. *)
Theorem folder_check_after_detection (file_name folder_name t : pystr) :
  Summary._detect_order_type file_name = Ok t ->
  let folder := lower folder_name in
  (Validator.validate_summary_folder folder_name t = Validator.Valid tt <->
   (t = py "food" /\ contains (py "instamart") folder = false) \/
   (t = py "instamart" /\ contains (py "food") folder = false)) /\
  (contains (py "food") folder = true ->
   contains (py "instamart") folder = true ->
   exists message,
     Validator.validate_summary_folder folder_name t
     = Validator.ValidationError message).
Proof.
  intros Ht folder. unfold Validator.validate_summary_folder. fold folder.
  assert (Hcases : t = py "food" \/ t = py "instamart").
  { unfold Summary._detect_order_type in Ht.
    repeat case_match; simplify_eq; auto. }
  assert (Hne : py "food" <> py "instamart") by (vm_compute; discriminate).
  destruct Hcases as [-> | ->].
  - change (str_eqb (py "food") (py "food")) with true.
    change (str_eqb (py "food") (py "instamart")) with false.
    destruct (contains (py "instamart") folder); simpl.
    + split; [split; [done | intros [[_ ?] | [? _]]; done] | eauto].
    + split; [split; [by left | done] | done].
  - change (str_eqb (py "instamart") (py "food")) with false.
    change (str_eqb (py "instamart") (py "instamart")) with true.
    destruct (contains (py "food") folder); simpl.
    + split; [split; [done | intros [[? _] | [_ ?]]; done] | eauto].
    + split; [split; [by right | done] | done].
Qed.

Lemma folder_check_after_detection_witness :
  Validator.validate_summary_folder (py "Food") (py "food") = Validator.Valid tt /\
  exists message,
    Validator.validate_summary_folder (py "food-and-instamart") (py "food")
    = Validator.ValidationError message.
Proof.
  split.
  - destruct (folder_check_after_detection (py "order_summary_food_1.pdf")
                (py "Food") (py "food") ltac:(vm_compute; reflexivity))
      as [H _].
    apply H. left. split; [reflexivity | vm_compute; reflexivity].
  - destruct (folder_check_after_detection (py "order_summary_food_1.pdf")
                (py "food-and-instamart") (py "food")
                ltac:(vm_compute; reflexivity))
      as [_ H].
    apply H; vm_compute; reflexivity.
Defined.

(** ** The order id of a detail invoice *)

(** A field read by [label\s*(\d+)]: decimal digits only, and empty exactly
    when the pattern is not found. *)
Lemma field_digits_after (label : string) (t : pystr) :
  let v := field (digits_after label) strip [] t in
  forallb isdecimal v = true /\
  (v = [] <-> search (digits_after label) t = None).
Proof.
  unfold field. destruct (search (digits_after label) t) as [m|] eqn:H;
    [|by split].
  apply digits_after_group in H as [Hne Hd].
  rewrite strip_decimal by exact Hd. by split.
Qed.

Lemma seller_keys_distinct : NoDup Instamart.seller_fields.*1.
Proof. compute_done. Qed.

Lemma handling_keys_distinct : NoDup Instamart.handling_fields.*1.
Proof. compute_done. Qed.

Lemma food_header_order_id (t : pystr) :
  get (Food._parse_header t) "order_id" []
  = field (digits_after "Order ID:") strip [] t.
Proof.
  unfold get, Food._parse_header.
  rewrite (assign_all_lookup _ Food.header_fields "order_id"
             (digits_after "Order ID:", strip, []) header_keys_distinct).
  - reflexivity.
  - unfold Food.header_fields. do 3 apply list_elem_of_further.
    apply list_elem_of_here.
Qed.

Lemma seller_header_order_id (t : pystr) :
  get (Instamart._parse_seller_header t) "order_id" []
  = field (digits_after "Order ID:") strip [] t.
Proof.
  unfold get, Instamart._parse_seller_header.
  rewrite (assign_all_lookup (fun f : pystr -> pystr => f t)
             Instamart.seller_fields "order_id"
             (field (digits_after "Order ID:") strip []) seller_keys_distinct).
  - reflexivity.
  - unfold Instamart.seller_fields. do 3 apply list_elem_of_further.
    apply list_elem_of_here.
Qed.

Lemma food_extract_order_id (t : table) (inv : Food.FoodInvoice) :
  Food.extract t = Ok inv ->
  exists text, Food.order_id inv = field (digits_after "Order ID:") strip [] text.
Proof.
  unfold Food.extract. intros H.
  apply bind_inv in H as (r2 & _ & H).
  apply bind_inv in H as (c & _ & H).
  apply bind_inv in H as ([its sub] & _ & H).
  bind_inv H. injection H as <-. simpl.
  exists (or_empty c). apply food_header_order_id.
Qed.

Lemma instamart_extract_order_id (pages : list (list table))
  (inv : Instamart.InstamartInvoice) :
  Instamart.extract pages = Ok inv ->
  exists text,
    Instamart.order_id inv = field (digits_after "Order ID:") strip [] text.
Proof.
  unfold Instamart.extract. intros H.
  apply bind_inv in H as (t1 & _ & H).
  apply bind_inv in H as (tb & _ & H).
  apply bind_inv in H as (r1 & _ & H).
  apply bind_inv in H as (c & _ & H).
  apply bind_inv in H as ([its v] & _ & H).
  apply bind_inv in H as (h & _ & H).
  injection H as <-. simpl.
  exists (or_empty c). apply seller_header_order_id.
Qed.

(** A run of decimal digits passes [validate_order_id] exactly when it has
    15 of them. *)
Lemma order_key_of_decimals (oid context : pystr) :
  forallb isdecimal oid = true ->
  (exists r, Loader.order_key oid context = Validator.Valid r)
  <-> length oid = 15%nat.
Proof.
  intros Hd. unfold Loader.order_key. split.
  - destruct (Validator.validate_order_id oid context) as [[]|] eqn:H;
      [intros _ | by intros [r ?]].
    apply validate_order_id_valid_matches, order_id_re_matches in H
      as (ds & Hlen & _ & [-> | ->]); [done|].
    rewrite forallb_app in Hd. apply andb_prop in Hd as [_ Hd]. done.
  - intros Hlen.
    rewrite (order_id_pattern_validates oid context); [eauto|].
    change Summary.ORDER_ID_PATTERN with Validator.ORDER_ID_RE.
    apply order_id_re_matches. eauto 10.
Qed.

(** X10: the order id of an invoice that either detail extractor returns
    is a run of decimal digits, of any script and possibly empty, and the
    loader's check accepts it exactly when it has 15 of them. *)
Theorem parsed_order_id_is_digits :
  (forall t inv, Food.extract t = Ok inv ->
     forallb isdecimal (Food.order_id inv) = true /\
     forall context,
       (exists r, Loader.order_key (Food.order_id inv) context
                  = Validator.Valid r)
       <-> length (Food.order_id inv) = 15%nat) /\
  (forall pages inv, Instamart.extract pages = Ok inv ->
     forallb isdecimal (Instamart.order_id inv) = true /\
     forall context,
       (exists r, Loader.order_key (Instamart.order_id inv) context
                  = Validator.Valid r)
       <-> length (Instamart.order_id inv) = 15%nat).
Proof.
  split.
  - intros t inv H. apply food_extract_order_id in H as [text ->].
    destruct (field_digits_after "Order ID:" text) as [Hd _].
    split; [done|]. intros context. by apply order_key_of_decimals.
  - intros pages inv H. apply instamart_extract_order_id in H as [text ->].
    destruct (field_digits_after "Order ID:" text) as [Hd _].
    split; [done|]. intros context. by apply order_key_of_decimals.
Qed.

(** ** The checks on an invoice and on the counts *)

Lemma warn_if_flag (cond : bool) (line : pystr) (acc : list pystr * bool) :
  (acc.2 = true <-> acc.1 = []) ->
  ((Validator.warn_if cond line acc).2 = true
   <-> (Validator.warn_if cond line acc).1 = []).
Proof.
  unfold Validator.warn_if. destruct cond; [|done]. intros _. simpl.
  split; [done|]. intros H. apply app_eq_nil in H as [_ H']. done.
Qed.

Lemma warn_if_true (cond : bool) (line : pystr) (acc : list pystr * bool) :
  (Validator.warn_if cond line acc).2 = true <-> cond = false /\ acc.2 = true.
Proof.
  unfold Validator.warn_if. destruct cond; simpl; split; try done.
  - by intros [? _].
  - by intros [_ ?].
Qed.

Lemma is_empty_false (s : pystr) : Validator.is_empty s = false <-> s <> [].
Proof. by destruct s. Qed.

Lemma pair_eq_inv {A B} (p : A * B) (a : A) (b : B) :
  p = (a, b) -> a = p.1 /\ b = p.2.
Proof. by intros ->. Qed.

(** X11: when [validate_invoice_fields] returns, it returns [True] exactly
    when it has printed nothing; [True] needs a non-empty order id, invoice
    date and invoice number whatever the order type, and for ["food"]
    (["instamart"]) it is returned exactly when also the restaurant
    (seller) name is non-empty, the invoice total (value) is above zero and
    there is at least one item. *)
Theorem invoice_check_true_iff_silent (inv : Validator.invoice)
  (order_type : pystr) (lines : list pystr) (ok : bool) :
  Validator.validate_invoice_fields inv order_type = Ok (lines, ok) ->
  (ok = true <-> lines = []) /\
  (ok = true ->
   Validator.inv_order_id inv <> [] /\
   Validator.inv_date_of_invoice inv <> [] /\
   Validator.inv_invoice_no inv <> []) /\
  (forall i, inv = Validator.OfFood i -> order_type = py "food" ->
     (ok = true <->
      Food.order_id i <> [] /\ Food.date_of_invoice i <> [] /\
      Food.invoice_no i <> [] /\ Food.restaurant_name i <> [] /\
      Validator.le_zero (Food.invoice_total i) = false /\ Food.items i <> [])) /\
  (forall i, inv = Validator.OfInstamart i -> order_type = py "instamart" ->
     (ok = true <->
      Instamart.order_id i <> [] /\ Instamart.date_of_invoice i <> [] /\
      Instamart.invoice_no i <> [] /\ Instamart.seller_name i <> [] /\
      Validator.le_zero (Instamart.invoice_value i) = false /\
      Instamart.items i <> [])).
Proof.
  unfold Validator.validate_invoice_fields. cbv zeta.
  set (a0 := ([], true) : list pystr * bool).
  set (a1 := Validator.warn_if _ _ a0).
  set (a2 := Validator.warn_if _ _ a1).
  set (a3 := Validator.warn_if _ _ a2).
  assert (F3 : a3.2 = true <-> a3.1 = []) by (by do 3 apply warn_if_flag).
  assert (T3 : a3.2 = true <->
               Validator.inv_order_id inv <> [] /\
               Validator.inv_date_of_invoice inv <> [] /\
               Validator.inv_invoice_no inv <> []).
  { unfold a3, a2, a1. rewrite !warn_if_true, !is_empty_false. tauto. }
  destruct (str_eqb order_type (py "food")) eqn:Ef.
  - apply str_eqb_true in Ef as ->.
    destruct inv as [i|i]; [|done]. intros [= H].
    apply pair_eq_inv in H as [-> ->].
    split; [by do 3 apply warn_if_flag|].
    split; [rewrite !warn_if_true; tauto|].
    split; [|intros ? [=]].
    intros i' [= <-] _. rewrite !warn_if_true, T3, !is_empty_false. simpl.
    destruct (Food.items i); intuition congruence.
  - destruct (str_eqb order_type (py "instamart")) eqn:Ei.
    + apply str_eqb_true in Ei as ->.
      destruct inv as [i|i]; [done|]. intros [= H].
      apply pair_eq_inv in H as [-> ->].
      split; [by do 3 apply warn_if_flag|].
      split; [rewrite !warn_if_true; tauto|].
      split; [intros ? [=]|].
      intros i' [= <-] _. rewrite !warn_if_true, T3, !is_empty_false. simpl.
      destruct (Instamart.items i); intuition congruence.
    + intros [= H]. apply pair_eq_inv in H as [-> ->].
      split; [done|]. split; [by apply T3|].
      split; intros i _ ->; [by vm_compute in Ef | by vm_compute in Ei].
Qed.

Lemma invoice_check_true_iff_silent_witness :
  exists inv lines,
    Instamart.extract [seller_page] = Ok inv /\
    Validator.validate_invoice_fields (Validator.OfInstamart inv) (py "instamart")
    = Ok (lines, false) /\
    lines <> [].
Proof.
  destruct (Instamart.extract [seller_page]) as [inv|e] eqn:He;
    [|vm_compute in He; discriminate He].
  assert (Hitems : Instamart.items inv = []).
  { vm_compute in He. injection He as <-. reflexivity. }
  destruct (Validator.validate_invoice_fields (Validator.OfInstamart inv)
              (py "instamart")) as [[lines ok]|e] eqn:Hv.
  - destruct (invoice_check_true_iff_silent _ _ _ _ Hv)
      as (Hsilent & _ & _ & Hinst).
    exists inv, lines. split; [reflexivity|]. destruct ok.
    + exfalso.
      destruct (proj1 (Hinst inv eq_refl eq_refl) eq_refl)
        as (_ & _ & _ & _ & _ & Hne).
      exact (Hne Hitems).
    + split; [exact Hv|]. intros Hl.
      discriminate (proj2 Hsilent Hl).
  - exfalso. revert Hv. unfold Validator.validate_invoice_fields.
    change (str_eqb (py "instamart") (py "food")) with false.
    change (str_eqb (py "instamart") (py "instamart")) with true.
    discriminate.
Defined.

Lemma warn_if_false (cond : bool) (line : pystr) (acc : list pystr * bool) :
  acc.2 = false -> (Validator.warn_if cond line acc).2 = false.
Proof. unfold Validator.warn_if. by destruct cond. Qed.

Lemma food_extract_taxes (t : table) (inv : Food.FoodInvoice) :
  Food.extract t = Ok inv ->
  first_where Food.is_tax_row t = Ok None ->
  Food.invoice_total inv = zero /\ Food.total_taxes inv = zero /\
  Food.igst_amount inv = zero /\ Food.cgst_amount inv = zero /\
  Food.sgst_amount inv = zero.
Proof.
  unfold Food.extract. intros H Hno.
  apply bind_inv in H as (r2 & _ & H).
  apply bind_inv in H as (c & _ & H).
  apply bind_inv in H as ([its sub] & _ & H).
  rewrite Hno, bind_ok, bind_ok in H.
  apply bind_inv in H as (eco_row & _ & H).
  apply bind_inv in H as (eco & _ & H).
  injection H as <-. done.
Qed.

Lemma warn_if_lines (cond : bool) (line : pystr) (acc : list pystr * bool) :
  cond = true \/ acc.1 <> [] -> (Validator.warn_if cond line acc).1 <> [].
Proof.
  unfold Validator.warn_if. destruct cond; simpl.
  - intros _ H. by apply app_eq_nil in H as [_ ?].
  - by intros [? | ?].
Qed.

(** X12: a food table with no row holding both ["Taxes"] and ["CGST"] in
    its first cell gives an invoice whose total is [0.0], and
    [validate_invoice_fields] returns [False] on it with a warning
    printed. *)
Theorem food_invoice_without_tax_row_fails_check (t : table)
  (inv : Food.FoodInvoice) :
  Food.extract t = Ok inv ->
  first_where Food.is_tax_row t = Ok None ->
  Food.invoice_total inv = zero /\
  exists lines,
    Validator.validate_invoice_fields (Validator.OfFood inv) (py "food")
    = Ok (lines, false) /\ lines <> [].
Proof.
  intros H Hno. destruct (food_extract_taxes t inv H Hno) as (Htot & _).
  split; [done|].
  unfold Validator.validate_invoice_fields. cbv zeta.
  change (str_eqb (py "food") (py "food")) with true. cbv iota.
  rewrite Htot. change (Validator.le_zero zero) with true.
  match goal with
  | |- exists lines, Ok ?a = _ /\ _ =>
      exists a.1; assert (Hf : a.2 = false /\ a.1 <> [])
  end.
  { split.
    - by apply warn_if_false.
    - apply warn_if_lines. right. apply warn_if_lines. by left. }
  destruct Hf as [Hf Hl]. split; [|done].
  match goal with
  | |- Ok ?a = _ => destruct a as [l b]
  end.
  simpl in *. by subst b.
Qed.

Lemma food_invoice_without_tax_row_fails_check_witness :
  exists inv lines,
    Food.extract food_table_without_taxes = Ok inv /\
    Food.invoice_total inv = zero /\
    Validator.validate_invoice_fields (Validator.OfFood inv) (py "food")
    = Ok (lines, false).
Proof.
  destruct (Food.extract food_table_without_taxes) as [inv|e] eqn:He;
    [|vm_compute in He; discriminate He].
  destruct (food_invoice_without_tax_row_fails_check _ inv He
              ltac:(vm_compute; reflexivity)) as (Ht & lines & Hv & _).
  exists inv, lines. split; [reflexivity|]. split; [exact Ht | exact Hv].
Defined.

(** X13: the order count of a summary that [parse_summary] returns is an
    integer, and [validate_summary_counts] returns [True] without a warning
    exactly when it equals the number of orders, [False] with the warning
    otherwise; with no ["Customer Name"] label that the header loop acts on,
    the count is 0. *)
Theorem summary_count_check (f : Summary.file) (warnings : list message)
  (sd : Summary.SummaryData) :
  Summary.parse_summary f = Ok (warnings, sd) ->
  exists n,
    Summary.number_of_orders sd = VInt n /\
    (Validator.validate_summary_counts sd = (false, true)
     <-> Z.of_nat (length (Summary.orders sd)) = n) /\
    (Validator.validate_summary_counts sd = (true, false)
     <-> Z.of_nat (length (Summary.orders sd)) <> n) /\
    ((forall doc first i, Summary.fitz_open f = Some doc ->
        doc !! 0%nat = Some first ->
        ~ label_at (split_on NEWLINE (Summary.get_text first))
            "Customer Name" 5 i) ->
     n = 0%Z).
Proof.
  unfold Summary.parse_summary. intros H.
  apply bind_inv in H as (t & _ & H).
  destruct (Summary.fitz_open f) as [doc|] eqn:Hopen; [|done].
  apply bind_inv in H as (first & Hfirst & H). apply index_inv in Hfirst.
  apply bind_inv in H as (header & Hh & H).
  apply bind_inv in H as (rows & _ & H). injection H as _ <-.
  assert (Hsound : header_sound (split_on NEWLINE (Summary.get_text first))
                     header).
  { revert Hh. unfold Summary._extract_header.
    apply (for_each_invariant (header_sound _)).
    - intros acc i acc' Hacc _ Hstep. by eapply header_step_sound.
    - repeat split; intros v Hv; by rewrite lookup_empty in Hv. }
  destruct Hsound as (_ & Hn & _).
  unfold Validator.validate_summary_counts, get. simpl.
  destruct (header !! "number_of_orders") as [v|] eqn:Hv; simpl.
  - destruct (Hn v eq_refl) as (i & l & n & Hlab & _ & _ & ->).
    exists n. split; [done|]. simpl.
    destruct (Z.eqb_spec (Z.of_nat (length (Summary.build_orders
                 (Summary._extract_urls doc) rows))) n) as [E|E]; simpl.
    + repeat split; try done. intros Hno. by destruct (Hno doc first i).
    + repeat split; try done. intros Hno. by destruct (Hno doc first i).
  - exists 0%Z. split; [done|].
    destruct (Z.eqb_spec (Z.of_nat (length (Summary.build_orders
                 (Summary._extract_urls doc) rows))) 0) as [E|E]; simpl;
      repeat split; done.
Qed.

Lemma summary_count_check_witness :
  exists warnings sd,
    Summary.parse_summary summary_with_header = Ok (warnings, sd) /\
    Validator.validate_summary_counts sd = (false, true).
Proof.
  destruct (Summary.parse_summary summary_with_header) as [[warnings sd]|e]
    eqn:Hp; [|vm_compute in Hp; discriminate Hp].
  destruct (summary_count_check _ _ _ Hp) as (n & Hn & Hsame & _).
  exists warnings, sd. split; [reflexivity|]. apply Hsame.
  vm_compute in Hp. injection Hp as <- <-.
  simpl in Hn. injection Hn as <-. reflexivity.
Defined.

(** ** The food tax block *)

Lemma updates_only_refl (keys : list string) (taxes : gmap string pyfloat) :
  updates_only keys taxes taxes.
Proof. by split. Qed.

Lemma updates_only_insert (keys : list string) (k : string) (x : pyfloat)
  (taxes taxes' : gmap string pyfloat) :
  k ∈ keys -> k ∈ dom taxes -> updates_only keys taxes taxes' ->
  updates_only keys taxes (<[k := x]> taxes').
Proof.
  intros Hk Hd [H1 H2]. split.
  - rewrite dom_insert_L, H1. apply subseteq_union_1_L.
    by apply singleton_subseteq_l.
  - intros k' Hk'. rewrite lookup_insert_ne; [by apply H2|].
    intros ->. done.
Qed.

Lemma food_rate_and_amount (label rk ak : string) (t : pystr)
  (taxes : gmap string pyfloat) :
  rk ∈ dom taxes -> ak ∈ dom taxes ->
  (exists taxes',
     Food.rate_and_amount label rk ak Food._parse_float t taxes = Ok taxes' /\
     updates_only [rk; ak] taxes taxes' /\
     (search (rate_pattern label) t = None -> taxes' = taxes)) \/
  Food.rate_and_amount label rk ak Food._parse_float t taxes = Raise ValueError.
Proof.
  intros Hrk Hak. unfold Food.rate_and_amount.
  destruct (search (rate_pattern label) t) as [m|];
    [|left; eexists; split; [done | split; [apply updates_only_refl | done]]].
  destruct (float_ok_or_value_error (Re.group m 1)) as [[r ->] | ->];
    [|by right].
  rewrite bind_ok.
  destruct (parse_float_total (Some (Re.group m 2))) as [a ->].
  rewrite bind_ok. left. eexists. split; [done|]. split; [|done].
  apply updates_only_insert; [repeat constructor | done |].
  apply updates_only_insert; [repeat constructor | done |].
  apply updates_only_refl.
Qed.

Lemma food_amount_only (label key : string) (t : pystr)
  (taxes : gmap string pyfloat) :
  key ∈ dom taxes ->
  exists taxes',
    Food.amount_only label key Food._parse_float t taxes = Ok taxes' /\
    updates_only [key] taxes taxes' /\
    (search (total_pattern label) t = None -> taxes' = taxes).
Proof.
  intros Hk. unfold Food.amount_only.
  destruct (search (total_pattern label) t) as [m|];
    [|eexists; split; [done | split; [apply updates_only_refl | done]]].
  destruct (parse_float_total (Some (Re.group m 1))) as [a ->].
  rewrite bind_ok. eexists. split; [done|]. split; [|done].
  apply updates_only_insert; [repeat constructor | done | apply updates_only_refl].
Qed.

Lemma zero_taxes_dom :
  dom Food.zero_taxes =
  list_to_set ["igst_rate"; "igst_amount"; "cgst_rate"; "cgst_amount";
               "sgst_rate"; "sgst_amount"; "total_taxes"; "invoice_total"].
Proof. compute_done. Qed.

(** X14: [_parse_tax_block] returns a dict with exactly the eight tax keys
    or raises [ValueError] (a rate that [float] does not read); the key of
    a label whose pattern is not found holds [0.0], whatever the other
    patterns find. *)
Theorem tax_block_has_all_keys (t : pystr) :
  (exists taxes,
     Food._parse_tax_block t = Ok taxes /\
     dom taxes = dom Food.zero_taxes /\
     (search (rate_pattern "IGST") t = None ->
      taxes !! "igst_rate" = Some zero /\ taxes !! "igst_amount" = Some zero) /\
     (search (rate_pattern "CGST") t = None ->
      taxes !! "cgst_rate" = Some zero /\ taxes !! "cgst_amount" = Some zero) /\
     (search (rate_pattern "SGST/UTGST") t = None ->
      taxes !! "sgst_rate" = Some zero /\ taxes !! "sgst_amount" = Some zero) /\
     (search (total_pattern "Total taxes") t = None ->
      taxes !! "total_taxes" = Some zero) /\
     (search (total_pattern "Invoice Total") t = None ->
      taxes !! "invoice_total" = Some zero)) \/
  Food._parse_tax_block t = Raise ValueError.
Proof.
  unfold Food._parse_tax_block.
  assert (Hin : forall k (taxes : gmap string pyfloat), dom taxes = dom Food.zero_taxes ->
            k ∈ dom Food.zero_taxes -> k ∈ dom taxes) by (by intros ? ? ->).
  assert (Hk : Forall (fun k => k ∈ dom Food.zero_taxes)
            ["igst_rate"; "igst_amount"; "cgst_rate"; "cgst_amount";
             "sgst_rate"; "sgst_amount"; "total_taxes"; "invoice_total"]).
  { rewrite zero_taxes_dom. repeat constructor; apply elem_of_list_to_set;
      repeat constructor. }
  repeat match goal with
         | H : Forall _ (_ :: _) |- _ => apply Forall_cons in H as [? H]
         end.
  destruct (food_rate_and_amount "IGST" "igst_rate" "igst_amount" t
              Food.zero_taxes) as [(t1 & -> & [D1 U1] & N1) | ->];
    [done | done | | by right].
  rewrite bind_ok.
  destruct (food_rate_and_amount "CGST" "cgst_rate" "cgst_amount" t t1)
    as [(t2 & -> & [D2 U2] & N2) | ->]; [by apply Hin | by apply Hin | | by right].
  rewrite bind_ok.
  destruct (food_rate_and_amount "SGST/UTGST" "sgst_rate" "sgst_amount" t t2)
    as [(t3 & -> & [D3 U3] & N3) | ->];
    [apply Hin; [congruence | done] | apply Hin; [congruence | done] | | by right].
  rewrite bind_ok.
  destruct (food_amount_only "Total taxes" "total_taxes" t t3)
    as (t4 & -> & [D4 U4] & N4); [apply Hin; [congruence | done]|].
  rewrite bind_ok.
  destruct (food_amount_only "Invoice Total" "invoice_total" t t4)
    as (t5 & -> & [D5 U5] & N5); [apply Hin; [congruence | done]|].
  left. exists t5. split; [done|]. split; [congruence|].
  assert (Hne : forall (a b : string), a ≠ b -> a ∉ [b]).
  { intros a b Hab Hin'. by apply list_elem_of_singleton in Hin'. }
  assert (Hne2 : forall (a b c : string), a ≠ b -> a ≠ c -> a ∉ [b; c]).
  { intros a b c Hab Hac Hin'.
    apply elem_of_cons in Hin' as [? | Hin']; [done|].
    by apply list_elem_of_singleton in Hin'. }
  split; [|split; [|split; [|split]]]; intros Hnone;
    [split | split | split | |].
  - rewrite U5, U4, U3, U2 by (by (apply Hne || apply Hne2)).
    by rewrite (N1 Hnone).
  - rewrite U5, U4, U3, U2 by (by (apply Hne || apply Hne2)).
    by rewrite (N1 Hnone).
  - rewrite U5, U4, U3 by (by (apply Hne || apply Hne2)).
    rewrite (N2 Hnone). by rewrite U1 by (by apply Hne2).
  - rewrite U5, U4, U3 by (by (apply Hne || apply Hne2)).
    rewrite (N2 Hnone). by rewrite U1 by (by apply Hne2).
  - rewrite U5, U4 by (by (apply Hne || apply Hne2)).
    rewrite (N3 Hnone). by rewrite U2, U1 by (by apply Hne2).
  - rewrite U5, U4 by (by (apply Hne || apply Hne2)).
    rewrite (N3 Hnone). by rewrite U2, U1 by (by apply Hne2).
  - rewrite U5 by (by apply Hne).
    rewrite (N4 Hnone). by rewrite U3, U2, U1 by (by apply Hne2).
  - rewrite (N5 Hnone).
    by rewrite U4, U3, U2, U1 by (by (apply Hne || apply Hne2)).
Qed.

(** ** The page-1 rows and the fee line *)

Lemma page1_step_other (items : list Instamart.InstamartItem) (v0 : pyfloat)
  (row : list cell) :
  row <> [] -> is_item_row row = false ->
  exists v, Instamart.page1_step (items, v0) row = Ok (items, v) /\
    (is_invoice_value_row row = false -> v = v0) /\
    (is_invoice_value_row row = true ->
     Instamart._pf (default None (last row)) = Ok v).
Proof.
  intros Hne Hitem. destruct row as [|c0 row]; [done|].
  unfold is_item_row, is_invoice_value_row in *.
  change ((c0 :: row) !! 0%nat) with (Some c0) in *. cbv iota beta in *.
  unfold Instamart.page1_step.
  change (index (c0 :: row) 0) with (Ok c0). rewrite bind_ok.
  destruct (truthy c0 && contains (py "Invoice Value") (or_empty c0)) eqn:Eiv.
  - unfold index_last.
    destruct (last (c0 :: row)) as [x|] eqn:Hlast;
      [|by apply last_None in Hlast].
    rewrite bind_ok. destruct (pf_total x) as [v Hv]. rewrite Hv, bind_ok.
    exists v. by repeat split.
  - exists v0. rewrite Hitem.
    by destruct (truthy c0 && contains (py "Amount in words") (or_empty c0)).
Qed.

Lemma for_each_cons {A B} (f : B -> A -> result B) (acc : B) (x : A)
  (xs : list A) :
  for_each f acc (x :: xs) = acc' ← f acc x; for_each f acc' xs.
Proof. simpl. by destruct (f acc x). Qed.

Lemma page1_fold (rows : list (list cell))
  (its : list Instamart.InstamartItem) :
  Forall (fun row => row <> []) rows ->
  Forall2 (fun row it => Instamart.item_of_row row = Ok it)
          (List.filter is_item_row rows) its ->
  forall items v0,
    exists v, for_each Instamart.page1_step (items, v0) rows
              = Ok (items ++ its, v) /\
      (Forall (fun row => is_invoice_value_row row = false) rows -> v = v0).
Proof.
  intros Hrows. revert its.
  induction Hrows as [|row rows Hne _ IH]; intros its Hits items v0.
  - apply Forall2_nil_inv_l in Hits as ->. exists v0. by rewrite app_nil_r.
  - simpl in Hits. rewrite for_each_cons.
    destruct (is_item_row row) eqn:Hitem.
    + apply Forall2_cons_inv_l in Hits as (it & its' & Hit & Hits & ->).
      rewrite instamart_page1_step_item by done. rewrite Hit, !bind_ok.
      change ((items, v0).1) with items. change ((items, v0).2) with v0.
      destruct (IH its' Hits (items ++ [it]) v0) as (v & -> & Hv).
      exists v. rewrite <- app_assoc. split; [done|].
      intros Hall. apply Hv. by apply Forall_cons in Hall as [_ ?].
    + destruct (page1_step_other items v0 row Hne Hitem) as (v1 & -> & Hv1 & _).
      rewrite bind_ok.
      destruct (IH its Hits items v1) as (v & -> & Hv).
      exists v. split; [done|].
      intros Hall. apply Forall_cons in Hall as [H1 H2].
      rewrite (Hv H2). by apply Hv1.
Qed.

(** X15: over page-1 rows none of which is empty, the loop returns the
    items of the rows with a serial first cell, in row order, when each of
    them reads; the invoice value is [0.0] when no first cell holds
    ["Invoice Value"], and otherwise the last cell of the last such row,
    read by [_pf]. *)
Theorem page1_reads_every_row :
  (forall rows its,
     Forall (fun row => row <> []) rows ->
     Forall2 (fun row it => Instamart.item_of_row row = Ok it)
             (List.filter is_item_row rows) its ->
     exists v, Instamart.page1_rows rows = Ok (its, v) /\
       (Forall (fun row => is_invoice_value_row row = false) rows -> v = zero)) /\
  (forall pre r post acc x its,
     Instamart.page1_rows pre = Ok acc ->
     r <> [] -> is_item_row r = false -> is_invoice_value_row r = true ->
     Instamart._pf (default None (last r)) = Ok x ->
     Forall (fun row => row <> [] /\ is_invoice_value_row row = false) post ->
     Forall2 (fun row it => Instamart.item_of_row row = Ok it)
             (List.filter is_item_row post) its ->
     Instamart.page1_rows (pre ++ r :: post) = Ok (acc.1 ++ its, x)).
Proof.
  split.
  - intros rows its Hrows Hits. unfold Instamart.page1_rows.
    destruct (page1_fold rows its Hrows Hits [] zero) as (v & Hv & Hz).
    by exists v.
  - intros pre r post [items v0] x its Hpre Hne Hitem Hiv Hx Hpost Hits.
    unfold Instamart.page1_rows in *. rewrite for_each_app, Hpre, bind_ok.
    rewrite for_each_cons.
    destruct (page1_step_other items v0 r Hne Hitem) as (v1 & -> & _ & Hv1).
    rewrite bind_ok.
    specialize (Hv1 Hiv). rewrite Hx in Hv1. injection Hv1 as <-.
    destruct (page1_fold post its) with (items := items) (v0 := x)
      as (v & -> & Hv); [by eapply Forall_impl; [exact Hpost|]; intros ? [? _]
                        | done |].
    rewrite Hv; [done|]. by eapply Forall_impl; [exact Hpost|]; intros ? [_ ?].
Qed.

(** X16: the amounts of a handling-fee item row: from a row of nine cells
    the price, discount and net value are the cells 5, 7 and 8, from a row
    of ten or more the cells 5, 8 and 9, each read by [_pf]; a row of one
    to eight cells raises [IndexError]. *)
Theorem fee_line_columns (row : list cell) (oid : pystr) :
  row <> [] ->
  ((length row < 9)%nat ->
   Instamart.fee_line (Some row) oid = Raise IndexError) /\
  ((9 <= length row)%nat ->
   exists p d n,
     Instamart.fee_line (Some row) oid
     = Ok (squeeze (or_empty (cell_at row 1)), p, d, n) /\
     Instamart._pf (cell_at row 5) = Ok p /\
     let k := if bool_decide (10 <= length row)%nat then 1%nat else 0%nat in
     Instamart._pf (cell_at row (7 + k)) = Ok d /\
     Instamart._pf (cell_at row (8 + k)) = Ok n).
Proof.
  intros Hne. destruct row as [|c cs] eqn:Erow; [done|]. rewrite <- Erow.
  assert (Hfee : Instamart.fee_line (Some row) oid =
    (c1 ← index row 1;
     if bool_decide (10 <= length row)%nat then
       c5 ← index row 5; p ← Instamart._pf c5;
       c8 ← index row 8; d ← Instamart._pf c8;
       c9 ← index row 9; n ← Instamart._pf c9;
       Ok (squeeze (or_empty c1), p, d, n)
     else
       c5 ← index row 5; p ← Instamart._pf c5;
       c7 ← index row 7; d ← Instamart._pf c7;
       c8 ← index row 8; n ← Instamart._pf c8;
       Ok (squeeze (or_empty c1), p, d, n))) by (by rewrite Erow).
  rewrite Hfee. clear Hfee Erow Hne c cs. unfold cell_at. split.
  - intros Hlen. rewrite bool_decide_eq_false_2 by lia.
    index_step row 1%nat; [|done].
    index_step row 5%nat; [pf_step|done].
    index_step row 7%nat; [pf_step|done].
    index_step row 8%nat; [lia|done].
  - intros Hlen.
    destruct (lookup_lt_is_Some_2 row 1 ltac:(lia)) as [c1 H1].
    destruct (lookup_lt_is_Some_2 row 5 ltac:(lia)) as [c5 H5].
    destruct (lookup_lt_is_Some_2 row 7 ltac:(lia)) as [c7 H7].
    destruct (lookup_lt_is_Some_2 row 8 ltac:(lia)) as [c8 H8].
    rewrite (index_lookup _ _ _ H1), bind_ok, H1, H5.
    destruct (pf_total c5) as [p Hp].
    case_bool_decide as H10.
    + destruct (lookup_lt_is_Some_2 row 9 ltac:(lia)) as [c9 H9].
      destruct (pf_total c8) as [d Hd]. destruct (pf_total c9) as [n Hn].
      exists p, d, n. simpl. rewrite H8, H9. simpl.
      rewrite (index_lookup _ _ _ H5), bind_ok, Hp, bind_ok.
      rewrite (index_lookup _ _ _ H8), bind_ok, Hd, bind_ok.
      by rewrite (index_lookup _ _ _ H9), bind_ok, Hn, bind_ok.
    + destruct (pf_total c7) as [d Hd]. destruct (pf_total c8) as [n Hn].
      exists p, d, n. simpl. rewrite H7, H8. simpl.
      rewrite (index_lookup _ _ _ H5), bind_ok, Hp, bind_ok.
      rewrite (index_lookup _ _ _ H7), bind_ok, Hd, bind_ok.
      by rewrite (index_lookup _ _ _ H8), bind_ok, Hn, bind_ok.
Qed.

Lemma fee_line_columns_witness :
  Instamart.fee_line (Some [Some (py "1"); Some (py "Handling Fee")]) (py "1")
  = Raise IndexError.
Proof.
  apply (proj1 (fee_line_columns [Some (py "1"); Some (py "Handling Fee")]
                  (py "1") ltac:(discriminate))).
  simpl. lia.
Defined.

(** X17: [validate_pdf_file] passes exactly on a file that exists and
    whose content starts with the five bytes [%PDF-]; a file of fewer than
    five bytes, empty or not, is refused. *)
Theorem validate_pdf_file_accepts (path : Validator.disk_file) :
  (Validator.validate_pdf_file path = Validator.Valid tt <->
   exists tail, Validator.read_bytes path = Some (py "%PDF-" ++ tail)) /\
  (forall bytes, Validator.read_bytes path = Some bytes ->
     (length bytes < 5)%nat ->
     exists message,
       Validator.validate_pdf_file path = Validator.ValidationError message).
Proof.
  unfold Validator.validate_pdf_file.
  destruct (Validator.read_bytes path) as [[|b bytes]|] eqn:E.
  - split; [split; [done | intros [tail [=]]] | eauto].
  - split.
    + case_bool_decide as Hm.
      * split; [done|]. intros [tail Ht]. exfalso. apply Hm.
        assert (Hb : b :: bytes = py "%PDF-" ++ tail) by congruence.
        by rewrite Hb.
      * split; [intros _ | done]. exists (drop 5 (b :: bytes)).
        rewrite <- Hm. by rewrite take_drop.
    + intros bytes' [= <-] Hlen.
      rewrite bool_decide_eq_true_2; [eauto|].
      intros Hm. apply (f_equal length) in Hm.
      rewrite length_take in Hm. change (length (py "%PDF-")) with 5%nat in Hm.
      lia.
  - split; [split; [done | intros [tail [=]]] | intros ? [=]].
Qed.

(** ** The downloads *)

Lemma results_insert_inv (orders : list Summary.OrderRow)
  (fs fs' : gmap (list N) (list N)) (rs : gmap (list N) (list N))
  (order : Summary.OrderRow) :
  order ∈ orders ->
  (forall name, is_Some (fs !! name) -> is_Some (fs' !! name)) ->
  is_Some (fs' !! (Summary.order_id order ++ py ".pdf")) ->
  (forall oid path, rs !! oid = Some path ->
     path = oid ++ py ".pdf" /\ is_Some (fs !! path) /\
     exists o, o ∈ orders /\ Summary.order_id o = oid) ->
  forall oid path,
    <[Summary.order_id order := Summary.order_id order ++ py ".pdf"]> rs !! oid
    = Some path ->
    path = oid ++ py ".pdf" /\ is_Some (fs' !! path) /\
    exists o, o ∈ orders /\ Summary.order_id o = oid.
Proof.
  intros Hin Hmono Hnew Hres oid path Hp.
  destruct (decide (oid = Summary.order_id order)) as [->|Hne].
  - rewrite lookup_insert_eq in Hp. injection Hp as <-.
    split; [done|]. split; [done|]. by exists order.
  - rewrite lookup_insert_ne in Hp by done.
    destruct (Hres _ _ Hp) as (H1 & H2 & H3).
    split; [done|]. split; [by apply Hmono | done].
Qed.

Lemma step_inv (get : pystr -> Downloader.response)
  (orders : list Summary.OrderRow)
  (dir : gmap (list N) (list N)) (n : nat) (st : Downloader.state)
  (order : Summary.OrderRow) :
  order ∈ orders -> download_inv orders dir n st ->
  match Downloader.step get st order with
  | Downloader.Returns st' => download_inv orders dir (S n) st'
  | Downloader.Escapes st' =>
      st' = st /\ Summary.detail_url order <> [] /\
      get (Summary.detail_url order) = Downloader.OtherError
  end.
Proof.
  intros Hin (Hcount & Hkeep & Hres).
  assert (Hwrite : forall bytes,
    (Downloader.files st !! (Summary.order_id order ++ py ".pdf") = None \/
     Downloader.files st !! (Summary.order_id order ++ py ".pdf") = Some []) ->
    download_inv orders dir (S n)
      {| Downloader.files :=
           <[Summary.order_id order ++ py ".pdf" := bytes]>
             (Downloader.files st);
         Downloader.results :=
           <[Summary.order_id order := Summary.order_id order ++ py ".pdf"]>
             (Downloader.results st);
         Downloader.skipped := Downloader.skipped st;
         Downloader.downloaded := S (Downloader.downloaded st);
         Downloader.failed := Downloader.failed st |}).
  { intros bytes Hfile. split; [simpl; lia|]. split; simpl.
    - intros name c Hn Hc.
      destruct (decide (name = Summary.order_id order ++ py ".pdf"))
        as [->|Hne].
      + pose proof (Hkeep _ _ Hn Hc) as Hk.
        destruct Hfile as [Hf|Hf]; rewrite Hf in Hk; congruence.
      + rewrite lookup_insert_ne by done. by apply Hkeep.
    - apply (results_insert_inv orders (Downloader.files st));
        [done | | | done].
      + intros name [c Hc].
        destruct (decide (name = Summary.order_id order ++ py ".pdf"))
          as [->|Hne].
        * by rewrite lookup_insert_eq.
        * rewrite lookup_insert_ne by done. by rewrite Hc.
      + by rewrite lookup_insert_eq. }
  assert (Hfail : download_inv orders dir (S n)
      {| Downloader.files := Downloader.files st;
         Downloader.results := Downloader.results st;
         Downloader.skipped := Downloader.skipped st;
         Downloader.downloaded := Downloader.downloaded st;
         Downloader.failed := S (Downloader.failed st) |}).
  { split; [simpl; lia|]. split; simpl; done. }
  unfold Downloader.step, Downloader.file_name_of.
  destruct (Downloader.files st !! (Summary.order_id order ++ py ".pdf"))
    as [[|b content]|] eqn:Hfile.
  - destruct (Summary.detail_url order) as [|u url]; [done|].
    destruct (get (u :: url)) as [bytes| |]; [|done|done].
    apply Hwrite. by right.
  - split; [simpl; lia|]. split; simpl; [done|].
    apply (results_insert_inv orders (Downloader.files st)); done.
  - destruct (Summary.detail_url order) as [|u url]; [done|].
    destruct (get (u :: url)) as [bytes| |]; [|done|done].
    apply Hwrite. by left.
Qed.

Lemma loop_inv (net : nat -> pystr -> Downloader.response)
  (all : list Summary.OrderRow)
  (dir : gmap (list N) (list N)) (orders : list Summary.OrderRow) :
  forall pre st,
    all = pre ++ orders ->
    download_inv all dir (length pre) st ->
    match Downloader.loop net (length pre) st orders with
    | Downloader.Returns st' => download_inv all dir (length all) st'
    | Downloader.Escapes st' =>
        exists i order,
          all !! i = Some order /\ Summary.detail_url order <> [] /\
          net i (Summary.detail_url order) = Downloader.OtherError /\
          download_inv all dir i st'
    end.
Proof.
  induction orders as [|o orders IH]; intros pre st Hall Hinv; simpl.
  - rewrite app_nil_r in Hall. by subst.
  - assert (Hat : all !! length pre = Some o).
    { rewrite Hall. by rewrite list_lookup_middle. }
    pose proof (step_inv (net (length pre)) all dir (length pre) st o
                  (list_elem_of_lookup_2 _ _ _ Hat) Hinv) as Hstep.
    destruct (Downloader.step (net (length pre)) st o) as [st'|st'].
    + specialize (IH (pre ++ [o]) st').
      rewrite length_app, Nat.add_1_r in IH.
      apply IH; [by rewrite <- app_assoc | done].
    + destruct Hstep as (-> & Hurl & Hget).
      by exists (length pre), o.
Qed.

(** X18: when [download_detail_pdfs] returns, it has counted every order
    once, as cached, downloaded or failed, and every entry of the dict it
    returns maps the order id of an order of the list to [order_id.pdf], a
    file that is there.  However the call ends, every non-empty file of the
    output directory is as it was.  The call returns unless a request
    raises an exception that is no [httpx.HTTPError]; that exception leaves
    the function at the first order that is not cached, has a link and
    meets it, the orders before it being counted and the others not
    reached. *)
Theorem download_accounts_for_every_order
  (net : nat -> pystr -> Downloader.response)
  (orders : list Summary.OrderRow) (dir : gmap (list N) (list N)) :
  let out := Downloader.download_detail_pdfs net orders dir in
  (forall st, out = Downloader.Returns st ->
     (Downloader.skipped st + Downloader.downloaded st + Downloader.failed st
      = length orders)%nat /\
     (forall oid path, Downloader.results st !! oid = Some path ->
        path = oid ++ py ".pdf" /\ is_Some (Downloader.files st !! path) /\
        exists order, order ∈ orders /\ Summary.order_id order = oid)) /\
  (forall name content, dir !! name = Some content -> content <> [] ->
     Downloader.files (final_state out) !! name = Some content) /\
  (forall st, out = Downloader.Escapes st ->
     exists i order,
       orders !! i = Some order /\ Summary.detail_url order <> [] /\
       net i (Summary.detail_url order) = Downloader.OtherError /\
       (Downloader.skipped st + Downloader.downloaded st
        + Downloader.failed st = i)%nat) /\
  ((forall i url, net i url <> Downloader.OtherError) ->
   exists st, out = Downloader.Returns st).
Proof.
  intros out.
  assert (H0 : download_inv orders dir 0
                 {| Downloader.files := dir; Downloader.results := ∅;
                    Downloader.skipped := 0; Downloader.downloaded := 0;
                    Downloader.failed := 0 |}).
  { split; [done|]. split; simpl; [done|].
    intros ? ? H. by rewrite lookup_empty in H. }
  pose proof (loop_inv net orders dir orders [] _ eq_refl H0) as Hloop.
  change (Downloader.loop net (length []) _ orders) with out in Hloop.
  destruct out as [st'|st'].
  - destruct Hloop as (Hcount & Hkeep & Hres).
    split; [by intros st [= <-]|]. split; [done|].
    split; [by intros st [=] | eauto].
  - destruct Hloop as (i & order & Hat & Hurl & Hget & Hcount & Hkeep & Hres).
    split; [by intros st [=]|]. split; [done|].
    split; [intros st [= <-]; by exists i, order|].
    intros Hnet. by destruct (Hnet i (Summary.detail_url order)).
Qed.

(** ** The handling-fee tax block and the instamart headers *)

Lemma handling_typed_float (taxes : gmap string pyval) (k : string)
  (x : pyfloat) :
  k ∈ handling_float_keys -> handling_typed taxes ->
  handling_typed (<[k := VFloat x]> taxes).
Proof.
  intros Hk Ht k' v Hv. destruct (decide (k' = k)) as [->|Hne].
  - rewrite lookup_insert_eq in Hv. injection Hv as <-. left. eauto.
  - rewrite lookup_insert_ne in Hv by done. by apply Ht.
Qed.

Lemma handling_typed_str (taxes : gmap string pyval) (k : string) (s : pystr) :
  k ∈ handling_str_keys -> handling_typed taxes ->
  handling_typed (<[k := VStr s]> taxes).
Proof.
  intros Hk Ht k' v Hv. destruct (decide (k' = k)) as [->|Hne].
  - rewrite lookup_insert_eq in Hv. injection Hv as <-. right. eauto.
  - rewrite lookup_insert_ne in Hv by done. by apply Ht.
Qed.

Lemma instamart_rate_and_amount (label rk ak : string) (t : pystr)
  (taxes : gmap string pyval) :
  rk ∈ handling_float_keys -> ak ∈ handling_float_keys ->
  handling_typed taxes ->
  (exists taxes',
     Instamart.rate_and_amount label rk ak t taxes = Ok taxes' /\
     handling_typed taxes' /\
     (forall k, k <> rk -> k <> ak -> taxes' !! k = taxes !! k) /\
     (search (rate_pattern label) t = None -> taxes' = taxes)) \/
  Instamart.rate_and_amount label rk ak t taxes = Raise ValueError.
Proof.
  intros Hrk Hak Ht. unfold Instamart.rate_and_amount.
  destruct (search (rate_pattern label) t) as [m|]; [|left; eauto].
  destruct (float_ok_or_value_error (Re.group m 1)) as [[r ->] | ->];
    [|by right].
  rewrite bind_ok.
  destruct (pf_total (Some (Re.group m 2))) as [a ->]. rewrite bind_ok.
  left. eexists. split; [done|]. split; [|split; [|done]].
  - by do 2 (apply handling_typed_float; [done|]).
  - intros k H1 H2. by rewrite !lookup_insert_ne.
Qed.

Lemma instamart_amount_or_zero (label key : string) (t : pystr)
  (taxes : gmap string pyval) :
  key ∈ handling_float_keys -> handling_typed taxes ->
  exists taxes' x,
    Instamart.amount_or_zero label key t taxes = Ok taxes' /\
    handling_typed taxes' /\
    taxes' !! key = Some (VFloat x) /\
    (forall k, k <> key -> taxes' !! k = taxes !! k) /\
    (search (total_pattern label) t = None -> x = zero).
Proof.
  intros Hk Ht. unfold Instamart.amount_or_zero.
  destruct (search (total_pattern label) t) as [m|].
  - destruct (pf_total (Some (Re.group m 1))) as [a ->]. rewrite bind_ok.
    exists (<[key := VFloat a]> taxes), a. split; [done|].
    split; [by apply handling_typed_float|].
    split; [by rewrite lookup_insert_eq|].
    split; [|done]. intros k Hne. by rewrite lookup_insert_ne.
  - exists (<[key := VFloat zero]> taxes), zero. split; [done|].
    split; [by apply handling_typed_float|].
    split; [by rewrite lookup_insert_eq|].
    split; [|done]. intros k Hne. by rewrite lookup_insert_ne.
Qed.

(** X19: [_parse_handling_tax] returns a dict or raises [ValueError] (a
    rate that [float] does not read).  The dict always has the two totals,
    [0.0] when their label is not found; a rate and its amount are absent
    when their label is not found; and every value has the type of its
    key, so each tax field of the fee, read with [.get(key, 0.0)], is a
    float, and the two HSN fields, read with [.get] and an empty default, are
    strings. *)
Theorem handling_tax_dict_is_typed (t : pystr) :
  (exists taxes,
     Instamart._parse_handling_tax t = Ok taxes /\
     (exists x, taxes !! "total_taxes" = Some (VFloat x) /\
        (search (total_pattern "Total taxes") t = None -> x = zero)) /\
     (exists x, taxes !! "invoice_total" = Some (VFloat x) /\
        (search (total_pattern "Invoice Total") t = None -> x = zero)) /\
     (search (rate_pattern "CGST") t = None ->
      taxes !! "cgst_rate" = None /\ taxes !! "cgst_amount" = None) /\
     (search (rate_pattern "SGST/UTGST") t = None ->
      taxes !! "sgst_rate" = None /\ taxes !! "sgst_amount" = None) /\
     (search (rate_pattern "State CESS") t = None ->
      taxes !! "state_cess_rate" = None /\
      taxes !! "state_cess_amount" = None) /\
     (forall k, k ∈ handling_float_keys ->
        exists x, get taxes k (VFloat zero) = VFloat x) /\
     (forall k, k ∈ handling_str_keys ->
        exists s, get taxes k (VStr []) = VStr s)) \/
  Instamart._parse_handling_tax t = Raise ValueError.
Proof.
  unfold Instamart._parse_handling_tax.
  assert (Hk : Forall (fun k => k ∈ handling_float_keys) handling_float_keys).
  { apply Forall_forall. auto. }
  unfold handling_float_keys at 2 in Hk.
  repeat match goal with
         | H : Forall _ (_ :: _) |- _ => apply Forall_cons in H as [? H]
         end.
  assert (Hempty : handling_typed ∅).
  { intros k v Hv. by rewrite lookup_empty in Hv. }
  destruct (instamart_rate_and_amount "CGST" "cgst_rate" "cgst_amount" t ∅)
    as [(t1 & -> & T1 & U1 & N1) | ->]; [done | done | done | | by right].
  rewrite bind_ok.
  destruct (instamart_rate_and_amount "SGST/UTGST" "sgst_rate" "sgst_amount"
              t t1)
    as [(t2 & -> & T2 & U2 & N2) | ->]; [done | done | done | | by right].
  rewrite bind_ok.
  destruct (instamart_rate_and_amount "State CESS" "state_cess_rate"
              "state_cess_amount" t t2)
    as [(t3 & -> & T3 & U3 & N3) | ->]; [done | done | done | | by right].
  rewrite bind_ok.
  destruct (instamart_amount_or_zero "Total taxes" "total_taxes" t t3)
    as (t4 & x4 & -> & T4 & L4 & U4 & Z4); [done | done |].
  rewrite bind_ok.
  destruct (instamart_amount_or_zero "Invoice Total" "invoice_total" t t4)
    as (t5 & x5 & -> & T5 & L5 & U5 & Z5); [done | done |].
  rewrite bind_ok.
  left.
  assert (Hshape : forall taxes : gmap string pyval,
    handling_typed taxes ->
    (forall k, k <> "hsn_code" -> k <> "hsn_description" ->
       taxes !! k = t5 !! k) ->
    (exists x, taxes !! "total_taxes" = Some (VFloat x) /\
        (search (total_pattern "Total taxes") t = None -> x = zero)) /\
     (exists x, taxes !! "invoice_total" = Some (VFloat x) /\
        (search (total_pattern "Invoice Total") t = None -> x = zero)) /\
     (search (rate_pattern "CGST") t = None ->
      taxes !! "cgst_rate" = None /\ taxes !! "cgst_amount" = None) /\
     (search (rate_pattern "SGST/UTGST") t = None ->
      taxes !! "sgst_rate" = None /\ taxes !! "sgst_amount" = None) /\
     (search (rate_pattern "State CESS") t = None ->
      taxes !! "state_cess_rate" = None /\
      taxes !! "state_cess_amount" = None) /\
     (forall k, k ∈ handling_float_keys ->
        exists x, get taxes k (VFloat zero) = VFloat x) /\
     (forall k, k ∈ handling_str_keys ->
        exists s, get taxes k (VStr []) = VStr s)).
  { intros taxes Ht Hsame.
    split; [|split; [|split; [|split; [|split; [|split]]]]].
    - exists x4. split; [|done].
      by rewrite Hsame, U5 by done.
    - exists x5. split; [|done]. by rewrite Hsame by done.
    - intros Hn. split; rewrite Hsame, U5, U4, U3, U2 by done;
        by rewrite (N1 Hn).
    - intros Hn. split; rewrite Hsame, U5, U4, U3 by done;
        rewrite (N2 Hn); by rewrite U1 by done.
    - intros Hn. split; rewrite Hsame, U5, U4 by done;
        rewrite (N3 Hn); by rewrite U2, U1 by done.
    - intros k Hin. unfold get.
      destruct (taxes !! k) as [v|] eqn:Hv; [|by eexists].
      destruct (Ht k v Hv) as [[_ [x ->]] | [Hs _]]; [by eexists|].
      exfalso. revert Hin Hs. unfold handling_float_keys, handling_str_keys.
      rewrite !elem_of_cons, !elem_of_nil. intuition congruence.
    - intros k Hin. unfold get.
      destruct (taxes !! k) as [v|] eqn:Hv; [|by eexists].
      destruct (Ht k v Hv) as [[Hf _] | [_ [s ->]]]; [|by eexists].
      exfalso. revert Hin Hf. unfold handling_float_keys, handling_str_keys.
      rewrite !elem_of_cons, !elem_of_nil. intuition congruence. }
  destruct (search Instamart.hsn_pattern t) as [m|].
  - eexists. split; [done|]. apply Hshape.
    + apply handling_typed_str; [repeat constructor|].
      apply handling_typed_str; [repeat constructor | done].
    + intros k ? ?. by rewrite !lookup_insert_ne.
  - exists t5. split; [done|]. by apply Hshape.
Qed.

(** X20: the two header dicts of the instamart extractor hold under each
    key the value its own pattern gives.  On the empty text every seller
    field is empty except the document type, ["INV"], and every handling
    field is empty except the reverse-charge field, ["No"]; the seller
    address comes from the second pattern when the first finds nothing. *)
Theorem instamart_headers_default_independently :
  (forall text key f,
     (key, f) ∈ Instamart.seller_fields ->
     Instamart._parse_seller_header text !! key = Some (f text)) /\
  (forall text key f,
     (key, f) ∈ Instamart.handling_fields ->
     Instamart._parse_handling_header text !! key = Some (f text)) /\
  (forall key f,
     (key, f) ∈ Instamart.seller_fields ->
     Instamart._parse_seller_header [] !! key
     = Some (if decide (key = "document_type") then py "INV" else [])) /\
  (forall key f,
     (key, f) ∈ Instamart.handling_fields ->
     Instamart._parse_handling_header [] !! key
     = Some (if decide (key = "reverse_charges") then py "No" else [])) /\
  (forall text,
     search Instamart.seller_address_pattern text = None ->
     Instamart._parse_seller_header text !! "seller_address"
     = Some (field Instamart.seller_address_fallback squeeze [] text)).
Proof.
  assert (Hs : forall text key f,
     (key, f) ∈ Instamart.seller_fields ->
     Instamart._parse_seller_header text !! key = Some (f text)).
  { intros text key f Hin. unfold Instamart._parse_seller_header.
    by rewrite (assign_all_lookup (fun f : pystr -> pystr => f text) _ key f
                  seller_keys_distinct Hin). }
  assert (Hh : forall text key f,
     (key, f) ∈ Instamart.handling_fields ->
     Instamart._parse_handling_header text !! key = Some (f text)).
  { intros text key f Hin. unfold Instamart._parse_handling_header.
    by rewrite (assign_all_lookup (fun f : pystr -> pystr => f text) _ key f
                  handling_keys_distinct Hin). }
  split; [done|]. split; [done|]. split; [|split].
  - intros key f Hin. rewrite (Hs _ _ _ Hin).
    unfold Instamart.seller_fields in Hin.
    repeat (apply elem_of_cons in Hin as [Heq | Hin];
            [simplify_eq; vm_compute; reflexivity |]).
    by apply elem_of_nil in Hin.
  - intros key f Hin. rewrite (Hh _ _ _ Hin).
    unfold Instamart.handling_fields in Hin.
    repeat (apply elem_of_cons in Hin as [Heq | Hin];
            [simplify_eq; vm_compute; reflexivity |]).
    by apply elem_of_nil in Hin.
  - intros text Hnone.
    rewrite (Hs text "seller_address" Instamart.seller_address_of).
    + unfold Instamart.seller_address_of. by rewrite Hnone.
    + unfold Instamart.seller_fields. do 11 apply list_elem_of_further.
      apply list_elem_of_here.
Qed.
